(** * Chat2Snack: order ledger and FPGA command protocol

    A shallow embedding of the controller code of Chat2Snack
    ([chat2snack_controller.py], [app.py] and [test.py]) together with the
    properties of its quantity table, command parser, bit-packing encoder
    and dispatch loop.

    Modelling conventions.
    - Python [int] is [Z]; [&], [|], [<<], [>>] are [Z.land], [Z.lor],
      [Z.shiftl], [Z.shiftr] (two's complement on negative numbers, as in
      Python).
    - Python [str] is [string]; a character is a code point below 256.
      String methods are modelled on that range ([str.isspace],
      [str.lower], and the decimal digits accepted by [int]).  [int] has
      the limit of 4300 digits that interpreters put on [int(str)].
    - The cart ([current_order]) and [FOOD_BIT_OFFSETS] are dictionaries
      with string keys: [gmap string Z].  The encoder folds a bitwise or
      over the items, so the iteration order of the dictionary does not
      influence its result.
    - [print] and [ser.write] are recorded, in order, in a trace of events.
    - Exceptions are explicit: a computation returns [Ok v] or [Raise e]
      together with the state reached. *)

From Stdlib Require Import ZArith String Ascii List Lia Bool.
From stdpp Require Import base gmap strings list fin_maps.

Local Open Scope string_scope.
Local Open Scope Z_scope.

(** ** Python string primitives *)

Module Py.

(** [str.isspace] on one character (code points below 256). *)
Definition isspace (c : ascii) : bool :=
  let n := nat_of_ascii c in
  ((9 <=? n) && (n <=? 13) || (28 <=? n) && (n <=? 32)
   || (n =? 133) || (n =? 160))%nat.

(** [str.lower] on one character. *)
Definition lower_char (c : ascii) : ascii :=
  let n := nat_of_ascii c in
  if ((65 <=? n) && (n <=? 90)
      || (192 <=? n) && (n <=? 222) && negb (n =? 215))%nat
  then ascii_of_nat (n + 32) else c.

Fixpoint lower (s : string) : string :=
  match s with
  | EmptyString => EmptyString
  | String c s' => String (lower_char c) (lower s')
  end.

(** Dropping the leading characters that satisfy [p]. *)
Fixpoint lstrip_by (p : ascii -> bool) (s : string) : string :=
  match s with
  | EmptyString => EmptyString
  | String c s' => if p c then lstrip_by p s' else s
  end.

(** Dropping the trailing characters that satisfy [p]. *)
Fixpoint rstrip_by (p : ascii -> bool) (s : string) : string :=
  match s with
  | EmptyString => EmptyString
  | String c s' =>
      match rstrip_by p s' with
      | EmptyString => if p c then EmptyString else String c EmptyString
      | r => String c r
      end
  end.

Definition strip_by (p : ascii -> bool) (s : string) : string :=
  rstrip_by p (lstrip_by p s).

(** [s.strip()] *)
Definition strip (s : string) : string := strip_by isspace s.

Fixpoint mem_char (c : ascii) (chars : string) : bool :=
  match chars with
  | EmptyString => false
  | String d chars' => Ascii.eqb c d || mem_char c chars'
  end.

(** [s.strip(chars)] *)
Definition strip_chars (chars s : string) : string :=
  strip_by (fun c => mem_char c chars) s.

(** [s.split(sep)] for a one-character separator: the pieces between the
    separators, empty pieces included; never the empty list. *)
Fixpoint split_on (sep : ascii) (s : string) : list string :=
  match s with
  | EmptyString => [EmptyString]
  | String c s' =>
      if Ascii.eqb c sep then EmptyString :: split_on sep s'
      else match split_on sep s' with
           | [] => [String c EmptyString]
           | w :: ws => String c w :: ws
           end
  end.

(** [s.split()]: the maximal runs of characters that are not white
    space. *)
Fixpoint split_ws_aux (cur : option string) (s : string) : list string :=
  match s with
  | EmptyString => match cur with Some w => [w] | None => [] end
  | String c s' =>
      if isspace c
      then match cur with
           | Some w => w :: split_ws_aux None s'
           | None => split_ws_aux None s'
           end
      else split_ws_aux
             (Some (match cur with
                    | Some w => w +:+ String c EmptyString
                    | None => String c EmptyString
                    end)) s'
  end.

Definition split (s : string) : list string := split_ws_aux None s.

(** The value of a decimal digit. *)
Definition digit_val (c : ascii) : option Z :=
  let n := nat_of_ascii c in
  if ((48 <=? n) && (n <=? 57))%nat then Some (Z.of_nat n - 48) else None.

(** The digits of an integer literal after its sign: a digit, then
    digits each optionally preceded by one underscore.  [acc] is the value
    read so far and [after_digit] tells whether the previous character was
    a digit (an underscore is allowed only there, and not at the end). *)
Fixpoint int_digits (acc : Z) (after_digit : bool) (s : string)
  : option Z :=
  match s with
  | EmptyString => if after_digit then Some acc else None
  | String c s' =>
      match digit_val c with
      | Some d => int_digits (10 * acc + d) true s'
      | None =>
          if Ascii.eqb c "_" && after_digit
          then match s' with
               | EmptyString => None
               | String c' _ =>
                   match digit_val c' with
                   | Some _ => int_digits acc false s'
                   | None => None
                   end
               end
          else None
      end
  end.

(** The white space that [int] passes over at both ends of its argument:
    that of [str.isspace] but for the separators U+001C to U+001F. *)
Definition int_space (c : ascii) : bool :=
  let n := nat_of_ascii c in
  ((9 <=? n) && (n <=? 13) || (n =? 32) || (n =? 133) || (n =? 160))%nat.

(** The number of decimal digits in a string. *)
Fixpoint count_digits (s : string) : Z :=
  match s with
  | EmptyString => 0
  | String c s' =>
      (match digit_val c with Some _ => 1 | None => 0 end) + count_digits s'
  end.

(** The limit of [int] on the number of digits of its argument
    ([sys.get_int_max_str_digits()]): the sign, the underscores and the
    surrounding white space do not count, leading zeros do. *)
Definition INT_MAX_STR_DIGITS : Z := 4300.

(** The literal after the sign: refused when it has more digits than the
    limit. *)
Definition int_literal (s : string) : option Z :=
  if count_digits s <=? INT_MAX_STR_DIGITS then int_digits 0 false s
  else None.

(** [int(s)]: [None] stands for [ValueError]. *)
Definition int (s : string) : option Z :=
  match strip_by int_space s with
  | String "+" s' => int_literal s'
  | String "-" s' => Z.opp <$> int_literal s'
  | s' => int_literal s'
  end.

(** The binary digits of a positive number, most significant first. *)
Fixpoint bin_pos (p : positive) : string :=
  match p with
  | xH => "1"
  | xO p' => bin_pos p' +:+ "0"
  | xI p' => bin_pos p' +:+ "1"
  end.

Fixpoint zeros (n : nat) : string :=
  match n with
  | O => EmptyString
  | S n' => String "0" (zeros n')
  end.

(** [f"{n:016b}"]: sign, then the binary digits padded with zeros on the
    left up to a total width of 16. *)
Definition format_016b (n : Z) : string :=
  match n with
  | Z0 => zeros 16
  | Zpos p => zeros (16 - String.length (bin_pos p)) +:+ bin_pos p
  | Zneg p => "-" +:+ zeros (15 - String.length (bin_pos p)) +:+ bin_pos p
  end.

End Py.

(** The line separator ['\n'] and the two quote characters. *)
Definition newline : ascii := ascii_of_nat 10.
Definition NL : string := String newline EmptyString.
Definition QUOTES : string :=
  String (ascii_of_nat 39) (String (ascii_of_nat 34) EmptyString).

(** ** Constants *)

Definition FOOD_BIT_OFFSETS : gmap string Z :=
  <["burger" := 0]> (<["fries" := 3]> (<["soda" := 6]>
    (<["ice_cream" := 9]> (<["pizza" := 12]> ∅)))).

Definition DISPENSE_BIT_OFFSET : Z := 15.
Definition MAX_QTY : Z := 7.

(** The cart holding the given quantities of the five items. *)
Definition mk_order (burger fries soda ice_cream pizza : Z) : gmap string Z :=
  <["burger" := burger]> (<["fries" := fries]> (<["soda" := soda]>
    (<["ice_cream" := ice_cream]> (<["pizza" := pizza]> ∅)))).

(** The value of [current_order] when the program starts. *)
Definition initial_order : gmap string Z := mk_order 0 0 0 0 0.

(** ** Effects: exceptions, the serial port, the trace *)

Inductive exn : Type :=
| TypeError | KeyError | ValueError | IndexError
| SerialException | OtherException.

Inductive outcome (A : Type) : Type :=
| Ok (a : A)
| Raise (e : exn).
Arguments Ok {A} a.
Arguments Raise {A} e.

(** What one use of the serial port does: the port opens and the write
    succeeds; opening raises [serial.SerialException]; the port opens and
    [ser.write] raises [serial.SerialException]; opening raises an exception
    of another class. *)
Inductive serial_outcome : Type :=
| SerOk | SerOpenError | SerWriteError | SerOtherError.

Inductive channel : Type := Terminal | Ui.

(** One constructor for each message the program prints, with the values
    it interpolates:
    - [MsgLlmResponse]: the echo of the text to process;
    - [MsgCurrentOrder]: the display of the cart (its heading, then the
      items with a positive quantity or the line for an empty cart);
    - [MsgPreview]: the preview of the command word and its rendering;
    - [MsgInvalidItem], [MsgUpdated]: the two answers of [update_order];
    - [MsgSending], [MsgSent], [MsgSimulated], [MsgSimulatedError]: the
      lines of [send_to_fpga];
    - [MsgDispensed]: the confirmation that the cart was cleared;
    - [MsgExceedsIgnoring], [MsgExceedsClamping]: the warning for a
      quantity above [MAX_QTY], in the controller and in [app.py];
    - [MsgMalformed], [MsgUnknown]: the warnings for a line that is not a
      command;
    - [MsgSending16], [MsgSentBytes]: the lines of [send_16bit_command]. *)
Inductive message : Type :=
| MsgLlmResponse (llm_output : string)
| MsgCurrentOrder (order : gmap string Z)
| MsgPreview (command : Z) (binary : string)
| MsgInvalidItem (food_item : string)
| MsgUpdated (action : string) (amount : Z) (food_item : string)
| MsgSending
| MsgSent
| MsgSimulated
| MsgSimulatedError
| MsgDispensed
| MsgExceedsIgnoring (qty : Z)
| MsgExceedsClamping (qty : Z) (item : string)
| MsgMalformed (line : string)
| MsgUnknown (line : string)
| MsgSending16 (command low_byte high_byte : Z)
| MsgSentBytes (n : nat).

(** What the program does to the outside, in order: a line printed to the
    terminal or to the interface, or a call of [ser.write]. *)
Inductive event : Type :=
| Print (ch : channel) (m : message)
| SerWrite (payload : list Z).

(** The state of the program: the cart, the number of times the serial
    port has been used, and the trace of what was printed and written. *)
Record world : Type := World {
  current_order : gmap string Z;
  attempts : nat;
  trace : list event
}.

(** A computation: from a state to a result, or an exception, and the
    state reached. *)
Definition M (A : Type) : Type := world -> outcome A * world.

Definition ret {A : Type} (a : A) : M A := fun w => (Ok a, w).

Definition raise {A : Type} (e : exn) : M A := fun w => (Raise e, w).

Definition bind {A B : Type} (m : M A) (k : A -> M B) : M B :=
  fun w =>
    match m w with
    | (Ok a, w') => k a w'
    | (Raise e, w') => (Raise e, w')
    end.

#[global] Instance M_ret : MRet M := @ret.
#[global] Instance M_bind : MBind M := fun A B k m => bind m k.

(** [try: body except (classes): handler] *)
Definition try_except {A : Type} (body : M A) (caught : exn -> bool)
    (handler : M A) : M A :=
  fun w =>
    match body w with
    | (Ok a, w') => (Ok a, w')
    | (Raise e, w') => if caught e then handler w' else (Raise e, w')
    end.

(** [for x in xs: body x] *)
Fixpoint for_each {A : Type} (xs : list A) (body : A -> M unit) : M unit :=
  match xs with
  | [] => ret tt
  | x :: xs' => body x;; for_each xs' body
  end.

Definition get_order : M (gmap string Z) := fun w => (Ok (current_order w), w).

Definition set_order (order : gmap string Z) : M unit :=
  fun w => (Ok tt, World order (attempts w) (trace w)).

Definition emit (e : event) : M unit :=
  fun w => (Ok tt, World (current_order w) (attempts w) (trace w ++ [e])).

(** [print(...)]: to the terminal. *)
Definition print (m : message) : M unit := emit (Print Terminal m).

(** [int(s)] as a computation: [ValueError] when [s] is no integer. *)
Definition int (s : string) : M Z :=
  match Py.int s with
  | Some n => ret n
  | None => raise ValueError
  end.

(** Opening the serial port: the outcome of this use of it. *)
Definition open_serial (serial : nat -> serial_outcome) : M serial_outcome :=
  fun w => (Ok (serial (attempts w)),
            World (current_order w) (S (attempts w)) (trace w)).


(** A call [f(name=value)] of a function whose only parameter is named
    [param]: [TypeError] when the keyword is not that name. *)
Definition call_kw {A B : Type} (param : string) (f : A -> M B)
    (name : string) (value : A) : M B :=
  if String.eqb name param then f value else raise TypeError.

(** [parts[i]] *)
Definition index (parts : list string) (i : nat) : M string :=
  match parts !! i with
  | Some p => ret p
  | None => raise IndexError
  end.

(** [current_order[food_item] = qty] *)
Definition set_item (food_item : string) (qty : Z) : M unit :=
  order ← get_order; set_order (<[food_item := qty]> order).

(** ** [chat2snack_controller.py] *)

Module Controller.

(** The loop of [generate_fpga_command]; [None] when [FOOD_BIT_OFFSETS]
    has no entry for an item of the cart ([KeyError]). *)
Definition encode_items (order : gmap string Z) : option Z :=
  map_fold
    (fun food qty acc =>
       command ← acc;
       offset ← FOOD_BIT_OFFSETS !! food;
       Some (Z.lor command (Z.shiftl (Z.land qty 0x7) offset)))
    (Some 0) order.

Definition generate_fpga_command (dispense_now : bool) : M (Z * string) :=
  order ← get_order;
  command ← match encode_items order with
            | Some command => ret command
            | None => raise KeyError
            end;
  let command :=
    if dispense_now then Z.lor command (Z.shiftl 1 DISPENSE_BIT_OFFSET)
    else command in
  ret (command, Py.format_016b command).

Definition generate_fpga_command_kw : string -> bool -> M (Z * string) :=
  call_kw "dispense_now" generate_fpga_command.

Definition display_current_order : M unit :=
  order ← get_order;
  print (MsgCurrentOrder order);;
  '(fpga_command, binary_representation) ←
     generate_fpga_command_kw "dispense_now" false;
  print (MsgPreview fpga_command binary_representation).

Definition update_order (food_item : string) (quantity : Z) : M unit :=
  order ← get_order;
  match order !! food_item with
  | None => print (MsgInvalidItem food_item)
  | Some old_qty =>
      let new_qty := old_qty + quantity in
      (if new_qty >? MAX_QTY then set_item food_item MAX_QTY
       else if new_qty <? 0 then set_item food_item 0
       else set_item food_item new_qty);;
      let action := if quantity >? 0 then "Added" else "Removed" in
      print (MsgUpdated action (Z.abs quantity) food_item);;
      display_current_order
  end.

(** The argument of [ser.write] in [send_to_fpga]. *)
Definition payload (command_int : Z) : list Z :=
  [Z.land (Z.shiftr command_int 8) 0xFF; Z.land command_int 0xFF].

Section WithSerial.
Variable serial : nat -> serial_outcome.

Definition send_to_fpga (command_int : Z) : M unit :=
  print MsgSending;;
  port ← open_serial serial;
  match port with
  | SerOk => emit (SerWrite (payload command_int));; print MsgSent
  | SerOpenError => print MsgSimulated
  | SerWriteError =>
      emit (SerWrite (payload command_int));; print MsgSimulated
  | SerOtherError => raise OtherException
  end.

(** [for food in current_order: current_order[food] = 0] *)
Definition clear_order : M unit :=
  order ← get_order;
  set_order (map_fold (fun food _ acc => <[food := 0]> acc) order order).

(** The body of the loop of [process_llm_response]. *)
Definition process_line (line : string) : M unit :=
  let clean_line := Py.strip_chars QUOTES (Py.strip line) in
  let parts := Py.split (Py.lower clean_line) in
  match parts with
  | [] => ret tt
  | command :: _ =>
      if String.eqb command "dispense" then
        '(final_command, _) ← generate_fpga_command_kw "dis1pense_now" true;
        send_to_fpga final_command;;
        clear_order;;
        print MsgDispensed;;
        display_current_order
      else if (String.eqb command "add" || String.eqb command "remove")
              && (length parts =? 3)%nat then
        try_except
          (item ← index parts 1;
           let item := Py.lower item in
           qty ← index parts 2 ≫= int;
           if qty >? MAX_QTY then print (MsgExceedsIgnoring qty)
           else
             let qty := if String.eqb command "remove" then - qty else qty in
             update_order item qty)
          (fun e => match e with
                    | ValueError | IndexError => true
                    | _ => false
                    end)
          (print (MsgMalformed line))
      else print (MsgUnknown line)
  end.

Definition process_llm_response (llm_output : string) : M unit :=
  print (MsgLlmResponse llm_output);;
  for_each (Py.split_on newline (Py.strip llm_output)) process_line.

End WithSerial.

End Controller.

(** ** [app.py] *)

Module App.

(** [ui_print(...)]: to the list of lines shown in the interface. *)
Definition ui_print (m : message) : M unit := emit (Print Ui m).

(** The loop of [generate_fpga_command]: an item without an entry in
    [FOOD_BIT_OFFSETS] is passed over. *)
Definition encode_items (order : gmap string Z) : Z :=
  map_fold
    (fun food qty command =>
       match FOOD_BIT_OFFSETS !! food with
       | Some offset => Z.lor command (Z.shiftl (Z.land qty 0x7) offset)
       | None => command
       end)
    0 order.

Definition generate_fpga_command (dispense_now : bool) : M (Z * string) :=
  order ← get_order;
  let command := encode_items order in
  let command :=
    if dispense_now then Z.lor command (Z.shiftl 1 DISPENSE_BIT_OFFSET)
    else command in
  ret (command, Py.format_016b command).

Definition generate_fpga_command_kw : string -> bool -> M (Z * string) :=
  call_kw "dispense_now" generate_fpga_command.

Definition display_current_order_cli : M unit :=
  order ← get_order;
  ui_print (MsgCurrentOrder order);;
  '(fpga_command, binary_representation) ←
     generate_fpga_command_kw "dispense_now" false;
  print (MsgPreview fpga_command binary_representation).

Definition update_order (food_item : string) (quantity : Z) : M bool :=
  order ← get_order;
  match order !! food_item with
  | None => ui_print (MsgInvalidItem food_item);; ret false
  | Some old_qty =>
      let new_qty := old_qty + quantity in
      (if new_qty >? MAX_QTY then set_item food_item MAX_QTY
       else if new_qty <? 0 then set_item food_item 0
       else set_item food_item new_qty);;
      let action := if quantity >? 0 then "Added" else "Removed" in
      ui_print (MsgUpdated action (Z.abs quantity) food_item);;
      display_current_order_cli;;
      ret true
  end.

(** The argument of [ser.write] in [send_to_fpga]. *)
Definition payload (command_int : Z) : list Z :=
  [Z.land (Z.shiftr command_int 8) 0xFF; Z.land command_int 0xFF].

Section WithSerial.
Variable serial : nat -> serial_outcome.

Definition send_to_fpga (command_int : Z) : M unit :=
  print MsgSending;;
  port ← open_serial serial;
  match port with
  | SerOk => emit (SerWrite (payload command_int));; print MsgSent
  | SerOpenError => print MsgSimulated
  | SerWriteError =>
      emit (SerWrite (payload command_int));; print MsgSimulated
  | SerOtherError => print MsgSimulatedError
  end.

(** [{k: 0 for k in st.session_state.current_order}] *)
Definition clear_order : M unit :=
  order ← get_order;
  set_order ((fun _ => 0) <$> order).

(** The body of the loop of [process_llm_response]. *)
Definition process_line (line : string) : M unit :=
  let clean_line := Py.strip_chars QUOTES (Py.strip line) in
  let parts := Py.split (Py.lower clean_line) in
  match parts with
  | [] => ret tt
  | command :: _ =>
      if String.eqb command "dispense" then
        '(final_command, _) ← generate_fpga_command_kw "dispense_now" true;
        send_to_fpga final_command;;
        clear_order;;
        ui_print MsgDispensed;;
        display_current_order_cli
      else if (String.eqb command "add" || String.eqb command "remove")
              && (length parts =? 3)%nat then
        try_except
          (item ← index parts 1;
           let item := Py.lower item in
           qty ← index parts 2 ≫= int;
           let item :=
             if String.eqb item "icecream" then "ice_cream" else item in
           (if qty >? MAX_QTY
            then ui_print (MsgExceedsClamping qty item);; ret MAX_QTY
            else ret qty) ≫= fun qty =>
           let qty := if String.eqb command "remove" then - qty else qty in
           update_order item qty;;
           ret tt)
          (fun e => match e with
                    | ValueError | IndexError => true
                    | _ => false
                    end)
          (ui_print (MsgMalformed line))
      else ui_print (MsgUnknown line)
  end.

Definition process_llm_response (llm_output : string) : M unit :=
  print (MsgLlmResponse llm_output);;
  let commands := Py.split_on newline (Py.strip llm_output) in
  for_each commands process_line.

End WithSerial.

End App.

(** ** [test.py] *)

Module Test.

(** [send_16bit_command(ser, command)] on an open port; [write_ok] tells
    whether [ser.write] returns or raises [serial.SerialException]. *)
Definition send_16bit_command (write_ok : bool) (command : Z) : M unit :=
  let low_byte := Z.land command 0xFF in
  let high_byte := Z.land (Z.shiftr command 8) 0xFF in
  let data_to_send := [low_byte; high_byte] in
  print (MsgSending16 command low_byte high_byte);;
  emit (SerWrite data_to_send);;
  if write_ok then print (MsgSentBytes (length data_to_send))
  else raise SerialException.

End Test.

(** ** Notions used in the statements *)

(** A cart has exactly the keys it has when the program starts. *)
Definition is_table (order : gmap string Z) : Prop :=
  dom order = dom initial_order.

(** Every quantity of the cart is within [0, MAX_QTY]. *)
Definition in_range (order : gmap string Z) : Prop :=
  map_Forall (fun _ qty => 0 <= qty <= MAX_QTY) order.

(** The three bits of [command] that start at bit [offset]. *)
Definition field (command offset : Z) : Z :=
  Z.land (Z.shiftr command offset) 0x7.

(** The command word for a value of the item loop and a dispense flag. *)
Definition command_word (dispense_now : bool) (items : Z) : Z :=
  if dispense_now then Z.lor items (Z.shiftl 1 DISPENSE_BIT_OFFSET) else items.

(** The new quantity that [update_order] stores. *)
Definition clamp (new_qty : Z) : Z :=
  if new_qty >? MAX_QTY then MAX_QTY
  else if new_qty <? 0 then 0
  else new_qty.

(** [encode(table, dispense_flag)]: the encoder run on a cart. *)
Definition controller_encode (order : gmap string Z) (dispense_now : bool)
  : outcome (Z * string) :=
  (Controller.generate_fpga_command dispense_now (World order 0 [])).1.

Definition app_encode (order : gmap string Z) (dispense_now : bool)
  : outcome (Z * string) :=
  (App.generate_fpga_command dispense_now (World order 0 [])).1.

(** The tokens of a line, as [process_llm_response] computes them. *)
Definition tokens (line : string) : list string :=
  Py.split (Py.lower (Py.strip_chars QUOTES (Py.strip line))).

(** The alias handling of [app.py]. *)
Definition canonical (item : string) : string :=
  if String.eqb item "icecream" then "ice_cream" else item.

(** The signed delta of a command: [remove] negates the quantity. *)
Definition signed (command : string) (qty : Z) : Z :=
  if String.eqb command "remove" then - qty else qty.

(** The quantity [app.py] goes on with for a parsed quantity. *)
Definition app_requested (qty : Z) : Z :=
  if qty >? MAX_QTY then MAX_QTY else qty.

(** The warning [app.py] prints for a parsed quantity above [MAX_QTY]. *)
Definition app_warning (qty : Z) (item : string) : list event :=
  if qty >? MAX_QTY then [Print Ui (MsgExceedsClamping qty item)] else [].

(** What the specification asks of a line processor for an [add] line
    whose quantity is above [MAX_QTY]: the addition is applied, the new
    quantity being clamped. *)
Definition add_over_max_applied (process_line : string -> M unit) : Prop :=
  forall (line item qtok : string) (qty old_qty : Z) (order : gmap string Z)
         (a : nat) (t : list event),
    is_table order -> in_range order ->
    tokens line = ["add"; item; qtok] ->
    Py.int qtok = Some qty -> MAX_QTY < qty ->
    order !! item = Some old_qty ->
    current_order (process_line line (World order a t)).2
    = <[item := clamp (old_qty + qty)]> order.

(** What the specification asks of a line processor for an [add] or
    [remove] line whose quantity is written negative: the cart is left as
    it is. *)
Definition negative_rejected (process_line : string -> M unit) : Prop :=
  forall (line command item qtok : string) (qty : Z) (w : world),
    is_table (current_order w) -> in_range (current_order w) ->
    tokens line = [command; item; qtok] ->
    command = "add" \/ command = "remove" ->
    Py.int qtok = Some qty -> qty < 0 ->
    current_order (process_line line w).2 = current_order w.

(** The block of three lines [add soda 2], [dispense], [add soda 1]. *)
Definition soda_block : string :=
  "add soda 2" +:+ NL +:+ "dispense" +:+ NL +:+ "add soda 1".

(** A sequence of [update_order] calls, one for each (item, delta). *)
Definition controller_updates (ops : list (string * Z)) : M unit :=
  for_each ops (fun op => Controller.update_order op.1 op.2).

Definition app_updates (ops : list (string * Z)) : M unit :=
  for_each ops (fun op => App.update_order op.1 op.2;; ret tt).

(** What [display_current_order] prints for a cart. *)
Definition display_events (ui : channel) (order : gmap string Z)
  : list event :=
  let command := App.encode_items order in
  [Print ui (MsgCurrentOrder order);
   Print Terminal (MsgPreview command (Py.format_016b command))].

(** What [update_order] prints after it has stored a quantity. *)
Definition update_events (ui : channel) (food_item : string) (quantity : Z)
    (order : gmap string Z) : list event :=
  Print ui (MsgUpdated (if quantity >? 0 then "Added" else "Removed")
              (Z.abs quantity) food_item)
  :: display_events ui order.

(** What [send_to_fpga] of [app.py] prints and writes, for an outcome of the
    serial port. *)
Definition app_send_events (port : serial_outcome) (command_int : Z)
  : list event :=
  Print Terminal MsgSending ::
  match port with
  | SerOk => [SerWrite (App.payload command_int); Print Terminal MsgSent]
  | SerOpenError => [Print Terminal MsgSimulated]
  | SerWriteError =>
      [SerWrite (App.payload command_int); Print Terminal MsgSimulated]
  | SerOtherError => [Print Terminal MsgSimulatedError]
  end.

(** ** The interactive modes of [chat2snack_controller.py] *)

Module Console.

(** The lines that [main_cli] and [main_ai_mode] print themselves: the
    invitation to enter a command, the two complaints of [main_cli], the
    farewell, the three lines about loading the model, and the report of an
    exception caught while a request was handled. *)
Inductive console_message : Type :=
| MsgEnterCommand
| MsgInvalidQuantity
| MsgInvalidCommand
| MsgExiting
| MsgLoading
| MsgLoaded
| MsgLoadError
| MsgInferenceError (e : exn).

(** What a session shows: an event of the controller functions, or a line
    of the interactive mode. *)
Inductive console_event : Type :=
| Core (e : event)
| Console (m : console_message).

(** The state of a session: the cart, the number of uses of the serial
    port, the number of requests made to the language model, the chat
    history [messages] (role and content), and what was shown. *)
Record session : Type := Session {
  cart : gmap string Z;
  uses : nat;
  calls : nat;
  messages : list (string * string);
  log : list console_event
}.

(** How an interactive loop stops: the user typed [exit], or every line
    typed so far is consumed and the loop waits in [input]. *)
Inductive loop_end : Type := Exited | AwaitingInput.

Definition C (A : Type) : Type := session -> outcome A * session.

Definition c_ret {A : Type} (a : A) : C A := fun s => (Ok a, s).

Definition c_raise {A : Type} (e : exn) : C A := fun s => (Raise e, s).

Definition c_bind {A B : Type} (m : C A) (k : A -> C B) : C B :=
  fun s =>
    match m s with
    | (Ok a, s') => k a s'
    | (Raise e, s') => (Raise e, s')
    end.

#[global] Instance C_ret : MRet C := @c_ret.
#[global] Instance C_bind : MBind C := fun A B k m => c_bind m k.

(** [try: body except (classes) as e: handler e] *)
Definition c_try {A : Type} (body : C A) (caught : exn -> bool)
    (handler : exn -> C A) : C A :=
  fun s =>
    match body s with
    | (Ok a, s') => (Ok a, s')
    | (Raise e, s') => if caught e then handler e s' else (Raise e, s')
    end.

(** A controller function run within a session: it works on the cart and
    the serial port of the session, and what it prints and writes is
    shown. *)
Definition lift {A : Type} (m : M A) : C A :=
  fun s =>
    let '(r, w) := m (World (cart s) (uses s) []) in
    (r, Session (current_order w) (attempts w) (calls s) (messages s)
          (log s ++ (Core <$> trace w))).

Definition console (m : console_message) : C unit :=
  fun s => (Ok tt, Session (cart s) (uses s) (calls s) (messages s)
                     (log s ++ [Console m])).

(** [messages.append({'role': role, 'content': content})] *)
Definition append_message (role content : string) : C unit :=
  fun s => (Ok tt, Session (cart s) (uses s) (calls s)
                     (messages s ++ [(role, content)]) (log s)).

(** [messages.pop()]: [IndexError] on the empty list. *)
Definition pop_message : C unit :=
  fun s =>
    match messages s with
    | [] => (Raise IndexError, s)
    | _ :: _ =>
        (Ok tt, Session (cart s) (uses s) (calls s)
                  (removelast (messages s)) (log s))
    end.

(** [messages = [...]] *)
Definition set_messages (history : list (string * string)) : C unit :=
  fun s => (Ok tt, Session (cart s) (uses s) (calls s) history (log s)).

(** The prompt that opens the chat history. *)
Definition system_prompt : string :=
  "You are an intelligent food ordering assistant for a machine called Chat2Snack. Your goal is to convert user's natural language into a structured command. The available food items are: burger, fries, soda, ice_cream, pizza. You MUST ONLY respond with one or more of the following commands, each on a new line: 'add [item] [quantity]', 'remove [item] [quantity]', 'dispense'. Do not add any other text, explanations, or greetings. Only output the commands.".

Section WithEnvironment.

(** The serial port, and the language model once loaded: the content of
    its reply to the [k]-th request with a given history, or the exception
    that the request or the access to the reply raises. *)
Variable serial : nat -> serial_outcome.
Variable llm : nat -> list (string * string) -> outcome string.

(** The body of the loop of [main_cli] after a line was read, and the loop
    on the lines the user types. *)
Fixpoint cli_loop (inputs : list string) : C loop_end :=
  match inputs with
  | [] => console MsgEnterCommand;; mret AwaitingInput
  | raw :: inputs' =>
      console MsgEnterCommand;;
      let user_input := Py.strip (Py.lower raw) in
      let parts := Py.split user_input in
      match parts with
      | [] => cli_loop inputs'
      | command :: _ =>
          if String.eqb command "exit" then mret Exited
          else if String.eqb command "dispense" then
            lift ('(final_command, _) ←
                    Controller.generate_fpga_command_kw "dispense_now" true;
                  Controller.send_to_fpga serial final_command;;
                  Controller.clear_order;;
                  print MsgDispensed;;
                  Controller.display_current_order);;
            cli_loop inputs'
          else if (String.eqb command "add" || String.eqb command "remove")
                  && (length parts =? 3)%nat then
            c_try
              (lift (item ← index parts 1;
                     let item := Py.lower item in
                     qty ← index parts 2 ≫= int;
                     let qty :=
                       if String.eqb command "remove" then - qty else qty in
                     Controller.update_order item qty))
              (fun e => match e with ValueError => true | _ => false end)
              (fun _ => console MsgInvalidQuantity);;
            cli_loop inputs'
          else console MsgInvalidCommand;; cli_loop inputs'
      end
  end.

Definition main_cli (inputs : list string) : C loop_end :=
  lift Controller.display_current_order;;
  r ← cli_loop inputs;
  match r with
  | Exited => console MsgExiting;; mret Exited
  | AwaitingInput => mret AwaitingInput
  end.

(** One request to the language model: [create_chat_completion] on the
    history and the access to the content of the reply. *)
Definition chat_completion : C string :=
  fun s =>
    (llm (calls s) (messages s),
     Session (cart s) (uses s) (S (calls s)) (messages s) (log s)).

(** The loop of [main_ai_mode] on the lines the user types. *)
Fixpoint ai_loop (inputs : list string) : C loop_end :=
  match inputs with
  | [] => mret AwaitingInput
  | raw :: inputs' =>
      let user_input := Py.strip raw in
      if String.eqb (Py.lower user_input) "exit" then mret Exited
      else
        append_message "user" user_input;;
        c_try
          (llm_output ← chat_completion;
           append_message "assistant" llm_output;;
           lift (Controller.process_llm_response serial llm_output))
          (fun _ => true)
          (fun e => console (MsgInferenceError e);; pop_message);;
        ai_loop inputs'
  end.

(** [main_ai_mode]; [loaded] tells whether [Llama.from_pretrained]
    returned the model or raised. *)
Definition main_ai_mode (loaded : bool) (inputs : list string)
  : C (option loop_end) :=
  console MsgLoading;;
  if loaded then
    console MsgLoaded;;
    set_messages [("system", system_prompt)];;
    lift Controller.display_current_order;;
    r ← ai_loop inputs;
    match r with
    | Exited => console MsgExiting;; mret (Some Exited)
    | AwaitingInput => mret (Some AwaitingInput)
    end
  else console MsgLoadError;; mret None.

End WithEnvironment.

End Console.

(** ** Notions used in the further statements *)

(** An event that is a printed line, not a write to the serial port. *)
Definition is_print (e : event) : Prop :=
  match e with
  | Print _ _ => True
  | SerWrite _ => False
  end.

(** A line whose first token is [dispense]. *)
Definition dispense_line (line : string) : Prop :=
  head (tokens line) = Some "dispense".

(** The lines of a text, as [process_llm_response] splits it. *)
Definition lines_of (llm_output : string) : list string :=
  Py.split_on newline (Py.strip llm_output).

(** The lines that come before the first line that dispenses. *)
Fixpoint before_dispense (lines : list string) : list string :=
  match lines with
  | [] => []
  | line :: lines' =>
      if decide (dispense_line line) then []
      else line :: before_dispense lines'
  end.

(** The tokens of a line typed in [main_cli]. *)
Definition cli_tokens (raw : string) : list string :=
  Py.split (Py.strip (Py.lower raw)).

(** What [send_to_fpga] of the controller prints and writes, for an
    outcome of the serial port; with an exception that is not a
    [SerialException] it stops after its first line. *)
Definition controller_send_events (port : serial_outcome) (command_int : Z)
  : list event :=
  Print Terminal MsgSending ::
  match port with
  | SerOk => [SerWrite (Controller.payload command_int); Print Terminal MsgSent]
  | SerOpenError => [Print Terminal MsgSimulated]
  | SerWriteError =>
      [SerWrite (Controller.payload command_int); Print Terminal MsgSimulated]
  | SerOtherError => []
  end.

(** A session after more was shown, the cart and the serial port being
    what they are told to be. *)
Definition shown (s : Console.session) (order : gmap string Z) (a : nat)
    (evs : list Console.console_event) : Console.session :=
  Console.Session order a (Console.calls s) (Console.messages s)
    (Console.log s ++ evs).

(** Something shown that is not a write to the serial port. *)
Definition quiet (e : Console.console_event) : Prop :=
  match e with
  | Console.Core (SerWrite _) => False
  | _ => True
  end.

(** The chat history after one request of [main_ai_mode]: the history
    before, the line of the user, and the reply of the model as
    [create_chat_completion] gave it for the history with that line. *)
Definition history_after (history : list (string * string))
    (user_input : string) (reply : outcome string)
  : list (string * string) :=
  match reply with
  | Raise _ => history
  | Ok llm_output =>
      if decide (Exists dispense_line (lines_of llm_output))
      then history ++ [("user", user_input)]
      else history ++ [("user", user_input); ("assistant", llm_output)]
  end.

(** ** The bit layout *)

Lemma offsets_inv (food : string) (offset : Z) :
  FOOD_BIT_OFFSETS !! food = Some offset ->
  (food = "burger" /\ offset = 0) \/ (food = "fries" /\ offset = 3) \/
  (food = "soda" /\ offset = 6) \/ (food = "ice_cream" /\ offset = 9) \/
  (food = "pizza" /\ offset = 12).
Proof.
  unfold FOOD_BIT_OFFSETS.
  rewrite !lookup_insert_Some, lookup_empty.
  intros H. repeat destruct H as [[<- <-]|[_ H]]; auto 10. discriminate.
Qed.

Lemma offsets_range (food : string) (offset : Z) :
  FOOD_BIT_OFFSETS !! food = Some offset ->
  0 <= offset <= 12 /\ offset mod 3 = 0.
Proof.
  intros H. apply offsets_inv in H.
  destruct H as [[_ ->]|[[_ ->]|[[_ ->]|[[_ ->]|[_ ->]]]]]; split; (lia || reflexivity).
Qed.

Lemma offsets_inj (food1 food2 : string) (offset : Z) :
  FOOD_BIT_OFFSETS !! food1 = Some offset ->
  FOOD_BIT_OFFSETS !! food2 = Some offset ->
  food1 = food2.
Proof.
  intros H1 H2. apply offsets_inv in H1. apply offsets_inv in H2.
  destruct H1 as [[-> ->]|[[-> ->]|[[-> ->]|[[-> ->]|[-> ->]]]]];
    destruct H2 as [[-> ?]|[[-> ?]|[[-> ?]|[[-> ?]|[-> ?]]]]];
    (reflexivity || lia).
Qed.

Lemma dom_offsets : dom FOOD_BIT_OFFSETS = dom initial_order.
Proof.
  unfold FOOD_BIT_OFFSETS, initial_order, mk_order.
  rewrite !dom_insert_L. reflexivity.
Qed.

(** A bit of the shifted three-bit field of one item. *)
Lemma item_bits (qty offset n : Z) :
  0 <= offset ->
  Z.testbit (Z.shiftl (Z.land qty 0x7) offset) n =
  Z.testbit qty (n - offset) && (0 <=? n - offset) && (n - offset <? 3).
Proof.
  intros Hoff.
  destruct (Z.ltb_spec n 0) as [Hn|Hn].
  - rewrite Z.testbit_neg_r by assumption.
    destruct (Z.leb_spec 0 (n - offset)); [lia|].
    now rewrite andb_false_r.
  - rewrite Z.shiftl_spec by assumption.
    destruct (Z.leb_spec 0 (n - offset)) as [Hm|Hm].
    + rewrite Z.land_spec. change 0x7 with (Z.ones 3).
      rewrite Z.testbit_ones_nonneg by lia.
      now rewrite andb_true_r.
    + rewrite Z.testbit_neg_r by lia. now rewrite andb_false_r.
Qed.

(** The bits of the value of the item loop: the union of the fields. *)
Lemma app_encode_items_bits (order : gmap string Z) (n : Z) :
  Z.testbit (App.encode_items order) n = true <->
  exists food qty offset,
    order !! food = Some qty /\ FOOD_BIT_OFFSETS !! food = Some offset /\
    Z.testbit (Z.shiftl (Z.land qty 0x7) offset) n = true.
Proof.
  unfold App.encode_items. revert n.
  apply (map_fold_weak_ind (fun r (m : gmap string Z) => forall n,
    Z.testbit r n = true <->
    exists food qty offset,
      m !! food = Some qty /\ FOOD_BIT_OFFSETS !! food = Some offset /\
      Z.testbit (Z.shiftl (Z.land qty 0x7) offset) n = true)).
  - intros n. rewrite Z.bits_0. split; [discriminate|].
    intros (food & qty & offset & H & _). now rewrite lookup_empty in H.
  - intros food qty m r Hfresh IH n.
    destruct (FOOD_BIT_OFFSETS !! food) as [offset|] eqn:Hoff.
    + rewrite Z.lor_spec, orb_true_iff, IH. split.
      * intros [(food' & qty' & offset' & Hq & Ho & Hb)|Hb].
        -- exists food', qty', offset'. split; [|auto].
           rewrite lookup_insert_ne; [assumption|congruence].
        -- exists food, qty, offset. now rewrite lookup_insert_eq.
      * intros (food' & qty' & offset' & Hq & Ho & Hb).
        apply lookup_insert_Some in Hq.
        destruct Hq as [[-> ->]|[Hne Hq]].
        -- right. congruence.
        -- left. eauto 6.
    + rewrite IH. split.
      * intros (food' & qty' & offset' & Hq & Ho & Hb).
        exists food', qty', offset'. split; [|auto].
        rewrite lookup_insert_ne; [assumption|congruence].
      * intros (food' & qty' & offset' & Hq & Ho & Hb).
        apply lookup_insert_Some in Hq.
        destruct Hq as [[-> ->]|[Hne Hq]]; [congruence|eauto 6].
Qed.

Lemma app_encode_items_field (order : gmap string Z) (food : string)
    (qty offset : Z) :
  order !! food = Some qty ->
  FOOD_BIT_OFFSETS !! food = Some offset ->
  field (App.encode_items order) offset = Z.land qty 0x7.
Proof.
  intros Hq Ho. unfold field. apply Z.bits_inj'. intros n Hn.
  pose proof (offsets_range _ _ Ho) as [Hr Hm].
  rewrite !Z.land_spec, Z.shiftr_spec by assumption.
  change 0x7 with (Z.ones 3). rewrite Z.testbit_ones_nonneg by lia.
  destruct (Z.ltb_spec n 3) as [Hn3|Hn3];
    [rewrite !andb_true_r | now rewrite !andb_false_r].
  apply eq_true_iff_eq. rewrite app_encode_items_bits. split.
  - intros (food' & qty' & offset' & Hq' & Ho' & Hb).
    pose proof (offsets_range _ _ Ho') as [Hr' Hm'].
    rewrite item_bits in Hb by lia.
    apply andb_true_iff in Hb as [Hb Hlt]. apply andb_true_iff in Hb as [Hb Hle].
    apply Z.ltb_lt in Hlt. apply Z.leb_le in Hle.
    assert (offset' = offset) as -> by (Z.div_mod_to_equations; lia).
    rewrite (offsets_inj _ _ _ Ho' Ho) in Hq'.
    replace (n + offset - offset) with n in Hb by lia. congruence.
  - intros Hb. exists food, qty, offset. repeat split; try assumption.
    rewrite item_bits by lia.
    replace (n + offset - offset) with n by lia. rewrite Hb. simpl.
    apply andb_true_iff. split; [apply Z.leb_le|apply Z.ltb_lt]; lia.
Qed.

(** No field reaches bit 15. *)
Lemma app_encode_items_high (order : gmap string Z) (n : Z) :
  15 <= n -> Z.testbit (App.encode_items order) n = false.
Proof.
  intros Hn. apply not_true_is_false. intros Hb.
  apply app_encode_items_bits in Hb
    as (food & qty & offset & Hq & Ho & Hb).
  pose proof (offsets_range _ _ Ho) as [Hr _].
  rewrite item_bits in Hb by lia.
  apply andb_true_iff in Hb as [_ Hlt]. apply Z.ltb_lt in Hlt. lia.
Qed.

(** A number whose bits from [k] upwards are all clear is in [0, 2^k). *)
Lemma bits_clear_bound (a k : Z) :
  0 <= k -> (forall n, k <= n -> Z.testbit a n = false) -> 0 <= a < 2 ^ k.
Proof.
  intros Hk Hbits.
  assert (0 <= a) as Ha.
  { apply Z.bits_iff_nonneg_ex. exists k. intros m Hm. apply Hbits. lia. }
  split; [assumption|].
  destruct (Z.eq_dec a 0) as [->|Hnz]; [apply Z.pow_pos_nonneg; lia|].
  apply Z.log2_lt_pow2; [lia|].
  destruct (Z.lt_ge_cases (Z.log2 a) k) as [Hlt|Hge]; [assumption|].
  specialize (Hbits _ Hge). rewrite Z.bit_log2 in Hbits by lia. discriminate.
Qed.

Lemma app_encode_items_bound (order : gmap string Z) :
  0 <= App.encode_items order < 2 ^ 15.
Proof. apply bits_clear_bound; [lia|]. apply app_encode_items_high. Qed.

(** The bits of the command word: bit 15 is the dispense flag. *)
Lemma command_word_bits (dispense_now : bool) (items n : Z) :
  Z.testbit (command_word dispense_now items) n =
  Z.testbit items n || (dispense_now && (n =? 15)).
Proof.
  unfold command_word, DISPENSE_BIT_OFFSET. destruct dispense_now; simpl.
  - rewrite Z.lor_spec. f_equal.
    change (Z.shiftl 1 15) with (2 ^ 15).
    destruct (Z.ltb_spec n 0) as [Hn|Hn].
    + rewrite Z.testbit_neg_r by assumption. symmetry. apply Z.eqb_neq. lia.
    + rewrite Z.pow2_bits_eqb by lia. apply Z.eqb_sym.
  - now rewrite orb_false_r.
Qed.

Lemma command_word_bound (dispense_now : bool) (order : gmap string Z) :
  0 <= command_word dispense_now (App.encode_items order) < 2 ^ 16.
Proof.
  apply bits_clear_bound; [lia|]. intros n Hn.
  rewrite command_word_bits, app_encode_items_high by lia.
  replace (n =? 15) with false by (symmetry; apply Z.eqb_neq; lia).
  now rewrite andb_false_r.
Qed.

(** On a cart whose items all have an offset, the loop of the controller
    computes what the loop of [app.py] computes. *)
Lemma controller_encode_items (order : gmap string Z) :
  dom order ⊆ dom FOOD_BIT_OFFSETS ->
  Controller.encode_items order = Some (App.encode_items order).
Proof.
  unfold Controller.encode_items, App.encode_items.
  induction order as [|food qty m Hfresh Hfirst IH] using map_first_key_ind;
    intros Hdom.
  - now rewrite !map_fold_empty.
  - rewrite !(map_fold_insert_first_key _ _ m food qty) by assumption.
    rewrite dom_insert in Hdom.
    rewrite IH by set_solver. simpl.
    assert (food ∈ dom FOOD_BIT_OFFSETS) as Hin by set_solver.
    apply elem_of_dom in Hin as [offset Hoff]. now rewrite Hoff.
Qed.

(** ** The binary rendering *)

Lemma length_append (s1 s2 : string) :
  String.length (s1 +:+ s2) = (String.length s1 + String.length s2)%nat.
Proof. induction s1 as [|c s1 IH]; simpl; [reflexivity|now rewrite IH]. Qed.

Lemma length_zeros (n : nat) : String.length (Py.zeros n) = n.
Proof. induction n as [|n IH]; simpl; [reflexivity|now rewrite IH]. Qed.

(** A positive number is at least two to the number of its digits less
    one. *)
Lemma bin_pos_length (p : positive) :
  (1 <= String.length (Py.bin_pos p))%nat /\
  2 ^ (Z.of_nat (String.length (Py.bin_pos p)) - 1) <= Z.pos p.
Proof.
  induction p as [p [IH1 IH2]|p [IH1 IH2]|]; simpl Py.bin_pos.
  - rewrite length_append. simpl String.length. split; [lia|].
    replace (Z.of_nat (String.length (Py.bin_pos p) + 1) - 1)
      with (Z.succ (Z.of_nat (String.length (Py.bin_pos p)) - 1)) by lia.
    rewrite Z.pow_succ_r by lia. lia.
  - rewrite length_append. simpl String.length. split; [lia|].
    replace (Z.of_nat (String.length (Py.bin_pos p) + 1) - 1)
      with (Z.succ (Z.of_nat (String.length (Py.bin_pos p)) - 1)) by lia.
    rewrite Z.pow_succ_r by lia. lia.
  - simpl. split; lia.
Qed.

Lemma format_016b_length (n : Z) :
  0 <= n < 2 ^ 16 -> String.length (Py.format_016b n) = 16%nat.
Proof.
  intros [Hlo Hhi]. destruct n as [|p|p]; [reflexivity| |lia].
  unfold Py.format_016b. rewrite length_append, length_zeros.
  destruct (bin_pos_length p) as [H1 H2].
  assert (Z.of_nat (String.length (Py.bin_pos p)) - 1 < 16) as Hlt.
  { apply (Z.pow_lt_mono_r_iff 2); lia. }
  lia.
Qed.

(** ** Running the controller functions *)

Ltac run :=
  cbv beta iota zeta delta
    [mbind mret M_bind M_ret bind ret raise get_order set_order set_item emit
     print App.ui_print open_serial try_except call_kw index int].

Lemma app_generate_fpga_command_run (dispense_now : bool)
    (order : gmap string Z) (a : nat) (t : list event) :
  App.generate_fpga_command dispense_now (World order a t) =
  (Ok (command_word dispense_now (App.encode_items order),
       Py.format_016b (command_word dispense_now (App.encode_items order))),
   World order a t).
Proof. reflexivity. Qed.

Lemma controller_generate_fpga_command_run (dispense_now : bool)
    (order : gmap string Z) (a : nat) (t : list event) :
  dom order ⊆ dom FOOD_BIT_OFFSETS ->
  Controller.generate_fpga_command dispense_now (World order a t) =
  (Ok (command_word dispense_now (App.encode_items order),
       Py.format_016b (command_word dispense_now (App.encode_items order))),
   World order a t).
Proof.
  intros Hdom. unfold Controller.generate_fpga_command. run. simpl.
  now rewrite (controller_encode_items _ Hdom).
Qed.

Lemma app_display_run (order : gmap string Z) (a : nat) (t : list event) :
  App.display_current_order_cli (World order a t) =
  (Ok tt, World order a (t ++ display_events Ui order)).
Proof.
  unfold App.display_current_order_cli, App.generate_fpga_command_kw. run.
  simpl. now rewrite <- app_assoc.
Qed.

Lemma controller_display_run (order : gmap string Z) (a : nat)
    (t : list event) :
  dom order ⊆ dom FOOD_BIT_OFFSETS ->
  Controller.display_current_order (World order a t) =
  (Ok tt, World order a (t ++ display_events Terminal order)).
Proof.
  intros Hdom.
  unfold Controller.display_current_order, Controller.generate_fpga_command_kw.
  run. simpl. rewrite (controller_generate_fpga_command_run _ _ _ _ Hdom).
  simpl. now rewrite <- app_assoc.
Qed.

(** The three branches of [update_order] store the clamped quantity. *)
Lemma store_clamped (food_item : string) (new_qty : Z) (w : world) :
  (if new_qty >? MAX_QTY then set_item food_item MAX_QTY
   else if new_qty <? 0 then set_item food_item 0
   else set_item food_item new_qty) w =
  (Ok tt, World (<[food_item := clamp new_qty]> (current_order w))
            (attempts w) (trace w)).
Proof.
  unfold clamp.
  destruct (new_qty >? MAX_QTY); [reflexivity|].
  destruct (new_qty <? 0); reflexivity.
Qed.

Lemma clamp_range (new_qty : Z) : 0 <= clamp new_qty <= MAX_QTY.
Proof.
  unfold clamp, MAX_QTY.
  destruct (Z.gtb_spec new_qty 7); [lia|].
  destruct (Z.ltb_spec new_qty 0); lia.
Qed.

Lemma app_update_order_known (food_item : string) (quantity old_qty : Z)
    (order : gmap string Z) (a : nat) (t : list event) :
  order !! food_item = Some old_qty ->
  let order' := <[food_item := clamp (old_qty + quantity)]> order in
  App.update_order food_item quantity (World order a t) =
  (Ok true,
   World order' a (t ++ update_events Ui food_item quantity order')).
Proof.
  intros Hq order'. unfold App.update_order.
  cbv beta iota zeta delta [mbind M_bind bind get_order current_order].
  rewrite Hq.
  cbv beta iota zeta delta [mbind M_bind bind].
  rewrite store_clamped. run. cbn [current_order attempts trace]. fold order'.
  rewrite app_display_run. unfold update_events.
  now rewrite <- app_assoc.
Qed.

Lemma app_update_order_unknown (food_item : string) (quantity : Z)
    (order : gmap string Z) (a : nat) (t : list event) :
  order !! food_item = None ->
  App.update_order food_item quantity (World order a t) =
  (Ok false, World order a (t ++ [Print Ui (MsgInvalidItem food_item)])).
Proof.
  intros Hq. unfold App.update_order.
  cbv beta iota zeta delta [mbind M_bind bind get_order current_order].
  rewrite Hq. reflexivity.
Qed.

Lemma controller_update_order_known (food_item : string)
    (quantity old_qty : Z) (order : gmap string Z) (a : nat)
    (t : list event) :
  dom order ⊆ dom FOOD_BIT_OFFSETS ->
  order !! food_item = Some old_qty ->
  let order' := <[food_item := clamp (old_qty + quantity)]> order in
  Controller.update_order food_item quantity (World order a t) =
  (Ok tt,
   World order' a (t ++ update_events Terminal food_item quantity order')).
Proof.
  intros Hdom Hq order'. unfold Controller.update_order.
  cbv beta iota zeta delta [mbind M_bind bind get_order current_order].
  rewrite Hq.
  cbv beta iota zeta delta [mbind M_bind bind].
  rewrite store_clamped. run. cbn [current_order attempts trace]. fold order'.
  rewrite controller_display_run.
  - unfold update_events. now rewrite <- app_assoc.
  - unfold order'. rewrite dom_insert.
    apply union_subseteq. split; [|assumption].
    apply singleton_subseteq_l, Hdom, elem_of_dom. eauto.
Qed.

Lemma controller_update_order_unknown (food_item : string) (quantity : Z)
    (order : gmap string Z) (a : nat) (t : list event) :
  order !! food_item = None ->
  Controller.update_order food_item quantity (World order a t) =
  (Ok tt, World order a (t ++ [Print Terminal (MsgInvalidItem food_item)])).
Proof.
  intros Hq. unfold Controller.update_order.
  cbv beta iota zeta delta [mbind M_bind bind get_order current_order].
  rewrite Hq. reflexivity.
Qed.

(** Displaying the cart never changes it, also when the preview fails. *)
Lemma controller_display_order (w : world) :
  current_order (Controller.display_current_order w).2 = current_order w.
Proof.
  unfold Controller.display_current_order, Controller.generate_fpga_command_kw,
    Controller.generate_fpga_command.
  destruct w as [order a t]. run. simpl.
  destruct (Controller.encode_items order); reflexivity.
Qed.

(** The cart after [update_order] of the controller, on any cart. *)
Lemma controller_update_order_cart (food_item : string) (quantity : Z)
    (w : world) :
  current_order (Controller.update_order food_item quantity w).2 =
  match current_order w !! food_item with
  | Some old_qty =>
      <[food_item := clamp (old_qty + quantity)]> (current_order w)
  | None => current_order w
  end.
Proof.
  destruct w as [order a t]. unfold Controller.update_order.
  cbv beta iota zeta delta [mbind M_bind bind get_order]. simpl.
  destruct (order !! food_item) as [old_qty|]; [|reflexivity].
  cbv beta iota zeta delta [mbind M_bind bind].
  rewrite store_clamped. run. simpl.
  now rewrite controller_display_order.
Qed.

Lemma app_update_order_cart (food_item : string) (quantity : Z) (w : world) :
  current_order (App.update_order food_item quantity w).2 =
  match current_order w !! food_item with
  | Some old_qty =>
      <[food_item := clamp (old_qty + quantity)]> (current_order w)
  | None => current_order w
  end.
Proof.
  destruct w as [order a t]. simpl current_order.
  destruct (order !! food_item) as [old_qty|] eqn:Hq.
  - now rewrite (app_update_order_known _ _ _ _ _ _ Hq).
  - now rewrite (app_update_order_unknown _ _ _ _ _ Hq).
Qed.

(** ** Carts *)

Lemma is_table_offsets (order : gmap string Z) :
  is_table order -> dom order ⊆ dom FOOD_BIT_OFFSETS.
Proof. unfold is_table. intros ->. now rewrite dom_offsets. Qed.

Lemma mk_order_is_table (b f s i p : Z) : is_table (mk_order b f s i p).
Proof.
  unfold is_table, initial_order, mk_order. now rewrite !dom_insert_L.
Qed.

Lemma mk_order_in_range (b f s i p : Z) :
  0 <= b <= 7 -> 0 <= f <= 7 -> 0 <= s <= 7 -> 0 <= i <= 7 -> 0 <= p <= 7 ->
  in_range (mk_order b f s i p).
Proof.
  intros Hb Hf Hs Hi Hp. unfold in_range, mk_order, MAX_QTY.
  repeat (apply map_Forall_insert_2; [assumption|]).
  apply map_Forall_empty.
Qed.

(** The keys of the cart. *)
Lemma initial_order_dom (food : string) :
  food ∈ dom initial_order <->
  food = "burger" \/ food = "fries" \/ food = "soda" \/
  food = "ice_cream" \/ food = "pizza".
Proof.
  unfold initial_order, mk_order. rewrite !dom_insert_L, dom_empty_L.
  rewrite !elem_of_union, !elem_of_singleton, elem_of_empty. tauto.
Qed.

(** Every cart with the five keys is built by [mk_order]. *)
Lemma is_table_inv (order : gmap string Z) :
  is_table order ->
  exists b f s i p, order = mk_order b f s i p.
Proof.
  intros Ht.
  assert (forall food, food ∈ dom initial_order -> is_Some (order !! food))
    as Hsome.
  { intros food Hin. apply elem_of_dom. now rewrite Ht. }
  assert (forall food, food ∉ dom initial_order -> order !! food = None)
    as Hnone.
  { intros food Hout. apply not_elem_of_dom. now rewrite Ht. }
  destruct (Hsome "burger") as [b Hb]; [apply initial_order_dom; auto 10|].
  destruct (Hsome "fries") as [f Hf]; [apply initial_order_dom; auto 10|].
  destruct (Hsome "soda") as [s Hs]; [apply initial_order_dom; auto 10|].
  destruct (Hsome "ice_cream") as [i Hi]; [apply initial_order_dom; auto 10|].
  destruct (Hsome "pizza") as [p Hp]; [apply initial_order_dom; auto 10|].
  exists b, f, s, i, p. apply map_eq. intros food. unfold mk_order.
  repeat (rewrite lookup_insert; case_decide; [now subst|]).
  rewrite lookup_empty. apply Hnone. rewrite initial_order_dom.
  intros Hin. repeat destruct Hin as [Hin|Hin]; congruence.
Qed.

(** Storing a quantity for an item of the cart keeps its keys. *)
Lemma is_table_insert (order : gmap string Z) (food_item : string)
    (old_qty qty : Z) :
  order !! food_item = Some old_qty ->
  is_table order -> is_table (<[food_item := qty]> order).
Proof.
  unfold is_table. intros Hq <-. rewrite dom_insert_L.
  apply subseteq_union_1_L, singleton_subseteq_l, elem_of_dom. eauto.
Qed.

Lemma in_range_insert (order : gmap string Z) (food_item : string)
    (new_qty : Z) :
  in_range order -> in_range (<[food_item := clamp new_qty]> order).
Proof.
  intros Hr. apply map_Forall_insert_2; [apply clamp_range|assumption].
Qed.

(** A loop whose body keeps an invariant and returns keeps it and
    returns. *)
Lemma for_each_invariant {A : Type} (I : world -> Prop) (body : A -> M unit)
    (xs : list A) :
  (forall x w, I w -> (body x w).1 = Ok tt /\ I (body x w).2) ->
  forall w, I w -> (for_each xs body w).1 = Ok tt /\ I (for_each xs body w).2.
Proof.
  intros Hbody. induction xs as [|x xs IH]; intros w Hw; [now split|].
  simpl for_each. run.
  destruct (Hbody x w Hw) as [Hok Hinv].
  destruct (body x w) as [[[]|e] w']; simpl in Hok, Hinv; [|discriminate].
  now apply IH.
Qed.

(** ** The encoder *)

Lemma land_7_small (qty : Z) : 0 <= qty <= MAX_QTY -> Z.land qty 0x7 = qty.
Proof.
  unfold MAX_QTY. intros Hq. change 0x7 with (Z.ones 3).
  rewrite Z.land_ones by lia. apply Z.mod_small. change (2 ^ 3) with 8. lia.
Qed.

(** The dispense flag does not reach the field of an item. *)
Lemma field_command_word (dispense_now : bool) (items offset : Z) :
  0 <= offset <= 12 ->
  field (command_word dispense_now items) offset = field items offset.
Proof.
  intros Ho. unfold field. apply Z.bits_inj'. intros n Hn.
  rewrite !Z.land_spec, !Z.shiftr_spec by assumption.
  change 0x7 with (Z.ones 3). rewrite Z.testbit_ones_nonneg by lia.
  destruct (Z.ltb_spec n 3) as [Hn3|Hn3]; [|now rewrite !andb_false_r].
  rewrite command_word_bits.
  replace (n + offset =? 15) with false by (symmetry; apply Z.eqb_neq; lia).
  now rewrite andb_false_r, orb_false_r.
Qed.

Lemma field_of_item (order : gmap string Z) (dispense_now : bool)
    (food : string) (qty offset : Z) :
  order !! food = Some qty ->
  FOOD_BIT_OFFSETS !! food = Some offset ->
  field (command_word dispense_now (App.encode_items order)) offset =
  Z.land qty 0x7.
Proof.
  intros Hq Ho. rewrite field_command_word.
  - now apply (app_encode_items_field order food).
  - apply (offsets_range food), Ho.
Qed.

Lemma controller_encode_run (order : gmap string Z) (dispense_now : bool) :
  is_table order ->
  controller_encode order dispense_now =
  Ok (command_word dispense_now (App.encode_items order),
      Py.format_016b (command_word dispense_now (App.encode_items order))).
Proof.
  intros Ht. unfold controller_encode.
  now rewrite controller_generate_fpga_command_run
    by now apply is_table_offsets.
Qed.

Lemma app_encode_run (order : gmap string Z) (dispense_now : bool) :
  app_encode order dispense_now =
  Ok (command_word dispense_now (App.encode_items order),
      Py.format_016b (command_word dispense_now (App.encode_items order))).
Proof. reflexivity. Qed.

(** The quantity of an item of a cart in range, read back from the
    command word. *)
Lemma decode_item (order : gmap string Z) (dispense_now : bool)
    (food : string) (offset : Z) :
  is_table order -> in_range order ->
  FOOD_BIT_OFFSETS !! food = Some offset ->
  order !! food =
  Some (field (command_word dispense_now (App.encode_items order)) offset).
Proof.
  intros Ht Hr Ho.
  assert (food ∈ dom order) as Hin.
  { rewrite Ht, <- dom_offsets. apply elem_of_dom. eauto. }
  apply elem_of_dom in Hin as [qty Hq]. rewrite Hq. f_equal.
  rewrite (field_of_item order dispense_now food qty offset Hq Ho).
  symmetry. apply land_7_small. exact (Hr food qty Hq).
Qed.

(** C3.  For a cart with all quantities in [0, 7], the command word of
    either file decodes back to the cart: bits 0-2, 3-5, 6-8, 9-11 and
    12-14 are the quantities of burger, fries, soda, ice_cream and pizza,
    with or without the dispense flag; bit 15 is set exactly when the
    dispense flag is; the two words differ in no other bit. *)
Theorem encode_decode_fields (order : gmap string Z) :
  is_table order -> in_range order ->
  exists plain go : Z,
    controller_encode order false = Ok (plain, Py.format_016b plain) /\
    app_encode order false = Ok (plain, Py.format_016b plain) /\
    controller_encode order true = Ok (go, Py.format_016b go) /\
    app_encode order true = Ok (go, Py.format_016b go) /\
    (forall command, command = plain \/ command = go ->
       order !! "burger" = Some (field command 0) /\
       order !! "fries" = Some (field command 3) /\
       order !! "soda" = Some (field command 6) /\
       order !! "ice_cream" = Some (field command 9) /\
       order !! "pizza" = Some (field command 12)) /\
    Z.testbit plain 15 = false /\
    Z.testbit go 15 = true /\
    (forall n, n <> 15 -> Z.testbit go n = Z.testbit plain n).
Proof.
  intros Ht Hr.
  exists (command_word false (App.encode_items order)),
         (command_word true (App.encode_items order)).
  rewrite !controller_encode_run, !app_encode_run by assumption.
  do 4 (split; [reflexivity|]). split; [|split; [|split]].
  - intros command [->| ->]; repeat split; now apply decode_item.
  - rewrite command_word_bits, app_encode_items_high by lia. reflexivity.
  - rewrite command_word_bits, app_encode_items_high by lia. reflexivity.
  - intros n Hn. rewrite !command_word_bits.
    replace (n =? 15) with false by (symmetry; now apply Z.eqb_neq).
    reflexivity.
Qed.

Lemma encode_decode_fields_witness :
  exists plain go : Z,
    controller_encode (mk_order 1 2 3 4 5) false
    = Ok (plain, Py.format_016b plain) /\
    app_encode (mk_order 1 2 3 4 5) false = Ok (plain, Py.format_016b plain) /\
    controller_encode (mk_order 1 2 3 4 5) true = Ok (go, Py.format_016b go) /\
    app_encode (mk_order 1 2 3 4 5) true = Ok (go, Py.format_016b go) /\
    (forall command, command = plain \/ command = go ->
       mk_order 1 2 3 4 5 !! "burger" = Some (field command 0) /\
       mk_order 1 2 3 4 5 !! "fries" = Some (field command 3) /\
       mk_order 1 2 3 4 5 !! "soda" = Some (field command 6) /\
       mk_order 1 2 3 4 5 !! "ice_cream" = Some (field command 9) /\
       mk_order 1 2 3 4 5 !! "pizza" = Some (field command 12)) /\
    Z.testbit plain 15 = false /\
    Z.testbit go 15 = true /\
    (forall n, n <> 15 -> Z.testbit go n = Z.testbit plain n).
Proof.
  apply (encode_decode_fields (mk_order 1 2 3 4 5)).
  - apply mk_order_is_table.
  - apply mk_order_in_range; lia.
Defined.

(** C9.  For a cart with any quantities, in range or not, the command word
    of either file is below 2^16 and its binary rendering has exactly 16
    characters: the field of each item holds the low three bits of its
    quantity. *)
Theorem command_fits_16_bits (order : gmap string Z) (dispense_now : bool) :
  is_table order ->
  exists (command : Z) (binary : string),
    controller_encode order dispense_now = Ok (command, binary) /\
    app_encode order dispense_now = Ok (command, binary) /\
    0 <= command < 2 ^ 16 /\
    String.length binary = 16%nat /\
    (forall food qty offset,
       order !! food = Some qty ->
       FOOD_BIT_OFFSETS !! food = Some offset ->
       field command offset = Z.land qty 0x7).
Proof.
  intros Ht.
  exists (command_word dispense_now (App.encode_items order)),
    (Py.format_016b (command_word dispense_now (App.encode_items order))).
  rewrite controller_encode_run, app_encode_run by assumption.
  split; [reflexivity|]. split; [reflexivity|].
  split; [apply command_word_bound|].
  split; [apply format_016b_length, command_word_bound|].
  intros food qty offset Hq Ho. now apply (field_of_item order _ food).
Qed.

Lemma command_fits_16_bits_witness :
  exists (command : Z) (binary : string),
    controller_encode (mk_order 9 (-1) 100 8 15) true = Ok (command, binary) /\
    app_encode (mk_order 9 (-1) 100 8 15) true = Ok (command, binary) /\
    0 <= command < 2 ^ 16 /\
    String.length binary = 16%nat /\
    (forall food qty offset,
       mk_order 9 (-1) 100 8 15 !! food = Some qty ->
       FOOD_BIT_OFFSETS !! food = Some offset ->
       field command offset = Z.land qty 0x7).
Proof.
  apply (command_fits_16_bits (mk_order 9 (-1) 100 8 15) true).
  apply mk_order_is_table.
Defined.

(** ** The mutator *)

(** One call of [update_order] on a cart with the five keys, in range:
    it returns, and the cart keeps its keys and stays in range. *)
Lemma controller_update_order_invariant (food_item : string) (quantity : Z)
    (w : world) :
  is_table (current_order w) /\ in_range (current_order w) ->
  (Controller.update_order food_item quantity w).1 = Ok tt /\
  is_table (current_order (Controller.update_order food_item quantity w).2) /\
  in_range (current_order (Controller.update_order food_item quantity w).2).
Proof.
  destruct w as [order a t]. simpl. intros [Ht Hr].
  destruct (order !! food_item) as [old_qty|] eqn:Hq.
  - rewrite (controller_update_order_known _ quantity _ _ a t
               (is_table_offsets _ Ht) Hq).
    simpl. split; [reflexivity|]. split.
    + now apply (is_table_insert order food_item old_qty).
    + now apply in_range_insert.
  - rewrite (controller_update_order_unknown _ quantity _ a t Hq).
    simpl. auto.
Qed.

Lemma app_update_order_invariant (food_item : string) (quantity : Z)
    (w : world) :
  is_table (current_order w) /\ in_range (current_order w) ->
  (App.update_order food_item quantity w).1
    = Ok (bool_decide (is_Some (current_order w !! food_item))) /\
  is_table (current_order (App.update_order food_item quantity w).2) /\
  in_range (current_order (App.update_order food_item quantity w).2).
Proof.
  destruct w as [order a t]. simpl. intros [Ht Hr].
  destruct (order !! food_item) as [old_qty|] eqn:Hq.
  - rewrite (app_update_order_known _ quantity _ _ a t Hq).
    simpl. split; [reflexivity|]. split.
    + now apply (is_table_insert order food_item old_qty).
    + now apply in_range_insert.
  - rewrite (app_update_order_unknown _ quantity _ a t Hq).
    simpl. auto.
Qed.

Lemma controller_updates_invariant (ops : list (string * Z)) (w : world) :
  is_table (current_order w) /\ in_range (current_order w) ->
  (controller_updates ops w).1 = Ok tt /\
  is_table (current_order (controller_updates ops w).2) /\
  in_range (current_order (controller_updates ops w).2).
Proof.
  unfold controller_updates.
  apply (for_each_invariant
           (fun w => is_table (current_order w) /\ in_range (current_order w))).
  intros op w' Hw'. apply controller_update_order_invariant, Hw'.
Qed.

Lemma app_updates_invariant (ops : list (string * Z)) (w : world) :
  is_table (current_order w) /\ in_range (current_order w) ->
  (app_updates ops w).1 = Ok tt /\
  is_table (current_order (app_updates ops w).2) /\
  in_range (current_order (app_updates ops w).2).
Proof.
  unfold app_updates.
  apply (for_each_invariant
           (fun w => is_table (current_order w) /\ in_range (current_order w))).
  intros op w' Hw'.
  destruct (app_update_order_invariant op.1 op.2 w' Hw') as (Hok & Hinv).
  run. destruct (App.update_order op.1 op.2 w') as [[b|e] w''];
    simpl in *; [auto|discriminate].
Qed.

(** C2.  Starting from a cart with all quantities in [0, 7], after each
    call of a sequence of [update_order] calls (any items, any signed
    deltas) every quantity is in [0, 7], in both files; delta +10 on a
    quantity of 5 gives 7 and delta -10 on a quantity of 2 gives 0. *)
Theorem quantities_stay_in_range (ops : list (string * Z))
    (order : gmap string Z) (a : nat) (t : list event) :
  is_table order -> in_range order ->
  (forall k : nat,
     (controller_updates (take k ops) (World order a t)).1 = Ok tt /\
     in_range (current_order
                 (controller_updates (take k ops) (World order a t)).2) /\
     (app_updates (take k ops) (World order a t)).1 = Ok tt /\
     in_range (current_order
                 (app_updates (take k ops) (World order a t)).2)) /\
  (forall item, order !! item = Some 5 ->
     current_order (Controller.update_order item 10 (World order a t)).2
       !! item = Some 7 /\
     current_order (App.update_order item 10 (World order a t)).2
       !! item = Some 7) /\
  (forall item, order !! item = Some 2 ->
     current_order (Controller.update_order item (-10) (World order a t)).2
       !! item = Some 0 /\
     current_order (App.update_order item (-10) (World order a t)).2
       !! item = Some 0).
Proof.
  intros Ht Hr. split; [|split].
  - intros k.
    destruct (controller_updates_invariant (take k ops) (World order a t))
      as (Hok & _ & Hin); [now split|].
    destruct (app_updates_invariant (take k ops) (World order a t))
      as (Hok' & _ & Hin'); [now split|].
    auto.
  - intros item Hq.
    rewrite controller_update_order_cart, app_update_order_cart.
    simpl current_order. rewrite Hq, lookup_insert_eq. auto.
  - intros item Hq.
    rewrite controller_update_order_cart, app_update_order_cart.
    simpl current_order. rewrite Hq, lookup_insert_eq. auto.
Qed.

(** C10.  A call of [update_order], in either file, leaves the quantity of
    every other item as it was; for an item that is not one of the five
    identifiers it returns with the whole cart unchanged, having printed
    only that the item is invalid. *)
Theorem update_order_frame (food_item : string) (quantity : Z) (w : world) :
  (forall other, other <> food_item ->
     current_order (Controller.update_order food_item quantity w).2 !! other
     = current_order w !! other /\
     current_order (App.update_order food_item quantity w).2 !! other
     = current_order w !! other) /\
  (is_table (current_order w) -> food_item ∉ dom initial_order ->
     Controller.update_order food_item quantity w
     = (Ok tt, World (current_order w) (attempts w)
                 (trace w ++ [Print Terminal (MsgInvalidItem food_item)])) /\
     App.update_order food_item quantity w
     = (Ok false, World (current_order w) (attempts w)
                    (trace w ++ [Print Ui (MsgInvalidItem food_item)]))).
Proof.
  split.
  - intros other Hne.
    rewrite controller_update_order_cart, app_update_order_cart.
    destruct (current_order w !! food_item) as [old_qty|]; [|auto].
    now rewrite lookup_insert_ne.
  - destruct w as [order a t]. simpl. intros Ht Hout.
    rewrite <- Ht in Hout. apply not_elem_of_dom in Hout.
    now rewrite controller_update_order_unknown, app_update_order_unknown.
Qed.

Lemma quantities_stay_in_range_witness :
  is_table (mk_order 5 2 0 0 0) /\ in_range (mk_order 5 2 0 0 0) /\
  ((forall k : nat,
     (controller_updates
        (take k [("soda", 10); ("pizza", -3); ("banana", 2)])
        (World (mk_order 5 2 0 0 0) 0 [])).1 = Ok tt /\
     in_range (current_order
        (controller_updates
           (take k [("soda", 10); ("pizza", -3); ("banana", 2)])
           (World (mk_order 5 2 0 0 0) 0 [])).2) /\
     (app_updates
        (take k [("soda", 10); ("pizza", -3); ("banana", 2)])
        (World (mk_order 5 2 0 0 0) 0 [])).1 = Ok tt /\
     in_range (current_order
        (app_updates
           (take k [("soda", 10); ("pizza", -3); ("banana", 2)])
           (World (mk_order 5 2 0 0 0) 0 [])).2)) /\
  (forall item, mk_order 5 2 0 0 0 !! item = Some 5 ->
     current_order
       (Controller.update_order item 10 (World (mk_order 5 2 0 0 0) 0 [])).2
       !! item = Some 7 /\
     current_order
       (App.update_order item 10 (World (mk_order 5 2 0 0 0) 0 [])).2
       !! item = Some 7) /\
  (forall item, mk_order 5 2 0 0 0 !! item = Some 2 ->
     current_order
       (Controller.update_order item (-10) (World (mk_order 5 2 0 0 0) 0 [])).2
       !! item = Some 0 /\
     current_order
       (App.update_order item (-10) (World (mk_order 5 2 0 0 0) 0 [])).2
       !! item = Some 0)).
Proof.
  split; [apply mk_order_is_table|].
  split; [apply mk_order_in_range; lia|].
  apply (quantities_stay_in_range
           [("soda", 10); ("pizza", -3); ("banana", 2)]
           (mk_order 5 2 0 0 0) 0 []).
  - apply mk_order_is_table.
  - apply mk_order_in_range; lia.
Defined.

Lemma update_order_frame_witness :
  (current_order
     (Controller.update_order "banana" 5 (World initial_order 0 [])).2
     !! "soda" = initial_order !! "soda" /\
   current_order (App.update_order "banana" 5 (World initial_order 0 [])).2
     !! "soda" = initial_order !! "soda") /\
  (Controller.update_order "banana" 5 (World initial_order 0 [])
   = (Ok tt, World initial_order 0
               ([] ++ [Print Terminal (MsgInvalidItem "banana")])) /\
   App.update_order "banana" 5 (World initial_order 0 [])
   = (Ok false, World initial_order 0
                  ([] ++ [Print Ui (MsgInvalidItem "banana")]))).
Proof.
  destruct (update_order_frame "banana" 5 (World initial_order 0 []))
    as [Hframe Hunknown].
  split.
  - apply Hframe. discriminate.
  - apply Hunknown.
    + apply mk_order_is_table.
    + rewrite initial_order_dom. intros [H|[H|[H|[H|H]]]]; discriminate H.
Defined.

(** ** The dispatch loop *)

Lemma app_send_to_fpga_run (serial : nat -> serial_outcome) (command_int : Z)
    (order : gmap string Z) (a : nat) (t : list event) :
  App.send_to_fpga serial command_int (World order a t) =
  (Ok tt,
   World order (S a) (t ++ app_send_events (serial a) command_int)).
Proof.
  unfold App.send_to_fpga, app_send_events. run.
  cbn [current_order attempts trace].
  destruct (serial a); cbn [current_order attempts trace];
    now rewrite <- ?app_assoc.
Qed.

Lemma app_clear_order_run (order : gmap string Z) (a : nat) (t : list event) :
  App.clear_order (World order a t) =
  (Ok tt, World ((fun _ => 0) <$> order) a t).
Proof. reflexivity. Qed.

(** A line whose first token is [dispense], in [app.py]: the command word
    with the dispense flag goes to the serial port, then the cart is
    cleared, whatever the port did. *)
Lemma app_process_line_dispense (serial : nat -> serial_outcome)
    (line : string) (rest : list string) (order : gmap string Z) (a : nat)
    (t : list event) :
  tokens line = "dispense" :: rest ->
  App.process_line serial line (World order a t) =
  (Ok tt,
   World ((fun _ => 0) <$> order) (S a)
     (t ++ app_send_events (serial a)
             (command_word true (App.encode_items order))
        ++ Print Ui MsgDispensed
        :: display_events Ui ((fun _ => 0) <$> order))).
Proof.
  intros Htok. unfold App.process_line.
  change (Py.split (Py.lower (Py.strip_chars QUOTES (Py.strip line))))
    with (tokens line).
  rewrite Htok. cbn [String.eqb Ascii.eqb Bool.eqb].
  unfold App.generate_fpga_command_kw.
  cbv beta iota zeta delta [mbind M_bind bind call_kw].
  cbn [String.eqb Ascii.eqb Bool.eqb].
  rewrite app_generate_fpga_command_run.
  rewrite app_send_to_fpga_run, app_clear_order_run.
  run. cbn [current_order attempts trace].
  rewrite app_display_run.
  now rewrite <- !app_assoc.
Qed.

(** The same line in the controller: the call of the encoder names a
    keyword that the encoder does not have, and raises [TypeError]; nothing
    is sent and the cart is not cleared. *)
Lemma controller_process_line_dispense (serial : nat -> serial_outcome)
    (line : string) (rest : list string) (w : world) :
  tokens line = "dispense" :: rest ->
  Controller.process_line serial line w = (Raise TypeError, w).
Proof.
  intros Htok. unfold Controller.process_line.
  change (Py.split (Py.lower (Py.strip_chars QUOTES (Py.strip line))))
    with (tokens line).
  rewrite Htok. reflexivity.
Qed.

Ltac line_tokens Htok :=
  change (Py.split (Py.lower (Py.strip_chars QUOTES (Py.strip ?line))))
    with (tokens line);
  rewrite Htok.

(** An [add] or [remove] line with an integer quantity, in [app.py]. *)
Lemma app_process_line_update (serial : nat -> serial_outcome)
    (line command item qtok : string) (qty : Z) (order : gmap string Z)
    (a : nat) (t : list event) :
  tokens line = [command; item; qtok] ->
  command = "add" \/ command = "remove" ->
  Py.int qtok = Some qty ->
  let item' := canonical (Py.lower item) in
  let delta := signed command (app_requested qty) in
  App.process_line serial line (World order a t) =
  (Ok tt,
   match order !! item' with
   | Some old_qty =>
       let order' := <[item' := clamp (old_qty + delta)]> order in
       World order' a
         (t ++ app_warning qty item' ++ update_events Ui item' delta order')
   | None =>
       World order a
         (t ++ app_warning qty item' ++ [Print Ui (MsgInvalidItem item')])
   end).
Proof.
  intros Htok Hcmd Hint item' delta. unfold App.process_line.
  line_tokens Htok.
  assert (String.eqb command "dispense" = false) as ->
    by (destruct Hcmd as [->| ->]; reflexivity).
  assert (String.eqb command "add" || String.eqb command "remove" = true)
    as -> by (destruct Hcmd as [->| ->]; reflexivity).
  cbn [length Nat.eqb andb].
  unfold index. simpl (_ !! _). run. rewrite Hint. fold (canonical (Py.lower item)). fold item'.
  unfold app_warning, delta, app_requested, signed.
  destruct (qty >? MAX_QTY); cbn [current_order attempts trace].
  - destruct (order !! item') as [old_qty|] eqn:Hq.
    + rewrite (app_update_order_known _ _ _ _ _ _ Hq).
      cbn. now rewrite <- app_assoc.
    + rewrite (app_update_order_unknown _ _ _ _ _ Hq).
      cbn. now rewrite <- app_assoc.
  - destruct (order !! item') as [old_qty|] eqn:Hq.
    + now rewrite (app_update_order_known _ _ _ _ _ _ Hq).
    + now rewrite (app_update_order_unknown _ _ _ _ _ Hq).
Qed.

(** An [add] or [remove] line with an integer quantity, in the
    controller: above [MAX_QTY] the line is ignored. *)
Lemma controller_process_line_update (serial : nat -> serial_outcome)
    (line command item qtok : string) (qty : Z) (order : gmap string Z)
    (a : nat) (t : list event) :
  is_table order ->
  tokens line = [command; item; qtok] ->
  command = "add" \/ command = "remove" ->
  Py.int qtok = Some qty ->
  let item' := Py.lower item in
  let delta := signed command qty in
  Controller.process_line serial line (World order a t) =
  (Ok tt,
   if qty >? MAX_QTY
   then World order a (t ++ [Print Terminal (MsgExceedsIgnoring qty)])
   else
     match order !! item' with
     | Some old_qty =>
         let order' := <[item' := clamp (old_qty + delta)]> order in
         World order' a (t ++ update_events Terminal item' delta order')
     | None =>
         World order a (t ++ [Print Terminal (MsgInvalidItem item')])
     end).
Proof.
  intros Ht Htok Hcmd Hint item' delta. unfold Controller.process_line.
  line_tokens Htok.
  assert (String.eqb command "dispense" = false) as ->
    by (destruct Hcmd as [->| ->]; reflexivity).
  assert (String.eqb command "add" || String.eqb command "remove" = true)
    as -> by (destruct Hcmd as [->| ->]; reflexivity).
  cbn [length Nat.eqb andb].
  unfold index. simpl (_ !! _). run. rewrite Hint. fold item'. fold (signed command qty). fold delta.
  destruct (qty >? MAX_QTY); [reflexivity|].
  destruct (order !! item') as [old_qty|] eqn:Hq.
  - now rewrite (controller_update_order_known _ _ _ _ _ _
                   (is_table_offsets _ Ht) Hq).
  - now rewrite (controller_update_order_unknown _ _ _ _ _ Hq).
Qed.

(** ** Tokens are lower case *)

Lemma lower_char_idem (c : ascii) :
  Py.lower_char (Py.lower_char c) = Py.lower_char c.
Proof. destruct c as [[] [] [] [] [] [] [] []]; reflexivity. Qed.

Lemma lower_idem (s : string) : Py.lower (Py.lower s) = Py.lower s.
Proof.
  induction s as [|c s IH]; simpl; [reflexivity|].
  now rewrite lower_char_idem, IH.
Qed.

Lemma lower_append (s1 s2 : string) :
  Py.lower (s1 +:+ s2) = Py.lower s1 +:+ Py.lower s2.
Proof. induction s1 as [|c s1 IH]; simpl; [reflexivity|now rewrite IH]. Qed.

Lemma split_ws_aux_lower (s : string) (cur : option string) :
  Py.lower s = s ->
  (forall w, cur = Some w -> Py.lower w = w) ->
  Forall (fun tok => Py.lower tok = tok) (Py.split_ws_aux cur s).
Proof.
  revert cur. induction s as [|c s IH]; intros cur Hs Hcur; simpl.
  - destruct cur as [w|]; [|constructor].
    constructor; [now apply Hcur|constructor].
  - simpl in Hs. injection Hs as Hc Hs'.
    destruct (Py.isspace c).
    + destruct cur as [w|].
      * constructor; [now apply Hcur|]. now apply IH.
      * now apply IH.
    + apply IH; [assumption|]. intros w' [= <-].
      destruct cur as [w|]; simpl.
      * rewrite lower_append. simpl. now rewrite Hc, (Hcur w).
      * now rewrite Hc.
Qed.

(** Every token of a line is in lower case: the second [lower()] that
    [process_llm_response] applies to the item changes nothing. *)
Lemma tokens_lower (line tok : string) :
  tok ∈ tokens line -> Py.lower tok = tok.
Proof.
  intros Hin. unfold tokens, Py.split in Hin.
  assert (Forall (fun tok => Py.lower tok = tok)
            (Py.split_ws_aux None
               (Py.lower (Py.strip_chars QUOTES (Py.strip line))))) as Hall
    by (apply split_ws_aux_lower; [apply lower_idem|discriminate]).
  rewrite Forall_forall in Hall. now apply Hall.
Qed.

(** ** Lines with a quantity out of the range *)

Lemma is_table_no_alias (order : gmap string Z) :
  is_table order -> order !! "icecream" = None.
Proof.
  intros Ht. apply not_elem_of_dom. rewrite Ht, initial_order_dom.
  intros [H|[H|[H|[H|H]]]]; discriminate H.
Qed.

(** An item of the cart is its own canonical name. *)
Lemma canonical_known (order : gmap string Z) (item : string) (qty : Z) :
  is_table order -> order !! item = Some qty -> canonical item = item.
Proof.
  intros Ht Hq. unfold canonical.
  destruct (String.eqb_spec item "icecream") as [->|]; [|reflexivity].
  rewrite (is_table_no_alias _ Ht) in Hq. discriminate.
Qed.





(** C6 (amended).  An [add] or [remove] line whose quantity is written as a
    negative integer that [int] accepts (a literal of at most 4300 digits;
    a longer one is a malformed line) is applied, in both files, with the
    sign it has: [add] of -n takes n away and [remove] of -n puts n in, the
    new quantity being clamped into [0, 7]. *)
Theorem negative_quantity_applied (serial : nat -> serial_outcome)
    (line command item qtok : string) (qty old_qty : Z)
    (order : gmap string Z) (a : nat) (t : list event) :
  is_table order ->
  tokens line = [command; item; qtok] ->
  command = "add" \/ command = "remove" ->
  Py.int qtok = Some qty -> qty < 0 ->
  order !! item = Some old_qty ->
  let delta := signed command qty in
  let order' := <[item := clamp (old_qty + delta)]> order in
  Controller.process_line serial line (World order a t) =
  (Ok tt, World order' a (t ++ update_events Terminal item delta order')) /\
  App.process_line serial line (World order a t) =
  (Ok tt, World order' a (t ++ update_events Ui item delta order')).
Proof.
  intros Ht Htok Hcmd Hint Hqty Hq delta order'.
  assert (Py.lower item = item) as Hlow.
  { apply (tokens_lower line). rewrite Htok. repeat constructor. }
  assert ((qty >? MAX_QTY) = false) as Hgt.
  { unfold MAX_QTY. destruct (Z.gtb_spec qty 7); [lia|reflexivity]. }
  split.
  - rewrite (controller_process_line_update serial line command item qtok qty)
      by assumption.
    now rewrite Hgt, Hlow, Hq.
  - rewrite (app_process_line_update serial line command item qtok qty)
      by assumption.
    rewrite Hlow, (canonical_known order item old_qty Ht Hq), Hq.
    unfold app_requested, app_warning. now rewrite Hgt.
Qed.

Lemma negative_quantity_applied_witness :
  Controller.process_line (fun _ => SerOk) "remove pizza -2"
    (World (mk_order 1 2 3 4 5) 0 []) =
  (Ok tt,
   World (<["pizza" := clamp (5 + signed "remove" (-2))]> (mk_order 1 2 3 4 5))
     0 ([] ++ update_events Terminal "pizza" (signed "remove" (-2))
          (<["pizza" := clamp (5 + signed "remove" (-2))]>
             (mk_order 1 2 3 4 5)))) /\
  App.process_line (fun _ => SerOk) "remove pizza -2"
    (World (mk_order 1 2 3 4 5) 0 []) =
  (Ok tt,
   World (<["pizza" := clamp (5 + signed "remove" (-2))]> (mk_order 1 2 3 4 5))
     0 ([] ++ update_events Ui "pizza" (signed "remove" (-2))
          (<["pizza" := clamp (5 + signed "remove" (-2))]>
             (mk_order 1 2 3 4 5)))).
Proof.
  apply (negative_quantity_applied (fun _ => SerOk) "remove pizza -2"
           "remove" "pizza" "-2" (-2) 5 (mk_order 1 2 3 4 5) 0 []).
  - apply mk_order_is_table.
  - reflexivity.
  - right. reflexivity.
  - reflexivity.
  - lia.
  - reflexivity.
Defined.

(** C6, as stated, fails in both files: [add burger -1] takes one burger
    out of a cart that holds two, and [remove burger -3] puts three burgers
    in the empty cart. *)
Lemma negative_quantity_mutates :
  current_order
    (Controller.process_line (fun _ => SerOk) "add burger -1"
       (World (mk_order 2 0 0 0 0) 0 [])).2 = mk_order 1 0 0 0 0 /\
  current_order
    (App.process_line (fun _ => SerOk) "add burger -1"
       (World (mk_order 2 0 0 0 0) 0 [])).2 = mk_order 1 0 0 0 0 /\
  current_order
    (Controller.process_line (fun _ => SerOk) "remove burger -3"
       (World initial_order 0 [])).2 = mk_order 3 0 0 0 0 /\
  current_order
    (App.process_line (fun _ => SerOk) "remove burger -3"
       (World initial_order 0 [])).2 = mk_order 3 0 0 0 0 /\
  ~ negative_rejected (Controller.process_line (fun _ => SerOk)) /\
  ~ negative_rejected (App.process_line (fun _ => SerOk)).
Proof.
  assert (current_order
            (Controller.process_line (fun _ => SerOk) "remove burger -3"
               (World initial_order 0 [])).2 = mk_order 3 0 0 0 0) as Hc
    by (vm_compute; reflexivity).
  assert (current_order
            (App.process_line (fun _ => SerOk) "remove burger -3"
               (World initial_order 0 [])).2 = mk_order 3 0 0 0 0) as Ha
    by (vm_compute; reflexivity).
  split; [vm_compute; reflexivity|]. split; [vm_compute; reflexivity|].
  split; [exact Hc|]. split; [exact Ha|]. split.
  - intros Hrej.
    rewrite (Hrej "remove burger -3" "remove" "burger" "-3" (-3)
               (World initial_order 0 [])) in Hc.
    + discriminate Hc.
    + apply mk_order_is_table.
    + apply mk_order_in_range; lia.
    + reflexivity.
    + now right.
    + reflexivity.
    + lia.
  - intros Hrej.
    rewrite (Hrej "remove burger -3" "remove" "burger" "-3" (-3)
               (World initial_order 0 [])) in Ha.
    + discriminate Ha.
    + apply mk_order_is_table.
    + apply mk_order_in_range; lia.
    + reflexivity.
    + now right.
    + reflexivity.
    + lia.
Qed.

(** ** Blocks of lines *)

Lemma for_each_cons_ok {A : Type} (body : A -> M unit) (x : A) (xs : list A)
    (w w' : world) :
  body x w = (Ok tt, w') ->
  for_each (x :: xs) body w = for_each xs body w'.
Proof. intros Hx. simpl. run. now rewrite Hx. Qed.

Lemma for_each_cons_raise {A : Type} (body : A -> M unit) (x : A)
    (xs : list A) (e : exn) (w w' : world) :
  body x w = (Raise e, w') ->
  for_each (x :: xs) body w = (Raise e, w').
Proof. intros Hx. simpl. run. now rewrite Hx. Qed.

Lemma app_process_llm_response_run (serial : nat -> serial_outcome)
    (llm_output : string) (lines : list string) (order : gmap string Z)
    (a : nat) (t : list event) :
  Py.split_on newline (Py.strip llm_output) = lines ->
  App.process_llm_response serial llm_output (World order a t) =
  for_each lines (App.process_line serial)
    (World order a (t ++ [Print Terminal (MsgLlmResponse llm_output)])).
Proof. intros <-. reflexivity. Qed.

Lemma controller_process_llm_response_run (serial : nat -> serial_outcome)
    (llm_output : string) (lines : list string) (order : gmap string Z)
    (a : nat) (t : list event) :
  Py.split_on newline (Py.strip llm_output) = lines ->
  Controller.process_llm_response serial llm_output (World order a t) =
  for_each lines (Controller.process_line serial)
    (World order a (t ++ [Print Terminal (MsgLlmResponse llm_output)])).
Proof. intros <-. reflexivity. Qed.

(** C7 (the controller departs from it).  On a cart where ice_cream is 0,
    the line [add icecream 3] is handled by [app.py] as the claim says: the
    item is taken as [ice_cream] and its quantity becomes 3.  The controller
    has no alias: it reports [icecream] as an invalid item and leaves the
    cart as it is. *)
Theorem icecream_alias (serial : nat -> serial_outcome)
    (order : gmap string Z) (a : nat) (t : list event) :
  is_table order -> order !! "ice_cream" = Some 0 ->
  App.process_llm_response serial "add icecream 3" (World order a t) =
  (Ok tt,
   World (<["ice_cream" := 3]> order) a
     (t ++ Print Terminal (MsgLlmResponse "add icecream 3")
        :: update_events Ui "ice_cream" 3 (<["ice_cream" := 3]> order))) /\
  Controller.process_llm_response serial "add icecream 3" (World order a t) =
  (Ok tt,
   World order a
     (t ++ [Print Terminal (MsgLlmResponse "add icecream 3");
            Print Terminal (MsgInvalidItem "icecream")])).
Proof.
  intros Ht Hq. split.
  - rewrite (app_process_llm_response_run serial _ ["add icecream 3"])
      by reflexivity.
    erewrite for_each_cons_ok;
      [|apply (app_process_line_update serial "add icecream 3" "add"
                 "icecream" "3" 3); auto; reflexivity].
    change (canonical (Py.lower "icecream")) with "ice_cream".
    rewrite Hq. simpl. now rewrite <- app_assoc.
  - rewrite (controller_process_llm_response_run serial _ ["add icecream 3"])
      by reflexivity.
    erewrite for_each_cons_ok;
      [|apply (controller_process_line_update serial "add icecream 3" "add"
                 "icecream" "3" 3); auto; reflexivity].
    change (Py.lower "icecream") with "icecream".
    rewrite (is_table_no_alias order Ht). simpl. now rewrite <- app_assoc.
Qed.

Lemma icecream_alias_witness :
  App.process_llm_response (fun _ => SerOk) "add icecream 3"
    (World initial_order 0 []) =
  (Ok tt,
   World (<["ice_cream" := 3]> initial_order) 0
     ([] ++ Print Terminal (MsgLlmResponse "add icecream 3")
         :: update_events Ui "ice_cream" 3
              (<["ice_cream" := 3]> initial_order))) /\
  Controller.process_llm_response (fun _ => SerOk) "add icecream 3"
    (World initial_order 0 []) =
  (Ok tt,
   World initial_order 0
     ([] ++ [Print Terminal (MsgLlmResponse "add icecream 3");
             Print Terminal (MsgInvalidItem "icecream")])).
Proof.
  apply (icecream_alias (fun _ => SerOk) initial_order 0 []).
  - apply mk_order_is_table.
  - reflexivity.
Defined.

(** C8 (the controller departs from it).  On the block [add soda 2],
    [dispense], [add soda 1], starting from the empty cart, [app.py] does
    what the claim says whatever the serial port does: the word for soda = 2
    with the dispense flag goes to the port, the cart is cleared, and the
    last line leaves soda = 1 and every other quantity 0.  The controller
    stops at the [dispense] line with [TypeError], raised by the misspelt
    keyword in its call of the encoder: nothing is sent, the cart is not
    cleared and keeps soda = 2, and the last line is not reached. *)
Theorem dispense_block (serial : nat -> serial_outcome) (a : nat)
    (t : list event) :
  App.process_llm_response serial soda_block (World initial_order a t) =
  (Ok tt,
   World (mk_order 0 0 1 0 0) (S a)
     (t ++ Print Terminal (MsgLlmResponse soda_block)
        :: update_events Ui "soda" 2 (mk_order 0 0 2 0 0)
        ++ app_send_events (serial a) 0x8080
        ++ Print Ui MsgDispensed
        :: display_events Ui initial_order
        ++ update_events Ui "soda" 1 (mk_order 0 0 1 0 0))) /\
  Controller.process_llm_response serial soda_block (World initial_order a t) =
  (Raise TypeError,
   World (mk_order 0 0 2 0 0) a
     (t ++ Print Terminal (MsgLlmResponse soda_block)
        :: update_events Terminal "soda" 2 (mk_order 0 0 2 0 0))).
Proof.
  split.
  - rewrite (app_process_llm_response_run serial _
               ["add soda 2"; "dispense"; "add soda 1"]) by reflexivity.
    erewrite for_each_cons_ok;
      [|apply (app_process_line_update serial "add soda 2" "add" "soda" "2" 2);
        auto; reflexivity].
    change (canonical (Py.lower "soda")) with "soda".
    change (initial_order !! "soda") with (Some 0).
    cbv beta iota zeta.
    change (signed "add" (app_requested 2)) with 2.
    change (app_warning 2 "soda") with (@nil event).
    change (<["soda" := clamp (0 + 2)]> initial_order)
      with (mk_order 0 0 2 0 0).
    erewrite for_each_cons_ok;
      [|apply (app_process_line_dispense serial "dispense" []); reflexivity].
    change ((fun _ : Z => 0) <$> mk_order 0 0 2 0 0) with initial_order.
    change (command_word true (App.encode_items (mk_order 0 0 2 0 0)))
      with 0x8080.
    erewrite for_each_cons_ok;
      [|apply (app_process_line_update serial "add soda 1" "add" "soda" "1" 1);
        auto; reflexivity].
    change (canonical (Py.lower "soda")) with "soda".
    change (initial_order !! "soda") with (Some 0).
    cbv beta iota zeta.
    change (signed "add" (app_requested 1)) with 1.
    change (app_warning 1 "soda") with (@nil event).
    change (<["soda" := clamp (0 + 1)]> initial_order)
      with (mk_order 0 0 1 0 0).
    simpl for_each. unfold ret.
    do 2 f_equal. rewrite <- !app_assoc. f_equal.
    destruct (serial a); reflexivity.
  - rewrite (controller_process_llm_response_run serial _
               ["add soda 2"; "dispense"; "add soda 1"]) by reflexivity.
    erewrite for_each_cons_ok;
      [|apply (controller_process_line_update serial "add soda 2" "add"
                 "soda" "2" 2);
        auto using mk_order_is_table; reflexivity].
    change (2 >? MAX_QTY) with false.
    change (Py.lower "soda") with "soda".
    change (initial_order !! "soda") with (Some 0).
    cbv beta iota zeta.
    change (signed "add" 2) with 2.
    change (<["soda" := clamp (0 + 2)]> initial_order)
      with (mk_order 0 0 2 0 0).
    erewrite for_each_cons_raise;
      [|apply (controller_process_line_dispense serial "dispense" []);
        reflexivity].
    do 2 f_equal. rewrite <- !app_assoc. reflexivity.
Qed.

(** C4, as stated, fails: for the cart with pizza = 2 and soda = 1 the
    encoder with the dispense flag returns 0xA040, whose rendering is
    1010000001000000.  The string of the claim, 1000001001000000, is the
    rendering for the cart with ice_cream = 1 and soda = 1. *)
Lemma dispense_binary_string :
  app_encode (mk_order 0 0 1 0 2) true = Ok (0xA040, "1010000001000000") /\
  controller_encode (mk_order 0 0 1 0 2) true
  = Ok (0xA040, "1010000001000000") /\
  "1010000001000000" <> "1000001001000000" /\
  app_encode (mk_order 0 0 1 1 0) true = Ok (0x8240, "1000001001000000").
Proof.
  split; [vm_compute; reflexivity|]. split; [vm_compute; reflexivity|].
  split; [discriminate|]. vm_compute; reflexivity.
Qed.

(** C4 (amended).  On the cart with pizza = 2, soda = 1 and nothing else,
    the line [dispense] makes [app.py] call the encoder with the dispense
    flag set, which returns 0xA040, rendered 1010000001000000 (bit 15 set,
    010 in bits 12-14, 001 in bits 6-8); the word goes to the serial port
    and every quantity of the cart is then reset to zero, whatever the port
    did.  The encoder of the controller returns the same word and string
    for this cart. *)
Theorem dispense_pizza_soda_cart (serial : nat -> serial_outcome) (a : nat)
    (t : list event) :
  App.process_llm_response serial "dispense" (World (mk_order 0 0 1 0 2) a t) =
  (Ok tt,
   World initial_order (S a)
     (t ++ Print Terminal (MsgLlmResponse "dispense")
        :: app_send_events (serial a) 0xA040
        ++ Print Ui MsgDispensed
        :: display_events Ui initial_order)) /\
  app_encode (mk_order 0 0 1 0 2) true = Ok (0xA040, "1010000001000000") /\
  controller_encode (mk_order 0 0 1 0 2) true
  = Ok (0xA040, "1010000001000000").
Proof.
  split; [|split; vm_compute; reflexivity].
  rewrite (app_process_llm_response_run serial _ ["dispense"]) by reflexivity.
  erewrite for_each_cons_ok;
    [|apply (app_process_line_dispense serial "dispense" []); reflexivity].
  change ((fun _ : Z => 0) <$> mk_order 0 0 1 0 2) with initial_order.
  change (command_word true (App.encode_items (mk_order 0 0 1 0 2)))
    with 0xA040.
  simpl for_each. unfold ret.
  do 2 f_equal. now rewrite <- !app_assoc.
Qed.

(** C1 (the code departs from it).  The word for one burger with the
    dispense flag is 0x8001.  [send_to_fpga], in the controller and in
    [app.py], hands the bytes 0x80, 0x01 to [ser.write]: high byte first.
    [send_16bit_command] of [test.py], whose documentation asks for the low
    byte first, hands over 0x01, 0x80. *)
Theorem send_to_fpga_byte_order (order : gmap string Z) (a : nat)
    (t : list event) :
  app_encode (mk_order 1 0 0 0 0) true = Ok (0x8001, "1000000000000001") /\
  Controller.send_to_fpga (fun _ => SerOk) 0x8001 (World order a t) =
  (Ok tt,
   World order (S a)
     (t ++ [Print Terminal MsgSending; SerWrite [0x80; 0x01];
            Print Terminal MsgSent])) /\
  App.send_to_fpga (fun _ => SerOk) 0x8001 (World order a t) =
  (Ok tt,
   World order (S a)
     (t ++ [Print Terminal MsgSending; SerWrite [0x80; 0x01];
            Print Terminal MsgSent])) /\
  Test.send_16bit_command true 0x8001 (World order a t) =
  (Ok tt,
   World order a
     (t ++ [Print Terminal (MsgSending16 0x8001 0x01 0x80);
            SerWrite [0x01; 0x80]; Print Terminal (MsgSentBytes 2)])).
Proof.
  split; [vm_compute; reflexivity|]. split; [|split].
  - unfold Controller.send_to_fpga. run. cbn [current_order attempts trace].
    now rewrite <- !app_assoc.
  - now rewrite app_send_to_fpga_run.
  - unfold Test.send_16bit_command. run. cbn [current_order attempts trace].
    now rewrite <- !app_assoc.
Qed.

(** In general the two orders are the reverse of one another. *)
Lemma payload_reversed (command_int : Z) :
  Controller.payload command_int
  = rev [Z.land command_int 0xFF; Z.land (Z.shiftr command_int 8) 0xFF] /\
  App.payload command_int
  = rev [Z.land command_int 0xFF; Z.land (Z.shiftr command_int 8) 0xFF].
Proof. split; reflexivity. Qed.

(** [app.py] does apply an [add] line whose quantity is above [MAX_QTY]:
    on a cart in range, clamping the request first gives the quantity that
    clamping the sum gives. *)
Lemma app_add_over_max_applied (serial : nat -> serial_outcome) :
  add_over_max_applied (App.process_line serial).
Proof.
  intros line item qtok qty old_qty order a t Ht Hr Htok Hint Hqty Hq.
  assert (Py.lower item = item) as Hlow.
  { apply (tokens_lower line). rewrite Htok. repeat constructor. }
  rewrite (app_process_line_update serial line "add" item qtok qty)
    by auto.
  rewrite Hlow, (canonical_known order item old_qty Ht Hq), Hq.
  cbn [snd current_order]. f_equal.
  pose proof (Hr _ _ Hq) as Hold. unfold MAX_QTY in *.
  unfold app_requested, signed, clamp, MAX_QTY.
  cbn [String.eqb Ascii.eqb Bool.eqb].
  destruct (Z.gtb_spec qty 7); [|lia].
  destruct (Z.gtb_spec (old_qty + 7) 7), (Z.gtb_spec (old_qty + qty) 7);
    try lia; try reflexivity.
  destruct (Z.ltb_spec (old_qty + 7) 0); lia.
Qed.

(** The loop that clears the cart in the controller sets every quantity to
    zero, as the dictionary comprehension of [app.py] does. *)
Lemma controller_clear_order_run (order : gmap string Z) (a : nat)
    (t : list event) :
  Controller.clear_order (World order a t) =
  (Ok tt, World ((fun _ => 0) <$> order) a t).
Proof.
  unfold Controller.clear_order. run. cbn [current_order attempts trace].
  do 2 f_equal.
  assert (forall acc : gmap string Z,
            map_fold (fun food (_ : Z) acc => <[food := 0]> acc) acc order
            = ((fun _ => 0) <$> order) ∪ acc) as Hfold.
  { intros acc.
    induction order as [|food qty m Hfresh Hfirst IH] using map_first_key_ind.
    - now rewrite map_fold_empty, fmap_empty, (left_id_L ∅ (∪)).
    - rewrite map_fold_insert_first_key by assumption.
      now rewrite IH, fmap_insert, insert_union_l. }
  rewrite Hfold. apply map_eq. intros food.
  rewrite lookup_union, lookup_fmap.
  destruct (order !! food); reflexivity.
Qed.

(** The encoder of [app.py] passes over unknown keys, so its word fits 16
    bits on any dictionary at all. *)
Lemma app_command_fits_any (order : gmap string Z) (dispense_now : bool) :
  exists (command : Z) (binary : string),
    app_encode order dispense_now = Ok (command, binary) /\
    0 <= command < 2 ^ 16 /\ String.length binary = 16%nat.
Proof.
  exists (command_word dispense_now (App.encode_items order)),
    (Py.format_016b (command_word dispense_now (App.encode_items order))).
  split; [reflexivity|].
  split; [apply command_word_bound|].
  apply format_016b_length, command_word_bound.
Qed.

(** * Further properties of the code *)

(** ** The two bytes on the wire *)

Lemma low_byte_spec (command : Z) :
  Z.land command 0xFF = command mod 256.
Proof. change 0xFF with (Z.ones 8). now rewrite Z.land_ones by lia. Qed.

Lemma high_byte_spec (command : Z) :
  Z.land (Z.shiftr command 8) 0xFF = (command / 256) mod 256.
Proof.
  change 0xFF with (Z.ones 8).
  now rewrite Z.land_ones, Z.shiftr_div_pow2 by lia.
Qed.

Lemma bytes_reassemble (command : Z) :
  command mod 256 + 256 * ((command / 256) mod 256) = command mod 2 ^ 16.
Proof.
  change (2 ^ 16) with (256 * 256). now rewrite Z.rem_mul_r by lia.
Qed.

(** X1.  [send_16bit_command] of [test.py] hands [ser.write] exactly two
    bytes, each in [0, 255] whatever integer the command is, the low one
    first; the receiver that computes low + 256 * high gets the command
    back modulo 2^16, hence the command itself when it is a 16-bit word.
    The call returns when the write does and raises what the write
    raises. *)
Theorem send_16bit_command_roundtrip (write_ok : bool) (command : Z)
    (order : gmap string Z) (a : nat) (t : list event) :
  exists low high : Z,
    Test.send_16bit_command write_ok command (World order a t) =
    (if write_ok then Ok tt else Raise SerialException,
     World order a
       (t ++ Print Terminal (MsgSending16 command low high)
          :: SerWrite [low; high]
          :: (if write_ok then [Print Terminal (MsgSentBytes 2)] else []))) /\
    0 <= low < 256 /\ 0 <= high < 256 /\
    low + 256 * high = command mod 2 ^ 16.
Proof.
  exists (Z.land command 0xFF), (Z.land (Z.shiftr command 8) 0xFF).
  split.
  - unfold Test.send_16bit_command. run. cbn [current_order attempts trace].
    destruct write_ok; cbn [current_order attempts trace length];
      now rewrite <- !app_assoc.
  - rewrite high_byte_spec, low_byte_spec, bytes_reassemble.
    split; [apply Z.mod_pos_bound; lia|].
    split; [apply Z.mod_pos_bound; lia|reflexivity].
Qed.

(** X2.  Every word that the encoder returns for a cart, with or without
    the dispense flag, is cut by [send_to_fpga] (of either file) into two
    bytes in [0, 255] from which 256 * first + second gives the word back
    exactly: nothing of the word is lost on the wire. *)
Theorem send_to_fpga_reassembles (order : gmap string Z)
    (dispense_now : bool) :
  is_table order ->
  exists (command : Z) (binary : string) (first second : Z),
    controller_encode order dispense_now = Ok (command, binary) /\
    app_encode order dispense_now = Ok (command, binary) /\
    Controller.payload command = [first; second] /\
    App.payload command = [first; second] /\
    0 <= first < 256 /\ 0 <= second < 256 /\
    256 * first + second = command.
Proof.
  intros Ht.
  exists (command_word dispense_now (App.encode_items order)),
    (Py.format_016b (command_word dispense_now (App.encode_items order))).
  set (command := command_word dispense_now (App.encode_items order)).
  exists (Z.land (Z.shiftr command 8) 0xFF), (Z.land command 0xFF).
  rewrite controller_encode_run, app_encode_run by assumption.
  do 4 (split; [reflexivity|]).
  rewrite high_byte_spec, low_byte_spec.
  split; [apply Z.mod_pos_bound; lia|].
  split; [apply Z.mod_pos_bound; lia|].
  pose proof (command_word_bound dispense_now order) as Hb.
  fold command in Hb.
  rewrite Z.add_comm, bytes_reassemble. now apply Z.mod_small.
Qed.

Lemma send_to_fpga_reassembles_witness :
  exists (command : Z) (binary : string) (first second : Z),
    controller_encode (mk_order 7 0 3 9 1) true = Ok (command, binary) /\
    app_encode (mk_order 7 0 3 9 1) true = Ok (command, binary) /\
    Controller.payload command = [first; second] /\
    App.payload command = [first; second] /\
    0 <= first < 256 /\ 0 <= second < 256 /\
    256 * first + second = command.
Proof.
  apply (send_to_fpga_reassembles (mk_order 7 0 3 9 1) true).
  apply mk_order_is_table.
Defined.

(** ** The encoder as arithmetic *)

(** A word below 2^16 is the sum of its five fields and its top bit. *)
Lemma word_fields (command : Z) :
  0 <= command < 2 ^ 16 ->
  command =
  field command 0 + 8 * field command 3 + 64 * field command 6
  + 512 * field command 9 + 4096 * field command 12
  + 32768 * Z.b2z (Z.testbit command 15).
Proof.
  intros Hc. unfold field. change 0x7 with (Z.ones 3).
  rewrite !Z.land_ones, !Z.shiftr_div_pow2 by lia.
  rewrite Z.testbit_spec' by lia.
  change (2 ^ 0) with 1. change (2 ^ 3) with 8. change (2 ^ 6) with (8 * 8).
  change (2 ^ 9) with (8 * (8 * 8)). change (2 ^ 12) with (8 * (8 * (8 * 8))).
  change (2 ^ 15) with (8 * (8 * (8 * (8 * 8)))).
  change (2 ^ 16) with 65536 in Hc.
  rewrite Z.div_1_r, <- !Z.div_div by lia.
  Z.div_mod_to_equations. lia.
Qed.

(** X3.  The command word as a number: for the cart holding [b] burgers,
    [f] fries, [s] sodas, [i] ice creams and [p] pizzas (any integers), the
    encoder of either file returns
    b mod 8 + 8 (f mod 8) + 64 (s mod 8) + 512 (i mod 8) + 4096 (p mod 8),
    plus 32768 when the dispense flag is set. *)
Theorem encode_as_sum (b f s i p : Z) (dispense_now : bool) :
  exists command : Z,
    controller_encode (mk_order b f s i p) dispense_now
    = Ok (command, Py.format_016b command) /\
    app_encode (mk_order b f s i p) dispense_now
    = Ok (command, Py.format_016b command) /\
    command =
    b mod 8 + 8 * (f mod 8) + 64 * (s mod 8) + 512 * (i mod 8)
    + 4096 * (p mod 8) + (if dispense_now then 32768 else 0).
Proof.
  set (order := mk_order b f s i p).
  exists (command_word dispense_now (App.encode_items order)).
  rewrite controller_encode_run, app_encode_run
    by apply mk_order_is_table.
  do 2 (split; [reflexivity|]).
  rewrite (word_fields _ (command_word_bound dispense_now order)) at 1.
  rewrite (field_of_item order _ "burger" b 0) by reflexivity.
  rewrite (field_of_item order _ "fries" f 3) by reflexivity.
  rewrite (field_of_item order _ "soda" s 6) by reflexivity.
  rewrite (field_of_item order _ "ice_cream" i 9) by reflexivity.
  rewrite (field_of_item order _ "pizza" p 12) by reflexivity.
  rewrite command_word_bits, app_encode_items_high by lia.
  change 0x7 with (Z.ones 3). rewrite !Z.land_ones by lia.
  change (2 ^ 3) with 8. destruct dispense_now; reflexivity.
Qed.

(** X4.  On carts with all quantities in [0, 7] the encoder loses
    nothing: two carts, or two values of the dispense flag, that give the
    same command word are the same. *)
Theorem encode_injective (order1 order2 : gmap string Z) (d1 d2 : bool) :
  is_table order1 -> in_range order1 ->
  is_table order2 -> in_range order2 ->
  app_encode order1 d1 = app_encode order2 d2 \/
  controller_encode order1 d1 = controller_encode order2 d2 ->
  order1 = order2 /\ d1 = d2.
Proof.
  intros Ht1 Hr1 Ht2 Hr2 Heq.
  rewrite !controller_encode_run, !app_encode_run in Heq by assumption.
  assert (command_word d1 (App.encode_items order1)
          = command_word d2 (App.encode_items order2)) as Hword
    by (destruct Heq as [Heq|Heq]; congruence).
  split.
  - apply map_eq. intros food.
    destruct (FOOD_BIT_OFFSETS !! food) as [offset|] eqn:Ho.
    + rewrite (decode_item order1 d1 food offset Ht1 Hr1 Ho).
      rewrite (decode_item order2 d2 food offset Ht2 Hr2 Ho).
      now rewrite Hword.
    + apply not_elem_of_dom in Ho. rewrite dom_offsets in Ho.
      transitivity (@None Z); [|symmetry]; apply not_elem_of_dom.
      * now rewrite Ht1.
      * now rewrite Ht2.
  - apply (f_equal (fun c => Z.testbit c 15)) in Hword.
    rewrite !command_word_bits, !app_encode_items_high in Hword by lia.
    now destruct d1, d2.
Qed.

Lemma encode_injective_witness :
  mk_order 1 2 3 4 5 = mk_order 1 2 3 4 5 /\ true = true.
Proof.
  apply (encode_injective (mk_order 1 2 3 4 5) (mk_order 1 2 3 4 5) true true).
  - apply mk_order_is_table.
  - apply mk_order_in_range; lia.
  - apply mk_order_is_table.
  - apply mk_order_in_range; lia.
  - left. reflexivity.
Defined.

(** ** Lines that are not commands *)

Lemma app_process_line_blank (serial : nat -> serial_outcome)
    (line : string) (w : world) :
  tokens line = [] -> App.process_line serial line w = (Ok tt, w).
Proof. intros Htok. unfold App.process_line. now line_tokens Htok. Qed.

Lemma controller_process_line_blank (serial : nat -> serial_outcome)
    (line : string) (w : world) :
  tokens line = [] -> Controller.process_line serial line w = (Ok tt, w).
Proof. intros Htok. unfold Controller.process_line. now line_tokens Htok. Qed.

(** The test that sends a line to the branch of [add] and [remove]. *)
Lemma update_test (command : string) (rest : list string) :
  (String.eqb command "add" || String.eqb command "remove")
  && (length (command :: rest) =? 3)%nat = true <->
  (command = "add" \/ command = "remove") /\ length rest = 2%nat.
Proof.
  rewrite andb_true_iff, orb_true_iff, !String.eqb_eq, Nat.eqb_eq.
  simpl. intuition lia.
Qed.

Lemma app_process_line_unknown (serial : nat -> serial_outcome)
    (line command : string) (rest : list string) (order : gmap string Z)
    (a : nat) (t : list event) :
  tokens line = command :: rest ->
  command <> "dispense" ->
  ~ ((command = "add" \/ command = "remove") /\ length rest = 2%nat) ->
  App.process_line serial line (World order a t) =
  (Ok tt, World order a (t ++ [Print Ui (MsgUnknown line)])).
Proof.
  intros Htok Hd Hu. unfold App.process_line. line_tokens Htok.
  apply String.eqb_neq in Hd. rewrite Hd.
  rewrite <- update_test in Hu. apply not_true_is_false in Hu.
  now rewrite Hu.
Qed.

Lemma controller_process_line_unknown (serial : nat -> serial_outcome)
    (line command : string) (rest : list string) (order : gmap string Z)
    (a : nat) (t : list event) :
  tokens line = command :: rest ->
  command <> "dispense" ->
  ~ ((command = "add" \/ command = "remove") /\ length rest = 2%nat) ->
  Controller.process_line serial line (World order a t) =
  (Ok tt, World order a (t ++ [Print Terminal (MsgUnknown line)])).
Proof.
  intros Htok Hd Hu. unfold Controller.process_line. line_tokens Htok.
  apply String.eqb_neq in Hd. rewrite Hd.
  rewrite <- update_test in Hu. apply not_true_is_false in Hu.
  now rewrite Hu.
Qed.

Lemma app_process_line_malformed (serial : nat -> serial_outcome)
    (line command item qtok : string) (order : gmap string Z) (a : nat)
    (t : list event) :
  tokens line = [command; item; qtok] ->
  command = "add" \/ command = "remove" ->
  Py.int qtok = None ->
  App.process_line serial line (World order a t) =
  (Ok tt, World order a (t ++ [Print Ui (MsgMalformed line)])).
Proof.
  intros Htok Hcmd Hint. unfold App.process_line. line_tokens Htok.
  assert (String.eqb command "dispense" = false) as ->
    by (destruct Hcmd as [->| ->]; reflexivity).
  assert (String.eqb command "add" || String.eqb command "remove" = true)
    as -> by (destruct Hcmd as [->| ->]; reflexivity).
  cbn [length Nat.eqb andb].
  unfold index. simpl (_ !! _). run. now rewrite Hint.
Qed.

Lemma controller_process_line_malformed (serial : nat -> serial_outcome)
    (line command item qtok : string) (order : gmap string Z) (a : nat)
    (t : list event) :
  tokens line = [command; item; qtok] ->
  command = "add" \/ command = "remove" ->
  Py.int qtok = None ->
  Controller.process_line serial line (World order a t) =
  (Ok tt, World order a (t ++ [Print Terminal (MsgMalformed line)])).
Proof.
  intros Htok Hcmd Hint. unfold Controller.process_line. line_tokens Htok.
  assert (String.eqb command "dispense" = false) as ->
    by (destruct Hcmd as [->| ->]; reflexivity).
  assert (String.eqb command "add" || String.eqb command "remove" = true)
    as -> by (destruct Hcmd as [->| ->]; reflexivity).
  cbn [length Nat.eqb andb].
  unfold index. simpl (_ !! _). run. now rewrite Hint.
Qed.

(** The tokens of a line fall under exactly one of the tests of
    [process_llm_response]. *)
Lemma tokens_cases (parts : list string) :
  parts = [] \/
  (exists rest, parts = "dispense" :: rest) \/
  (exists command item qtok,
     parts = [command; item; qtok] /\ (command = "add" \/ command = "remove")) \/
  (exists command rest,
     parts = command :: rest /\ command <> "dispense" /\
     ~ ((command = "add" \/ command = "remove") /\ length rest = 2%nat)).
Proof.
  destruct parts as [|command rest]; [now left|right].
  destruct (String.eqb_spec command "dispense") as [->|Hd]; [left; eauto|].
  right.
  destruct (decide ((command = "add" \/ command = "remove")
                    /\ length rest = 2%nat)) as [[Hcmd Hlen]|Hu].
  - left. destruct rest as [|item [|qtok [|]]]; try discriminate Hlen.
    eauto 6.
  - right. eauto 6.
Qed.

(** ** No line stops [app.py] *)

Lemma is_print_update_events (ui : channel) (food_item : string)
    (quantity : Z) (order : gmap string Z) :
  Forall is_print (update_events ui food_item quantity order).
Proof. repeat constructor. Qed.

Lemma in_range_zero (order : gmap string Z) :
  in_range ((fun _ => 0) <$> order).
Proof.
  unfold in_range, MAX_QTY. apply map_Forall_fmap.
  intros food qty _. simpl. lia.
Qed.

Lemma dom_insert_known (order : gmap string Z) (food_item : string)
    (old_qty qty : Z) :
  order !! food_item = Some old_qty ->
  dom (<[food_item := qty]> order) = dom order.
Proof.
  intros Hq. rewrite dom_insert_L.
  apply subseteq_union_1_L, singleton_subseteq_l, elem_of_dom. eauto.
Qed.

(** One line in [app.py]: it returns, the cart keeps its keys, and a cart
    in range stays in range. *)
Lemma app_process_line_invariant (serial : nat -> serial_outcome)
    (line : string) (w : world) :
  (App.process_line serial line w).1 = Ok tt /\
  dom (current_order (App.process_line serial line w).2)
  = dom (current_order w) /\
  (in_range (current_order w) ->
   in_range (current_order (App.process_line serial line w).2)).
Proof.
  destruct w as [order a t].
  destruct (tokens_cases (tokens line))
    as [Hb|[[rest Hd]|[(command & item & qtok & Hu & Hcmd)
                      |(command & rest & Hk & Hnd & Hnu)]]].
  - rewrite (app_process_line_blank serial line _ Hb). auto.
  - rewrite (app_process_line_dispense serial line rest order a t Hd).
    cbn [fst snd current_order]. rewrite dom_fmap_L.
    auto using in_range_zero.
  - destruct (Py.int qtok) as [qty|] eqn:Hint.
    + rewrite (app_process_line_update serial line command item qtok qty
                 order a t Hu Hcmd Hint).
      cbn [fst snd].
      destruct (order !! canonical (Py.lower item)) as [old_qty|] eqn:Hq;
        cbn [current_order]; [|auto].
      split; [reflexivity|]. split.
      * now apply (dom_insert_known order _ old_qty).
      * apply in_range_insert.
    + rewrite (app_process_line_malformed serial line command item qtok
                 order a t Hu Hcmd Hint). auto.
  - rewrite (app_process_line_unknown serial line command rest order a t
               Hk Hnd Hnu). auto.
Qed.

(** X5.  No text stops [process_llm_response] of [app.py]: whatever the
    text and whatever the serial port does, the call returns without an
    exception, the cart keeps exactly its keys, and a cart with all
    quantities in [0, 7] ends with all quantities in [0, 7]. *)
Theorem app_process_llm_response_total (serial : nat -> serial_outcome)
    (llm_output : string) (order : gmap string Z) (a : nat)
    (t : list event) :
  in_range order ->
  (App.process_llm_response serial llm_output (World order a t)).1 = Ok tt /\
  dom (current_order
         (App.process_llm_response serial llm_output (World order a t)).2)
  = dom order /\
  in_range (current_order
              (App.process_llm_response serial llm_output (World order a t)).2).
Proof.
  intros Hr.
  rewrite (app_process_llm_response_run serial llm_output
             (lines_of llm_output)) by reflexivity.
  apply (for_each_invariant
           (fun w => dom (current_order w) = dom order
                     /\ in_range (current_order w))).
  - intros line w [Hdom Hin].
    destruct (app_process_line_invariant serial line w) as (Hok & Hd & Hi).
    split; [assumption|]. split; [congruence|auto].
  - now split.
Qed.

Lemma app_process_llm_response_total_witness :
  (App.process_llm_response (fun _ => SerOtherError) soda_block
     (World (mk_order 7 0 0 0 0) 0 [])).1 = Ok tt /\
  dom (current_order
         (App.process_llm_response (fun _ => SerOtherError) soda_block
            (World (mk_order 7 0 0 0 0) 0 [])).2)
  = dom (mk_order 7 0 0 0 0) /\
  in_range (current_order
              (App.process_llm_response (fun _ => SerOtherError) soda_block
                 (World (mk_order 7 0 0 0 0) 0 [])).2).
Proof.
  apply (app_process_llm_response_total (fun _ => SerOtherError) soda_block
           (mk_order 7 0 0 0 0) 0 []).
  apply mk_order_in_range; lia.
Defined.

(** ** The first [dispense] line stops the controller *)

Lemma is_print_display_events (ui : channel) (order : gmap string Z) :
  Forall is_print (display_events ui order).
Proof. repeat constructor. Qed.

Ltac same_cart :=
  split; [reflexivity|split; [assumption|split; [auto|repeat constructor]]].

(** One line in the controller, on a cart with the five keys: a
    [dispense] line raises [TypeError] and changes nothing; any other line
    returns, keeps the keys and the range of the cart, prints only, and
    leaves the serial port alone. *)
Lemma controller_process_line_shape (serial : nat -> serial_outcome)
    (line : string) (order : gmap string Z) (a : nat) (t : list event) :
  is_table order ->
  (dispense_line line /\
   Controller.process_line serial line (World order a t)
   = (Raise TypeError, World order a t)) \/
  (~ dispense_line line /\
   exists (order' : gmap string Z) (evs : list event),
     Controller.process_line serial line (World order a t)
     = (Ok tt, World order' a (t ++ evs)) /\
     is_table order' /\ (in_range order -> in_range order') /\
     Forall is_print evs).
Proof.
  intros Ht. unfold dispense_line.
  destruct (tokens_cases (tokens line))
    as [Hb|[[rest Hd]|[(command & item & qtok & Hu & Hcmd)
                      |(command & rest & Hk & Hnd & Hnu)]]].
  - right. rewrite Hb. split; [discriminate|].
    exists order, []. rewrite app_nil_r.
    rewrite (controller_process_line_blank serial line _ Hb).
    same_cart.
  - left. rewrite Hd. split; [reflexivity|].
    apply (controller_process_line_dispense serial line rest _ Hd).
  - right. rewrite Hu. split.
    { simpl. intros [= ->]. destruct Hcmd; discriminate. }
    destruct (Py.int qtok) as [qty|] eqn:Hint.
    + rewrite (controller_process_line_update serial line command item qtok
                 qty order a t Ht Hu Hcmd Hint).
      destruct (qty >? MAX_QTY).
      { exists order, [Print Terminal (MsgExceedsIgnoring qty)].
        same_cart. }
      destruct (order !! Py.lower item) as [old_qty|] eqn:Hq.
      * eexists _, _. split; [reflexivity|]. split; [|split].
        -- now apply (is_table_insert order _ old_qty).
        -- intros Hr. now apply in_range_insert.
        -- apply is_print_update_events.
      * exists order, [Print Terminal (MsgInvalidItem (Py.lower item))].
        same_cart.
    + rewrite (controller_process_line_malformed serial line command item
                 qtok order a t Hu Hcmd Hint).
      exists order, [Print Terminal (MsgMalformed line)].
      same_cart.
  - right. rewrite Hk. split; [simpl; congruence|].
    rewrite (controller_process_line_unknown serial line command rest order
               a t Hk Hnd Hnu).
    exists order, [Print Terminal (MsgUnknown line)].
    same_cart.
Qed.

(** The loop of the controller on a list of lines. *)
Lemma controller_lines_shape (serial : nat -> serial_outcome)
    (lines : list string) (order : gmap string Z) (a : nat)
    (t : list event) :
  is_table order ->
  exists (order' : gmap string Z) (evs : list event),
    for_each lines (Controller.process_line serial) (World order a t)
    = (if decide (Exists dispense_line lines) then Raise TypeError else Ok tt,
       World order' a (t ++ evs)) /\
    is_table order' /\ (in_range order -> in_range order') /\
    Forall is_print evs.
Proof.
  revert order t. induction lines as [|line lines IH]; intros order t Ht.
  - exists order, []. rewrite app_nil_r.
    rewrite decide_False by (now rewrite Exists_nil). auto.
  - destruct (controller_process_line_shape serial line order a t Ht)
      as [[Hd Hrun]|[Hnd (order1 & evs1 & Hrun & Ht1 & Hr1 & Hp1)]].
    + exists order, []. rewrite app_nil_r.
      rewrite (for_each_cons_raise _ _ _ _ _ _ Hrun).
      rewrite decide_True by (now apply Exists_cons_hd). auto.
    + destruct (IH order1 (t ++ evs1)%list Ht1)
        as (order2 & evs2 & Hrest & Ht2 & Hr2 & Hp2).
      exists order2, (evs1 ++ evs2)%list.
      rewrite (for_each_cons_ok _ _ _ _ _ Hrun), Hrest, app_assoc.
      split; [|split; [assumption|split; [auto|now apply Forall_app]]].
      f_equal. apply decide_ext. rewrite Exists_cons. tauto.
Qed.

(** The loop of the controller stops at the first line that dispenses:
    its outcome apart, it is the loop on the lines before that line, which
    returns. *)
Lemma controller_lines_prefix (serial : nat -> serial_outcome)
    (lines : list string) (order : gmap string Z) (a : nat)
    (t : list event) :
  is_table order ->
  exists w' : world,
    for_each lines (Controller.process_line serial) (World order a t)
    = (if decide (Exists dispense_line lines) then Raise TypeError else Ok tt,
       w') /\
    for_each (before_dispense lines) (Controller.process_line serial)
      (World order a t) = (Ok tt, w').
Proof.
  revert order t. induction lines as [|line lines IH]; intros order t Ht.
  - exists (World order a t).
    rewrite decide_False by (now rewrite Exists_nil). auto.
  - cbn [before_dispense].
    destruct (controller_process_line_shape serial line order a t Ht)
      as [[Hd Hrun]|[Hnd (order1 & evs1 & Hrun & Ht1 & _)]].
    + exists (World order a t).
      rewrite (for_each_cons_raise _ _ _ _ _ _ Hrun).
      rewrite !decide_True by (assumption || now apply Exists_cons_hd).
      auto.
    + destruct (IH order1 (t ++ evs1)%list Ht1) as (w' & Hall & Hpre).
      exists w'. rewrite (decide_False _ _ Hnd).
      rewrite !(for_each_cons_ok _ _ _ _ _ Hrun), Hall, Hpre.
      split; [|reflexivity]. f_equal. apply decide_ext.
      rewrite Exists_cons. tauto.
Qed.

(** X6.  On a cart with the five keys, [process_llm_response] of the
    controller returns exactly when no line of the text has [dispense] as
    its first token; otherwise it raises [TypeError], and it does so at the
    first such line: the cart and the trace it leaves are those that
    processing the lines before that line leaves, and no later line is
    processed.  In both cases the cart keeps its keys, a cart in range
    stays in range, and the serial port is never used: the call prints,
    and writes nothing. *)
Theorem controller_process_llm_response_outcome
    (serial : nat -> serial_outcome) (llm_output : string)
    (order : gmap string Z) (a : nat) (t : list event) :
  is_table order -> in_range order ->
  exists (order' : gmap string Z) (evs : list event),
    Controller.process_llm_response serial llm_output (World order a t)
    = (if decide (Exists dispense_line (lines_of llm_output))
       then Raise TypeError else Ok tt,
       World order' a (t ++ evs)) /\
    for_each (before_dispense (lines_of llm_output))
      (Controller.process_line serial)
      (World order a (t ++ [Print Terminal (MsgLlmResponse llm_output)]))
    = (Ok tt, World order' a (t ++ evs)) /\
    is_table order' /\ in_range order' /\ Forall is_print evs.
Proof.
  intros Ht Hr.
  rewrite (controller_process_llm_response_run serial llm_output
             (lines_of llm_output)) by reflexivity.
  destruct (controller_lines_shape serial (lines_of llm_output) order a
              (t ++ [Print Terminal (MsgLlmResponse llm_output)])%list Ht)
    as (order' & evs & Hrun & Ht' & Hr' & Hp).
  destruct (controller_lines_prefix serial (lines_of llm_output) order a
              (t ++ [Print Terminal (MsgLlmResponse llm_output)])%list Ht)
    as (w' & Hall & Hpre).
  exists order', (Print Terminal (MsgLlmResponse llm_output) :: evs).
  rewrite Hpre. rewrite Hrun in Hall. injection Hall as <-.
  rewrite Hrun, <- app_assoc.
  split; [reflexivity|]. split; [reflexivity|].
  split; [assumption|]. split; [auto|].
  constructor; [exact I|assumption].
Qed.

Lemma controller_process_llm_response_outcome_witness :
  exists (order' : gmap string Z) (evs : list event),
    Controller.process_llm_response (fun _ => SerOk) soda_block
      (World initial_order 0 [])
    = (if decide (Exists dispense_line (lines_of soda_block))
       then Raise TypeError else Ok tt,
       World order' 0 ([] ++ evs)) /\
    for_each (before_dispense (lines_of soda_block))
      (Controller.process_line (fun _ => SerOk))
      (World initial_order 0
         ([] ++ [Print Terminal (MsgLlmResponse soda_block)]))
    = (Ok tt, World order' 0 ([] ++ evs)) /\
    is_table order' /\ in_range order' /\ Forall is_print evs.
Proof.
  apply (controller_process_llm_response_outcome (fun _ => SerOk) soda_block
           initial_order 0 []).
  - apply mk_order_is_table.
  - apply mk_order_in_range; lia.
Defined.

(** X7.  A line that is not a command never changes the cart or uses the
    serial port, in either file.  A line without tokens is passed over in
    silence: nothing at all changes.  A line whose first token is none of
    [dispense], [add], [remove], or an [add] or [remove] line that does not
    have exactly three tokens, is reported as unknown, once.  An [add] or
    [remove] line whose third token is not an integer that [int] accepts is
    reported as malformed, once.  The report quotes the line as it was
    received, and is the same in both files, on the terminal in the
    controller and in the interface in [app.py]. *)
Theorem not_a_command_ignored (serial : nat -> serial_outcome)
    (line : string) (order : gmap string Z) (a : nat) (t : list event) :
  (tokens line = [] ->
   Controller.process_line serial line (World order a t)
   = (Ok tt, World order a t) /\
   App.process_line serial line (World order a t)
   = (Ok tt, World order a t)) /\
  (forall command rest,
     tokens line = command :: rest -> command <> "dispense" ->
     ~ ((command = "add" \/ command = "remove") /\ length rest = 2%nat) ->
     Controller.process_line serial line (World order a t)
     = (Ok tt, World order a (t ++ [Print Terminal (MsgUnknown line)])) /\
     App.process_line serial line (World order a t)
     = (Ok tt, World order a (t ++ [Print Ui (MsgUnknown line)]))) /\
  (forall command item qtok,
     tokens line = [command; item; qtok] ->
     command = "add" \/ command = "remove" -> Py.int qtok = None ->
     Controller.process_line serial line (World order a t)
     = (Ok tt, World order a (t ++ [Print Terminal (MsgMalformed line)])) /\
     App.process_line serial line (World order a t)
     = (Ok tt, World order a (t ++ [Print Ui (MsgMalformed line)]))).
Proof.
  split; [|split].
  - intros Hb.
    now rewrite (controller_process_line_blank serial line _ Hb),
      (app_process_line_blank serial line _ Hb).
  - intros command rest Hk Hnd Hnu.
    now rewrite (controller_process_line_unknown serial line command rest
                   order a t Hk Hnd Hnu),
      (app_process_line_unknown serial line command rest order a t
         Hk Hnd Hnu).
  - intros command item qtok Hu Hcmd Hint.
    now rewrite (controller_process_line_malformed serial line command item
                   qtok order a t Hu Hcmd Hint),
      (app_process_line_malformed serial line command item qtok order a t
         Hu Hcmd Hint).
Qed.

Lemma not_a_command_ignored_witness :
  (Controller.process_line (fun _ => SerOk) "  "
     (World (mk_order 1 2 3 4 5) 0 [])
   = (Ok tt, World (mk_order 1 2 3 4 5) 0 []) /\
   App.process_line (fun _ => SerOk) "  " (World (mk_order 1 2 3 4 5) 0 [])
   = (Ok tt, World (mk_order 1 2 3 4 5) 0 [])) /\
  (Controller.process_line (fun _ => SerOk) "banana 5"
     (World (mk_order 1 2 3 4 5) 0 [])
   = (Ok tt,
      World (mk_order 1 2 3 4 5) 0
        ([] ++ [Print Terminal (MsgUnknown "banana 5")])) /\
   App.process_line (fun _ => SerOk) "banana 5"
     (World (mk_order 1 2 3 4 5) 0 [])
   = (Ok tt,
      World (mk_order 1 2 3 4 5) 0
        ([] ++ [Print Ui (MsgUnknown "banana 5")]))) /\
  (Controller.process_line (fun _ => SerOk) "add burger two"
     (World (mk_order 1 2 3 4 5) 0 [])
   = (Ok tt,
      World (mk_order 1 2 3 4 5) 0
        ([] ++ [Print Terminal (MsgMalformed "add burger two")])) /\
   App.process_line (fun _ => SerOk) "add burger two"
     (World (mk_order 1 2 3 4 5) 0 [])
   = (Ok tt,
      World (mk_order 1 2 3 4 5) 0
        ([] ++ [Print Ui (MsgMalformed "add burger two")]))).
Proof.
  split; [|split].
  - apply (not_a_command_ignored (fun _ => SerOk) "  "
             (mk_order 1 2 3 4 5) 0 []).
    reflexivity.
  - apply (not_a_command_ignored (fun _ => SerOk) "banana 5"
             (mk_order 1 2 3 4 5) 0 [] ) with (command := "banana")
                                              (rest := ["5"]).
    + reflexivity.
    + discriminate.
    + intros [[H|H] _]; discriminate H.
  - apply (not_a_command_ignored (fun _ => SerOk) "add burger two"
             (mk_order 1 2 3 4 5) 0 []) with (command := "add")
                                             (item := "burger")
                                             (qtok := "two").
    + reflexivity.
    + now left.
    + reflexivity.
Defined.

(** ** Letter case *)

Lemma isspace_lower_char (c : ascii) :
  Py.isspace (Py.lower_char c) = Py.isspace c.
Proof. destruct c as [[] [] [] [] [] [] [] []]; reflexivity. Qed.

Lemma quote_lower_char (c : ascii) :
  Py.mem_char (Py.lower_char c) QUOTES = Py.mem_char c QUOTES.
Proof. destruct c as [[] [] [] [] [] [] [] []]; reflexivity. Qed.

Lemma lstrip_by_lower (p : ascii -> bool) (s : string) :
  (forall c, p (Py.lower_char c) = p c) ->
  Py.lstrip_by p (Py.lower s) = Py.lower (Py.lstrip_by p s).
Proof.
  intros Hp. induction s as [|c s IH]; simpl; [reflexivity|].
  rewrite Hp. now destruct (p c).
Qed.

Lemma rstrip_by_lower (p : ascii -> bool) (s : string) :
  (forall c, p (Py.lower_char c) = p c) ->
  Py.rstrip_by p (Py.lower s) = Py.lower (Py.rstrip_by p s).
Proof.
  intros Hp. induction s as [|c s IH]; simpl; [reflexivity|].
  rewrite IH, Hp.
  destruct (Py.rstrip_by p s); simpl; [now destruct (p c)|reflexivity].
Qed.

Lemma strip_by_lower (p : ascii -> bool) (s : string) :
  (forall c, p (Py.lower_char c) = p c) ->
  Py.strip_by p (Py.lower s) = Py.lower (Py.strip_by p s).
Proof.
  intros Hp. unfold Py.strip_by.
  now rewrite lstrip_by_lower, rstrip_by_lower.
Qed.

(** The tokens of a line do not depend on the case of its letters. *)
Lemma tokens_lower_line (line : string) : tokens (Py.lower line) = tokens line.
Proof.
  unfold tokens, Py.strip, Py.strip_chars.
  rewrite (strip_by_lower Py.isspace) by apply isspace_lower_char.
  rewrite (strip_by_lower (fun c => Py.mem_char c QUOTES))
    by apply quote_lower_char.
  now rewrite lower_idem.
Qed.

(** Two lines with the same tokens are processed alike, up to the line
    quoted in a warning. *)
Lemma app_process_line_tokens (serial : nat -> serial_outcome)
    (line1 line2 : string) (w : world) :
  tokens line1 = tokens line2 ->
  (App.process_line serial line1 w).1 = (App.process_line serial line2 w).1 /\
  current_order (App.process_line serial line1 w).2
  = current_order (App.process_line serial line2 w).2 /\
  attempts (App.process_line serial line1 w).2
  = attempts (App.process_line serial line2 w).2.
Proof.
  intros Htok. unfold App.process_line.
  change (Py.split (Py.lower (Py.strip_chars QUOTES (Py.strip line1))))
    with (tokens line1).
  change (Py.split (Py.lower (Py.strip_chars QUOTES (Py.strip line2))))
    with (tokens line2).
  rewrite Htok. destruct (tokens line2) as [|command rest]; [auto|].
  destruct (String.eqb command "dispense"); [auto|].
  destruct ((String.eqb command "add" || String.eqb command "remove")
            && (length (command :: rest) =? 3)%nat); [|auto].
  unfold try_except.
  match goal with |- context [match ?body w with _ => _ end] =>
    destruct (body w) as [[u|e] w'] end; [auto|].
  destruct e; auto.
Qed.

Lemma controller_process_line_tokens (serial : nat -> serial_outcome)
    (line1 line2 : string) (w : world) :
  tokens line1 = tokens line2 ->
  (Controller.process_line serial line1 w).1
  = (Controller.process_line serial line2 w).1 /\
  current_order (Controller.process_line serial line1 w).2
  = current_order (Controller.process_line serial line2 w).2 /\
  attempts (Controller.process_line serial line1 w).2
  = attempts (Controller.process_line serial line2 w).2.
Proof.
  intros Htok. unfold Controller.process_line.
  change (Py.split (Py.lower (Py.strip_chars QUOTES (Py.strip line1))))
    with (tokens line1).
  change (Py.split (Py.lower (Py.strip_chars QUOTES (Py.strip line2))))
    with (tokens line2).
  rewrite Htok. destruct (tokens line2) as [|command rest]; [auto|].
  destruct (String.eqb command "dispense"); [auto|].
  destruct ((String.eqb command "add" || String.eqb command "remove")
            && (length (command :: rest) =? 3)%nat); [|auto].
  unfold try_except.
  match goal with |- context [match ?body w with _ => _ end] =>
    destruct (body w) as [[u|e] w'] end; [auto|].
  destruct e; auto.
Qed.

(** X8.  Commands are read without regard to letter case: two lines that
    differ only in the case of their letters give, in either file and from
    any state, the same outcome, the same cart and the same use of the
    serial port. *)
Theorem letter_case_ignored (serial : nat -> serial_outcome)
    (line1 line2 : string) (w : world) :
  Py.lower line1 = Py.lower line2 ->
  ((App.process_line serial line1 w).1 = (App.process_line serial line2 w).1 /\
   current_order (App.process_line serial line1 w).2
   = current_order (App.process_line serial line2 w).2 /\
   attempts (App.process_line serial line1 w).2
   = attempts (App.process_line serial line2 w).2) /\
  ((Controller.process_line serial line1 w).1
   = (Controller.process_line serial line2 w).1 /\
   current_order (Controller.process_line serial line1 w).2
   = current_order (Controller.process_line serial line2 w).2 /\
   attempts (Controller.process_line serial line1 w).2
   = attempts (Controller.process_line serial line2 w).2).
Proof.
  intros Hlow.
  assert (tokens line1 = tokens line2) as Htok.
  { now rewrite <- (tokens_lower_line line1), <- (tokens_lower_line line2),
      Hlow. }
  split.
  - now apply app_process_line_tokens.
  - now apply controller_process_line_tokens.
Qed.

Lemma letter_case_ignored_witness :
  ((App.process_line (fun _ => SerOk) "ADD Burger 2"
      (World initial_order 0 [])).1
   = (App.process_line (fun _ => SerOk) "add burger 2"
        (World initial_order 0 [])).1 /\
   current_order (App.process_line (fun _ => SerOk) "ADD Burger 2"
                    (World initial_order 0 [])).2
   = current_order (App.process_line (fun _ => SerOk) "add burger 2"
                      (World initial_order 0 [])).2 /\
   attempts (App.process_line (fun _ => SerOk) "ADD Burger 2"
               (World initial_order 0 [])).2
   = attempts (App.process_line (fun _ => SerOk) "add burger 2"
                 (World initial_order 0 [])).2) /\
  ((Controller.process_line (fun _ => SerOk) "ADD Burger 2"
      (World initial_order 0 [])).1
   = (Controller.process_line (fun _ => SerOk) "add burger 2"
        (World initial_order 0 [])).1 /\
   current_order (Controller.process_line (fun _ => SerOk) "ADD Burger 2"
                    (World initial_order 0 [])).2
   = current_order (Controller.process_line (fun _ => SerOk) "add burger 2"
                      (World initial_order 0 [])).2 /\
   attempts (Controller.process_line (fun _ => SerOk) "ADD Burger 2"
               (World initial_order 0 [])).2
   = attempts (Controller.process_line (fun _ => SerOk) "add burger 2"
                 (World initial_order 0 [])).2).
Proof.
  apply (letter_case_ignored (fun _ => SerOk) "ADD Burger 2" "add burger 2"
           (World initial_order 0 [])).
  reflexivity.
Defined.

(** ** How updates compose *)

Lemma clamp_id (qty : Z) : 0 <= qty <= MAX_QTY -> clamp qty = qty.
Proof.
  unfold clamp, MAX_QTY. intros Hq.
  destruct (Z.gtb_spec qty 7); [lia|].
  destruct (Z.ltb_spec qty 0); [lia|reflexivity].
Qed.

Lemma clamp_min_max (qty : Z) : clamp qty = Z.max 0 (Z.min MAX_QTY qty).
Proof.
  unfold clamp, MAX_QTY.
  destruct (Z.gtb_spec qty 7); [lia|].
  destruct (Z.ltb_spec qty 0); lia.
Qed.

Lemma clamp_clamp_same_sign (qty d1 d2 : Z) :
  0 <= qty <= MAX_QTY ->
  (0 <= d1 /\ 0 <= d2) \/ (d1 <= 0 /\ d2 <= 0) ->
  clamp (clamp (qty + d1) + d2) = clamp (qty + (d1 + d2)).
Proof. rewrite !clamp_min_max. unfold MAX_QTY. lia. Qed.

(** The cart after two calls of [update_order] for the same item. *)
Lemma update_twice_cart (order : gmap string Z) (food_item : string)
    (q1 q2 : Z -> Z) :
  match
    match order !! food_item with
    | Some old_qty => <[food_item := q1 old_qty]> order
    | None => order
    end !! food_item
  with
  | Some mid_qty =>
      <[food_item := q2 mid_qty]>
        match order !! food_item with
        | Some old_qty => <[food_item := q1 old_qty]> order
        | None => order
        end
  | None =>
      match order !! food_item with
      | Some old_qty => <[food_item := q1 old_qty]> order
      | None => order
      end
  end
  = match order !! food_item with
    | Some old_qty => <[food_item := q2 (q1 old_qty)]> order
    | None => order
    end.
Proof.
  destruct (order !! food_item) as [old_qty|] eqn:Hq.
  - now rewrite lookup_insert_eq, insert_insert_eq.
  - now rewrite Hq.
Qed.

(** X9.  On a cart with all quantities in [0, 7], two calls of
    [update_order] for the same item whose deltas have the same sign leave
    the cart that one call with the sum of the deltas leaves, in either
    file; and a call with delta 0 leaves the cart as it is.  (With deltas
    of opposite signs the clamping in between shows: +10 then -3 on 5
    gives 4, not 7.) *)
Theorem update_order_composes (food_item : string) (d1 d2 : Z)
    (order : gmap string Z) (a : nat) (t : list event) :
  in_range order ->
  (0 <= d1 /\ 0 <= d2) \/ (d1 <= 0 /\ d2 <= 0) ->
  current_order
    (Controller.update_order food_item d2
       (Controller.update_order food_item d1 (World order a t)).2).2
  = current_order
      (Controller.update_order food_item (d1 + d2) (World order a t)).2 /\
  current_order
    (App.update_order food_item d2
       (App.update_order food_item d1 (World order a t)).2).2
  = current_order (App.update_order food_item (d1 + d2) (World order a t)).2 /\
  current_order (Controller.update_order food_item 0 (World order a t)).2
  = order /\
  current_order (App.update_order food_item 0 (World order a t)).2 = order.
Proof.
  intros Hr Hsign.
  rewrite !controller_update_order_cart, !app_update_order_cart.
  cbn [current_order].
  rewrite (update_twice_cart order food_item
             (fun old_qty => clamp (old_qty + d1))
             (fun mid_qty => clamp (mid_qty + d2))).
  destruct (order !! food_item) as [old_qty|] eqn:Hq; [|auto].
  pose proof (Hr _ _ Hq) as Hold.
  rewrite (clamp_clamp_same_sign old_qty d1 d2 Hold Hsign).
  rewrite Z.add_0_r, (clamp_id old_qty Hold), (insert_id order _ _ Hq).
  auto.
Qed.

Lemma update_order_composes_witness :
  current_order
    (Controller.update_order "soda" 4
       (Controller.update_order "soda" 2 (World (mk_order 0 0 3 0 0) 0 [])).2).2
  = current_order
      (Controller.update_order "soda" (2 + 4)
         (World (mk_order 0 0 3 0 0) 0 [])).2 /\
  current_order
    (App.update_order "soda" 4
       (App.update_order "soda" 2 (World (mk_order 0 0 3 0 0) 0 [])).2).2
  = current_order
      (App.update_order "soda" (2 + 4) (World (mk_order 0 0 3 0 0) 0 [])).2 /\
  current_order
    (Controller.update_order "soda" 0 (World (mk_order 0 0 3 0 0) 0 [])).2
  = mk_order 0 0 3 0 0 /\
  current_order (App.update_order "soda" 0 (World (mk_order 0 0 3 0 0) 0 [])).2
  = mk_order 0 0 3 0 0.
Proof.
  apply (update_order_composes "soda" 2 4 (mk_order 0 0 3 0 0) 0 []).
  - apply mk_order_in_range; lia.
  - left. lia.
Defined.

(** With deltas of opposite signs the clamping in between is seen. *)
Lemma update_order_opposite_signs :
  current_order
    (App.update_order "burger" (-3)
       (App.update_order "burger" 10 (World (mk_order 5 0 0 0 0) 0 [])).2).2
  = mk_order 4 0 0 0 0 /\
  current_order
    (App.update_order "burger" (10 + -3) (World (mk_order 5 0 0 0 0) 0 [])).2
  = mk_order 7 0 0 0 0.
Proof. split; vm_compute; reflexivity. Qed.

(** ** Dispensing in [app.py] *)

(** The items of a cart whose quantities are all zero encode to zero. *)
Lemma app_encode_items_zero (order : gmap string Z) :
  App.encode_items ((fun _ => 0) <$> order) = 0.
Proof.
  apply Z.bits_inj'. intros n _. rewrite Z.bits_0.
  apply not_true_is_false. intros Hb.
  apply app_encode_items_bits in Hb as (food & qty & offset & Hq & _ & Hb).
  rewrite lookup_fmap in Hq. destruct (order !! food); [|discriminate].
  injection Hq as <-. change (Z.land 0 0x7) with 0 in Hb.
  now rewrite Z.shiftl_0_l, Z.bits_0 in Hb.
Qed.

(** X10.  In [app.py], any line whose first token is [dispense], whatever
    follows it on the line, dispenses from any cart: the port is used once
    and, if it opens, is handed the bytes of the word that encodes the cart
    with the dispense flag; then, whatever the port did, every item of the
    cart is kept with quantity 0, so that the word of the cart is 0
    again. *)
Theorem app_dispense_clears (serial : nat -> serial_outcome)
    (line : string) (rest : list string) (order : gmap string Z) (a : nat)
    (t : list event) :
  tokens line = "dispense" :: rest ->
  exists (order' : gmap string Z) (evs : list event),
    App.process_line serial line (World order a t)
    = (Ok tt, World order' (S a) (t ++ evs)) /\
    dom order' = dom order /\
    map_Forall (fun _ qty => qty = 0) order' /\
    App.encode_items order' = 0 /\
    (forall payload : list Z,
       SerWrite payload ∈ evs <->
       payload = App.payload (command_word true (App.encode_items order)) /\
       (serial a = SerOk \/ serial a = SerWriteError)).
Proof.
  intros Htok. eexists _, _.
  split; [apply (app_process_line_dispense serial line rest order a t Htok)|].
  split; [apply dom_fmap_L|].
  split; [apply map_Forall_fmap; now intros food qty _|].
  split; [apply app_encode_items_zero|].
  intros payload. unfold app_send_events, display_events.
  destruct (serial a); simpl;
    rewrite ?elem_of_cons, ?elem_of_nil;
    split; intros H;
    repeat match type of H with
           | _ \/ _ => destruct H as [H|H]
           | _ /\ _ => destruct H as [? H]
           end;
    try discriminate H; try contradiction;
    try (injection H as ->); subst; auto 10.
Qed.

Lemma app_dispense_clears_witness :
  exists (order' : gmap string Z) (evs : list event),
    App.process_line (fun _ => SerWriteError) "Dispense now, please"
      (World (mk_order 1 2 3 4 5) 0 [])
    = (Ok tt, World order' 1 ([] ++ evs)) /\
    dom order' = dom (mk_order 1 2 3 4 5) /\
    map_Forall (fun _ qty => qty = 0) order' /\
    App.encode_items order' = 0 /\
    (forall payload : list Z,
       SerWrite payload ∈ evs <->
       payload
       = App.payload
           (command_word true (App.encode_items (mk_order 1 2 3 4 5))) /\
       ((fun _ : nat => SerWriteError) 0%nat = SerOk
        \/ (fun _ : nat => SerWriteError) 0%nat = SerWriteError)).
Proof.
  apply (app_dispense_clears (fun _ => SerWriteError) "Dispense now, please"
           ["now,"; "please"] (mk_order 1 2 3 4 5) 0 []).
  reflexivity.
Defined.

(** ** The manual mode *)

Import Console.

Ltac crun :=
  cbv beta iota zeta delta
    [mbind mret C_bind C_ret c_bind c_ret c_raise c_try console
     append_message set_messages chat_completion].

(** A controller function within a session. *)
Lemma lift_run {A : Type} (m : M A) (s : session) (r : outcome A)
    (order : gmap string Z) (a : nat) (evs : list event) :
  m (World (cart s) (uses s) []) = (r, World order a ([] ++ evs)) ->
  lift m s = (r, shown s order a (Core <$> evs)).
Proof. intros Hm. unfold lift. now rewrite Hm. Qed.

Lemma controller_send_to_fpga_run (serial : nat -> serial_outcome)
    (command_int : Z) (order : gmap string Z) (a : nat) (t : list event) :
  Controller.send_to_fpga serial command_int (World order a t) =
  (match serial a with SerOtherError => Raise OtherException | _ => Ok tt end,
   World order (S a) (t ++ controller_send_events (serial a) command_int)).
Proof.
  unfold Controller.send_to_fpga, controller_send_events. run.
  cbn [current_order attempts trace].
  destruct (serial a); cbn [current_order attempts trace];
    now rewrite <- ?app_assoc.
Qed.

(** The dispense branch of [main_cli] as a controller computation. *)
Lemma cli_dispense_run (serial : nat -> serial_outcome)
    (order : gmap string Z) (a : nat) (t : list event) :
  is_table order ->
  ('(final_command, _) ←
     Controller.generate_fpga_command_kw "dispense_now" true;
   Controller.send_to_fpga serial final_command;;
   Controller.clear_order;;
   print MsgDispensed;;
   Controller.display_current_order) (World order a t)
  = match serial a with
    | SerOtherError =>
        (Raise OtherException,
         World order (S a) (t ++ [Print Terminal MsgSending]))
    | _ =>
        (Ok tt,
         World ((fun _ => 0) <$> order) (S a)
           (t ++ controller_send_events (serial a)
                   (command_word true (App.encode_items order))
              ++ Print Terminal MsgDispensed
              :: display_events Terminal ((fun _ => 0) <$> order)))
    end.
Proof.
  intros Ht. unfold Controller.generate_fpga_command_kw.
  cbv beta iota zeta delta [mbind M_bind bind call_kw].
  cbn [String.eqb Ascii.eqb Bool.eqb].
  rewrite (controller_generate_fpga_command_run true order a t
             (is_table_offsets _ Ht)).
  rewrite controller_send_to_fpga_run.
  destruct (serial a) eqn:Hport; try reflexivity;
    rewrite controller_clear_order_run; run;
    cbn [current_order attempts trace];
    (rewrite controller_display_run
       by (rewrite dom_fmap; now apply is_table_offsets));
    now rewrite <- !app_assoc.
Qed.

Ltac cli_step Htok :=
  cbn [cli_loop];
  change (Py.split (Py.strip (Py.lower ?raw))) with (cli_tokens raw);
  rewrite Htok.

Lemma cli_loop_blank (serial : nat -> serial_outcome) (raw : string)
    (inputs : list string) (s : session) :
  cli_tokens raw = [] ->
  cli_loop serial (raw :: inputs) s =
  cli_loop serial inputs (shown s (cart s) (uses s) [Console MsgEnterCommand]).
Proof. intros Htok. now cli_step Htok. Qed.

Lemma cli_loop_exit (serial : nat -> serial_outcome) (raw : string)
    (rest inputs : list string) (s : session) :
  cli_tokens raw = "exit" :: rest ->
  cli_loop serial (raw :: inputs) s =
  (Ok Exited, shown s (cart s) (uses s) [Console MsgEnterCommand]).
Proof. intros Htok. now cli_step Htok. Qed.

Lemma cli_loop_dispense (serial : nat -> serial_outcome) (raw : string)
    (rest inputs : list string) (s : session) :
  is_table (cart s) ->
  cli_tokens raw = "dispense" :: rest ->
  cli_loop serial (raw :: inputs) s =
  match serial (uses s) with
  | SerOtherError =>
      (Raise OtherException,
       shown s (cart s) (S (uses s))
         [Console MsgEnterCommand; Core (Print Terminal MsgSending)])
  | _ =>
      cli_loop serial inputs
        (shown s ((fun _ => 0) <$> cart s) (S (uses s))
           (Console MsgEnterCommand
            :: (Core <$>
                  (controller_send_events (serial (uses s))
                     (command_word true (App.encode_items (cart s)))
                   ++ Print Terminal MsgDispensed
                   :: display_events Terminal ((fun _ => 0) <$> cart s))%list)))
  end.
Proof.
  intros Ht Htok. cli_step Htok. cbn [String.eqb Ascii.eqb Bool.eqb].
  crun. unfold lift. cbn [cart uses calls messages log].
  rewrite (cli_dispense_run serial _ _ [] Ht).
  unfold shown.
  destruct (serial (uses s));
    cbn [current_order attempts trace app fmap list_fmap];
    rewrite <- ?app_assoc; reflexivity.
Qed.

Lemma cli_loop_update (serial : nat -> serial_outcome)
    (raw command item qtok : string) (qty : Z) (inputs : list string)
    (s : session) :
  is_table (cart s) ->
  cli_tokens raw = [command; item; qtok] ->
  command = "add" \/ command = "remove" ->
  Py.int qtok = Some qty ->
  let item' := Py.lower item in
  let delta := signed command qty in
  cli_loop serial (raw :: inputs) s =
  cli_loop serial inputs
    match cart s !! item' with
    | Some old_qty =>
        let order' := <[item' := clamp (old_qty + delta)]> (cart s) in
        shown s order' (uses s)
          (Console MsgEnterCommand
           :: (Core <$> update_events Terminal item' delta order'))
    | None =>
        shown s (cart s) (uses s)
          [Console MsgEnterCommand;
           Core (Print Terminal (MsgInvalidItem item'))]
    end.
Proof.
  intros Ht Htok Hcmd Hint item' delta. cli_step Htok.
  assert (String.eqb command "exit" = false) as ->
    by (destruct Hcmd as [->| ->]; reflexivity).
  assert (String.eqb command "dispense" = false) as ->
    by (destruct Hcmd as [->| ->]; reflexivity).
  assert (String.eqb command "add" || String.eqb command "remove" = true)
    as -> by (destruct Hcmd as [->| ->]; reflexivity).
  cbn [length Nat.eqb andb].
  crun. unfold lift, index. simpl (_ !! _). run. rewrite Hint.
  cbn [cart uses calls messages log].
  fold item'. fold (signed command qty). fold delta.
  destruct (cart s !! item') as [old_qty|] eqn:Hq.
  - rewrite (controller_update_order_known _ _ _ _ _ _
               (is_table_offsets _ Ht) Hq).
    unfold shown. cbn [current_order attempts trace app].
    now rewrite <- app_assoc.
  - rewrite (controller_update_order_unknown _ _ _ _ _ Hq).
    unfold shown. cbn [current_order attempts trace app fmap list_fmap].
    now rewrite <- app_assoc.
Qed.

Lemma cli_loop_invalid_quantity (serial : nat -> serial_outcome)
    (raw command item qtok : string) (inputs : list string) (s : session) :
  cli_tokens raw = [command; item; qtok] ->
  command = "add" \/ command = "remove" ->
  Py.int qtok = None ->
  cli_loop serial (raw :: inputs) s =
  cli_loop serial inputs
    (shown s (cart s) (uses s)
       [Console MsgEnterCommand; Console MsgInvalidQuantity]).
Proof.
  intros Htok Hcmd Hint. cli_step Htok.
  assert (String.eqb command "exit" = false) as ->
    by (destruct Hcmd as [->| ->]; reflexivity).
  assert (String.eqb command "dispense" = false) as ->
    by (destruct Hcmd as [->| ->]; reflexivity).
  assert (String.eqb command "add" || String.eqb command "remove" = true)
    as -> by (destruct Hcmd as [->| ->]; reflexivity).
  cbn [length Nat.eqb andb].
  crun. unfold lift, index. simpl (_ !! _). run. rewrite Hint.
  unfold shown. cbn [cart uses calls messages log current_order attempts
                     trace app fmap list_fmap].
  now rewrite app_nil_r, <- app_assoc.
Qed.

Lemma cli_loop_invalid_command (serial : nat -> serial_outcome)
    (raw command : string) (rest inputs : list string) (s : session) :
  cli_tokens raw = command :: rest ->
  command <> "exit" -> command <> "dispense" ->
  ~ ((command = "add" \/ command = "remove") /\ length rest = 2%nat) ->
  cli_loop serial (raw :: inputs) s =
  cli_loop serial inputs
    (shown s (cart s) (uses s)
       [Console MsgEnterCommand; Console MsgInvalidCommand]).
Proof.
  intros Htok He Hd Hu. cli_step Htok.
  apply String.eqb_neq in He, Hd. rewrite He, Hd.
  rewrite <- update_test in Hu. apply not_true_is_false in Hu. rewrite Hu.
  crun. unfold shown. cbn [cart uses calls messages log].
  now rewrite <- app_assoc.
Qed.

(** The tokens of a typed line fall under exactly one of the tests of
    [main_cli]. *)
Lemma cli_tokens_cases (parts : list string) :
  parts = [] \/
  (exists rest, parts = "exit" :: rest) \/
  (exists rest, parts = "dispense" :: rest) \/
  (exists command item qtok,
     parts = [command; item; qtok] /\ (command = "add" \/ command = "remove")) \/
  (exists command rest,
     parts = command :: rest /\ command <> "exit" /\ command <> "dispense" /\
     ~ ((command = "add" \/ command = "remove") /\ length rest = 2%nat)).
Proof.
  destruct parts as [|command rest]; [now left|right].
  destruct (String.eqb_spec command "exit") as [->|He]; [left; eauto|].
  right.
  destruct (tokens_cases (command :: rest))
    as [Hb|[[rest' Hd]|[(c & item & qtok & Hu & Hcmd)
                       |(c & rest' & Hk & Hnd & Hnu)]]].
  - discriminate Hb.
  - left. eauto.
  - right. left. eauto 6.
  - right. right. injection Hk as <- <-. eauto 8.
Qed.

(** The loop of [main_cli] on a cart with the five keys, in range, with a
    serial port that raises nothing but [SerialException]: it returns, and
    the cart keeps its keys and its range. *)
Lemma cli_loop_safe (serial : nat -> serial_outcome) (inputs : list string)
    (s : session) :
  (forall k, serial k <> SerOtherError) ->
  is_table (cart s) -> in_range (cart s) ->
  exists (r : loop_end) (s' : session),
    cli_loop serial inputs s = (Ok r, s') /\
    is_table (cart s') /\ in_range (cart s').
Proof.
  intros Hport. revert s.
  induction inputs as [|raw inputs IH]; intros s Ht Hr.
  - eexists _, _. split; [reflexivity|]. auto.
  - destruct (cli_tokens_cases (cli_tokens raw))
      as [Hb|[[rest He]|[[rest Hd]|[(command & item & qtok & Hu & Hcmd)
                         |(command & rest & Hk & Hne & Hnd & Hnu)]]]].
    + rewrite (cli_loop_blank serial raw inputs s Hb). now apply IH.
    + rewrite (cli_loop_exit serial raw rest inputs s He).
      eexists _, _. split; [reflexivity|]. auto.
    + rewrite (cli_loop_dispense serial raw rest inputs s Ht Hd).
      pose proof (Hport (uses s)) as Hp.
      assert (is_table ((fun _ => 0) <$> cart s)) as Ht0
        by (unfold is_table; now rewrite dom_fmap_L).
      destruct (serial (uses s)); try contradiction;
        (apply IH; [exact Ht0|apply in_range_zero]).
    + destruct (Py.int qtok) as [qty|] eqn:Hint.
      * rewrite (cli_loop_update serial raw command item qtok qty inputs s
                   Ht Hu Hcmd Hint).
        destruct (cart s !! Py.lower item) as [old_qty|] eqn:Hq.
        -- apply IH; cbn [shown cart].
           ++ now apply (is_table_insert (cart s) _ old_qty).
           ++ now apply in_range_insert.
        -- now apply IH.
      * rewrite (cli_loop_invalid_quantity serial raw command item qtok
                   inputs s Hu Hcmd Hint).
        now apply IH.
    + rewrite (cli_loop_invalid_command serial raw command rest inputs s
                 Hk Hne Hnd Hnu).
      now apply IH.
Qed.

(** X11.  The manual mode on a cart with the five keys and all quantities
    in [0, 7]: whatever lines are typed, if the serial port raises nothing
    but [SerialException], [main_cli] raises nothing; it ends because
    [exit] was typed or waits for the next line, and the cart still has
    the five keys and all quantities in [0, 7]. *)
Theorem main_cli_safe (serial : nat -> serial_outcome)
    (inputs : list string) (s : session) :
  (forall k, serial k <> SerOtherError) ->
  is_table (cart s) -> in_range (cart s) ->
  exists (r : loop_end) (s' : session),
    main_cli serial inputs s = (Ok r, s') /\
    is_table (cart s') /\ in_range (cart s').
Proof.
  intros Hport Ht Hr. unfold main_cli. crun.
  rewrite (lift_run _ _ _ _ _ _
             (controller_display_run (cart s) (uses s) []
                (is_table_offsets _ Ht))).
  destruct (cli_loop_safe serial inputs
              (shown s (cart s) (uses s)
                 (Core <$> display_events Terminal (cart s))) Hport Ht Hr)
    as (r & s' & Hrun & Ht' & Hr').
  rewrite Hrun.
  destruct r; eexists _, _; (split; [reflexivity|]); auto.
Qed.

Lemma main_cli_safe_witness :
  exists (r : loop_end) (s' : session),
    main_cli (fun _ => SerOpenError)
      ["add soda 9"; "Dispense"; "remove fries x"; "exit"]
      (Session initial_order 0 0 [] [])
    = (Ok r, s') /\
    is_table (cart s') /\ in_range (cart s').
Proof.
  apply (main_cli_safe (fun _ => SerOpenError)
           ["add soda 9"; "Dispense"; "remove fries x"; "exit"]
           (Session initial_order 0 0 [] [])).
  - discriminate.
  - apply mk_order_is_table.
  - apply mk_order_in_range; lia.
Defined.

Lemma strip_lower (s : string) : Py.strip (Py.lower s) = Py.lower (Py.strip s).
Proof. apply strip_by_lower, isspace_lower_char. Qed.

(** Every token of a typed line is in lower case. *)
Lemma cli_tokens_lower (raw tok : string) :
  tok ∈ cli_tokens raw -> Py.lower tok = tok.
Proof.
  intros Hin. unfold cli_tokens, Py.split in Hin. rewrite strip_lower in Hin.
  assert (Forall (fun tok => Py.lower tok = tok)
            (Py.split_ws_aux None (Py.lower (Py.strip raw)))) as Hall
    by (apply split_ws_aux_lower; [apply lower_idem|discriminate]).
  rewrite Forall_forall in Hall. now apply Hall.
Qed.

(** X12.  In the manual mode a line whose first token is [dispense] does
    dispense, unless the serial port raises an exception that is no
    [SerialException]: the word that the encoder returns for the cart with
    the dispense flag is handed to the port (if it opens), high byte first,
    every quantity of the cart is set to 0, and the loop goes on with the
    next line. *)
Theorem main_cli_dispenses (serial : nat -> serial_outcome) (raw : string)
    (rest inputs : list string) (s : session) :
  is_table (cart s) ->
  cli_tokens raw = "dispense" :: rest ->
  serial (uses s) <> SerOtherError ->
  exists (word : Z) (binary : string) (order' : gmap string Z)
         (evs : list console_event),
    controller_encode (cart s) true = Ok (word, binary) /\
    cli_loop serial (raw :: inputs) s
    = cli_loop serial inputs (shown s order' (S (uses s)) evs) /\
    dom order' = dom (cart s) /\
    map_Forall (fun _ qty => qty = 0) order' /\
    (forall payload : list Z,
       Core (SerWrite payload) ∈ evs <->
       payload = [Z.land (Z.shiftr word 8) 0xFF; Z.land word 0xFF] /\
       (serial (uses s) = SerOk \/ serial (uses s) = SerWriteError)).
Proof.
  intros Ht Htok Hport.
  exists (command_word true (App.encode_items (cart s))),
    (Py.format_016b (command_word true (App.encode_items (cart s)))),
    ((fun _ => 0) <$> cart s),
    (Console MsgEnterCommand
     :: (Core <$>
           (controller_send_events (serial (uses s))
              (command_word true (App.encode_items (cart s)))
            ++ Print Terminal MsgDispensed
            :: display_events Terminal ((fun _ => 0) <$> cart s))%list)).
  split; [apply (controller_encode_run (cart s) true Ht)|].
  rewrite (cli_loop_dispense serial raw rest inputs s Ht Htok).
  split; [destruct (serial (uses s)); try contradiction; reflexivity|].
  split; [apply dom_fmap_L|].
  split; [apply map_Forall_fmap; now intros food qty _|].
  intros payload. unfold controller_send_events, display_events.
  destruct (serial (uses s)); simpl;
    rewrite ?elem_of_cons, ?elem_of_nil;
    split; intros H;
    repeat match type of H with
           | _ \/ _ => destruct H as [H|H]
           | _ /\ _ => destruct H as [? H]
           end;
    try discriminate H; try contradiction;
    try (injection H as ->); subst; auto 10.
Qed.

Lemma main_cli_dispenses_witness :
  exists (word : Z) (binary : string) (order' : gmap string Z)
         (evs : list console_event),
    controller_encode (cart (Session (mk_order 1 0 0 0 0) 0 0 [] [])) true
    = Ok (word, binary) /\
    cli_loop (fun _ => SerOk) ("DISPENSE" :: ["exit"])
      (Session (mk_order 1 0 0 0 0) 0 0 [] [])
    = cli_loop (fun _ => SerOk) ["exit"]
        (shown (Session (mk_order 1 0 0 0 0) 0 0 [] []) order'
           (S (uses (Session (mk_order 1 0 0 0 0) 0 0 [] []))) evs) /\
    dom order' = dom (cart (Session (mk_order 1 0 0 0 0) 0 0 [] [])) /\
    map_Forall (fun _ qty => qty = 0) order' /\
    (forall payload : list Z,
       Core (SerWrite payload) ∈ evs <->
       payload = [Z.land (Z.shiftr word 8) 0xFF; Z.land word 0xFF] /\
       ((fun _ : nat => SerOk)
          (uses (Session (mk_order 1 0 0 0 0) 0 0 [] [])) = SerOk
        \/ (fun _ : nat => SerOk)
             (uses (Session (mk_order 1 0 0 0 0) 0 0 [] [])) = SerWriteError)).
Proof.
  apply (main_cli_dispenses (fun _ => SerOk) "DISPENSE" [] ["exit"]
           (Session (mk_order 1 0 0 0 0) 0 0 [] [])).
  - apply mk_order_is_table.
  - reflexivity.
  - discriminate.
Defined.

(** X13.  The manual mode has no bound of its own on the quantity typed
    and keeps its sign: an [add] or [remove] line with any integer quantity
    that [int] accepts (a literal of at most 4300 digits; a longer one is
    answered by the complaint about the quantity), for an item of the cart,
    stores the old quantity plus the signed quantity, brought back into
    [0, 7]; the value of the quantity never makes the line refused. *)
Theorem main_cli_applies_any_quantity (serial : nat -> serial_outcome)
    (raw command item qtok : string) (qty old_qty : Z)
    (inputs : list string) (s : session) :
  is_table (cart s) ->
  cli_tokens raw = [command; item; qtok] ->
  command = "add" \/ command = "remove" ->
  Py.int qtok = Some qty ->
  cart s !! item = Some old_qty ->
  exists (new_qty : Z) (evs : list event),
    cli_loop serial (raw :: inputs) s
    = cli_loop serial inputs
        (shown s (<[item := new_qty]> (cart s)) (uses s)
           (Console MsgEnterCommand :: (Core <$> evs))) /\
    new_qty
    = Z.max 0 (Z.min 7 (old_qty + (if String.eqb command "remove"
                                   then - qty else qty))) /\
    Forall is_print evs.
Proof.
  intros Ht Htok Hcmd Hint Hq.
  assert (Py.lower item = item) as Hlow.
  { apply (cli_tokens_lower raw). rewrite Htok. repeat constructor. }
  eexists _, _.
  rewrite (cli_loop_update serial raw command item qtok qty inputs s
             Ht Htok Hcmd Hint).
  rewrite Hlow, Hq. split; [reflexivity|].
  split; [apply clamp_min_max|apply is_print_update_events].
Qed.

Lemma main_cli_applies_any_quantity_witness :
  exists (new_qty : Z) (evs : list event),
    cli_loop (fun _ => SerOk) ("add Pizza 100" :: [])
      (Session (mk_order 1 2 3 4 5) 0 0 [] [])
    = cli_loop (fun _ => SerOk) []
        (shown (Session (mk_order 1 2 3 4 5) 0 0 [] [])
           (<["pizza" := new_qty]>
              (cart (Session (mk_order 1 2 3 4 5) 0 0 [] [])))
           (uses (Session (mk_order 1 2 3 4 5) 0 0 [] []))
           (Console MsgEnterCommand :: (Core <$> evs))) /\
    new_qty
    = Z.max 0 (Z.min 7 (5 + (if String.eqb "add" "remove"
                             then - 100 else 100))) /\
    Forall is_print evs.
Proof.
  apply (main_cli_applies_any_quantity (fun _ => SerOk) "add Pizza 100"
           "add" "pizza" "100" 100 5 []
           (Session (mk_order 1 2 3 4 5) 0 0 [] [])).
  - apply mk_order_is_table.
  - reflexivity.
  - now left.
  - reflexivity.
  - reflexivity.
Defined.

(** Once [exit] is typed, the loop of [main_cli] reads no further line. *)
Lemma cli_loop_exit_ends (serial : nat -> serial_outcome)
    (pre : list string) (raw : string) (rest post : list string) :
  cli_tokens raw = "exit" :: rest ->
  forall s : session,
    cli_loop serial (pre ++ raw :: post) s = cli_loop serial (pre ++ [raw]) s.
Proof.
  intros Htok. induction pre as [|line pre IH]; intros s.
  - simpl app.
    now rewrite (cli_loop_exit serial raw rest post s Htok),
      (cli_loop_exit serial raw rest [] s Htok).
  - simpl app. cbn [cli_loop]. crun.
    destruct (Py.split (Py.strip (Py.lower line))) as [|command parts];
      [apply IH|].
    destruct (String.eqb command "exit"); [reflexivity|].
    destruct (String.eqb command "dispense").
    { match goal with |- context [lift ?m ?s1] =>
        destruct (lift m s1) as [[[]|e] s2] end; [apply IH|reflexivity]. }
    destruct ((String.eqb command "add" || String.eqb command "remove")
              && (length (command :: parts) =? 3)%nat); [|apply IH].
    match goal with |- context [lift ?m ?s1] =>
      destruct (lift m s1) as [[[]|e] s2] end; [apply IH|].
    destruct e; try reflexivity. apply IH.
Qed.

(** X14.  In the manual mode nothing typed after [exit] has any effect:
    a session with further lines after a line whose first token is [exit]
    is, in outcome and in state, the session without them. *)
Theorem main_cli_exit_ends (serial : nat -> serial_outcome)
    (pre : list string) (raw : string) (rest post : list string)
    (s : session) :
  cli_tokens raw = "exit" :: rest ->
  main_cli serial (pre ++ raw :: post) s = main_cli serial (pre ++ [raw]) s.
Proof.
  intros Htok. unfold main_cli. crun.
  destruct (lift Controller.display_current_order s) as [[[]|e] s1];
    [|reflexivity].
  now rewrite (cli_loop_exit_ends serial pre raw rest post Htok).
Qed.

Lemma main_cli_exit_ends_witness :
  main_cli (fun _ => SerOk) (["add soda 1"] ++ " Exit now" :: ["dispense"])
    (Session initial_order 0 0 [] [])
  = main_cli (fun _ => SerOk) (["add soda 1"] ++ [" Exit now"])
      (Session initial_order 0 0 [] []).
Proof.
  apply (main_cli_exit_ends (fun _ => SerOk) ["add soda 1"] " Exit now"
           ["now"] ["dispense"] (Session initial_order 0 0 [] [])).
  reflexivity.
Defined.

(** ** The mode with the language model *)

Lemma quiet_prints (evs : list event) :
  Forall is_print evs -> Forall quiet (Core <$> evs).
Proof.
  intros Hp. apply Forall_fmap. eapply Forall_impl; [exact Hp|].
  now intros [ch m|payload].
Qed.

Lemma pop_message_last (s : session) (history : list (string * string))
    (m : string * string) :
  messages s = (history ++ [m])%list ->
  pop_message s
  = (Ok tt, Session (cart s) (uses s) (calls s) history (log s)).
Proof.
  intros Hm. unfold pop_message. rewrite Hm.
  destruct (history ++ [m])%list as [|m0 l] eqn:Heq.
  - now destruct history.
  - now rewrite <- Heq, removelast_last.
Qed.

(** One request of [main_ai_mode], on a cart with the five keys: the loop
    goes on, whatever the model and the processing of its reply did. *)
Lemma ai_loop_step (serial : nat -> serial_outcome)
    (llm : nat -> list (string * string) -> outcome string) (raw : string)
    (inputs : list string) (s : session) :
  is_table (cart s) ->
  Py.lower (Py.strip raw) <> "exit" ->
  exists (order' : gmap string Z) (evs : list console_event),
    ai_loop serial llm (raw :: inputs) s
    = ai_loop serial llm inputs
        (Session order' (uses s) (S (calls s))
           (history_after (messages s) (Py.strip raw)
              (llm (calls s) (messages s ++ [("user", Py.strip raw)])%list))
           (log s ++ evs)%list) /\
    is_table order' /\ (in_range (cart s) -> in_range order') /\
    Forall quiet evs.
Proof.
  intros Ht Hne. cbn [ai_loop].
  apply String.eqb_neq in Hne. rewrite Hne. crun.
  cbn [cart uses calls messages log].
  destruct (llm (calls s) (messages s ++ [("user", Py.strip raw)])%list)
    as [llm_output|e] eqn:Hllm.
  - unfold lift. cbn [cart uses calls messages log].
    rewrite (controller_process_llm_response_run serial llm_output
               (lines_of llm_output)) by reflexivity.
    destruct (controller_lines_shape serial (lines_of llm_output) (cart s)
                (uses s)
                ([] ++ [Print Terminal (MsgLlmResponse llm_output)])%list Ht)
      as (order' & evs & Hrun & Ht' & Hr' & Hp).
    rewrite Hrun. unfold history_after.
    destruct (decide (Exists dispense_line (lines_of llm_output))).
    + erewrite pop_message_last; cycle 1.
      { cbn [messages]. reflexivity. }
      cbn [cart uses calls messages log current_order attempts trace].
      eexists order', _. rewrite <- app_assoc.
      split; [reflexivity|]. split; [assumption|]. split; [assumption|].
      apply Forall_app. split; [|repeat constructor].
      apply quiet_prints. constructor; [exact I|assumption].
    + cbn [cart uses calls messages log current_order attempts trace].
      eexists order', _. rewrite <- (app_assoc (messages s)).
      split; [reflexivity|]. split; [assumption|]. split; [assumption|].
      apply quiet_prints. constructor; [exact I|assumption].
  - erewrite pop_message_last; cycle 1.
    { cbn [messages]. reflexivity. }
    cbn [cart uses calls messages log].
    eexists (cart s), _. split; [reflexivity|].
    split; [assumption|]. split; [auto|]. repeat constructor.
Qed.

Ltac pack :=
  split; [reflexivity|split; [lia|split; [assumption|split; [assumption|]]]].

(** The loop of [main_ai_mode] never raises, keeps the cart a cart in
    range, and leaves the serial port alone. *)
Lemma ai_loop_safe (serial : nat -> serial_outcome)
    (llm : nat -> list (string * string) -> outcome string)
    (inputs : list string) (s : session) :
  is_table (cart s) -> in_range (cart s) ->
  exists (r : loop_end) (order' : gmap string Z)
         (history : list (string * string)) (evs : list console_event)
         (n : nat),
    ai_loop serial llm inputs s
    = (Ok r, Session order' (uses s) (calls s + n) history (log s ++ evs)%list)
    /\ (n <= length inputs)%nat /\ is_table order' /\ in_range order' /\
    Forall quiet evs.
Proof.
  revert s. induction inputs as [|raw inputs IH]; intros s Ht Hr.
  - exists AwaitingInput, (cart s), (messages s), [], 0%nat.
    rewrite app_nil_r, Nat.add_0_r. destruct s. cbn [ai_loop length].
    pack. constructor.
  - destruct (String.eqb_spec (Py.lower (Py.strip raw)) "exit") as [He|Hne].
    + exists Exited, (cart s), (messages s), [], 0%nat.
      cbn [ai_loop]. rewrite He. cbn [String.eqb Ascii.eqb Bool.eqb].
      rewrite app_nil_r, Nat.add_0_r. destruct s. cbn [length].
      pack. constructor.
    + destruct (ai_loop_step serial llm raw inputs s Ht Hne)
        as (order1 & evs1 & Hstep & Ht1 & Hr1 & Hq1).
      destruct (IH (Session order1 (uses s) (S (calls s))
                      (history_after (messages s) (Py.strip raw)
                         (llm (calls s)
                            (messages s ++ [("user", Py.strip raw)])%list))
                      (log s ++ evs1)%list) Ht1 (Hr1 Hr))
        as (r & order2 & history & evs2 & n & Hrest & Hn & Ht2 & Hr2 & Hq2).
      exists r, order2, history, (evs1 ++ evs2)%list, (S n).
      rewrite Hstep, Hrest. cbn [uses calls log length].
      rewrite <- app_assoc, Nat.add_succ_r.
      pack. now apply Forall_app.
Qed.

(** X15.  The mode with the language model, started on a cart with the
    five keys and all quantities in [0, 7]: whatever the user types, the
    model replies or raises, and the serial port would do, [main_ai_mode]
    raises nothing, makes at most one request to the model for each line
    typed, keeps the cart a cart in range, and never uses the serial port:
    no order placed in this mode is ever sent to the machine.  It returns
    at once when the model could not be loaded. *)
Theorem main_ai_mode_safe (serial : nat -> serial_outcome)
    (llm : nat -> list (string * string) -> outcome string) (loaded : bool)
    (inputs : list string) (s : session) :
  is_table (cart s) -> in_range (cart s) ->
  exists (r : option loop_end) (order' : gmap string Z)
         (history : list (string * string)) (evs : list console_event)
         (n : nat),
    main_ai_mode serial llm loaded inputs s
    = (Ok r, Session order' (uses s) (calls s + n) history (log s ++ evs)%list)
    /\ (n <= length inputs)%nat /\ is_table order' /\ in_range order' /\
    Forall quiet evs /\ (r = None <-> loaded = false).
Proof.
  intros Ht Hr. unfold main_ai_mode. destruct loaded; crun.
  - rewrite (lift_run Controller.display_current_order _ (Ok tt) (cart s)
               (uses s) (display_events Terminal (cart s)));
      [|apply (controller_display_run (cart s) (uses s) []),
          is_table_offsets, Ht].
    destruct (ai_loop_safe serial llm inputs
                (shown
                   (Session (cart s) (uses s) (calls s)
                      [("system", system_prompt)]
                      (log s ++ [Console MsgLoading] ++ [Console MsgLoaded]))
                   (cart s) (uses s)
                   (Core <$> display_events Terminal (cart s))) Ht Hr)
      as (r & order' & history & evs & n & Hrun & Hn & Ht' & Hr' & Hq).
    cbn [cart uses calls messages log shown] in *.
    rewrite <- !app_assoc in Hrun. rewrite <- !app_assoc. rewrite Hrun.
    destruct r.
    + eexists (Some Exited), order', history, _, n.
      cbn [cart uses calls messages log]. rewrite <- !app_assoc.
      pack. split; [|split; discriminate].
      repeat (apply Forall_cons; split; [exact I|]).
      apply Forall_app. split; [assumption|repeat constructor].
    + eexists (Some AwaitingInput), order', history, _, n.
      pack. split; [|split; discriminate].
      repeat (apply Forall_cons; split; [exact I|]). assumption.
  - exists None, (cart s), (messages s),
      [Console MsgLoading; Console MsgLoadError], 0%nat.
    cbn [cart uses calls messages log]. rewrite <- app_assoc, Nat.add_0_r.
    pack. split; [repeat constructor|tauto].
Qed.

Lemma main_ai_mode_safe_witness :
  exists (r : option loop_end) (order' : gmap string Z)
         (history : list (string * string)) (evs : list console_event)
         (n : nat),
    main_ai_mode (fun _ => SerOk)
      (fun k _ => match k with
                  | O => Ok "add burger 2"
                  | S O => Raise OtherException
                  | _ => Ok "dispense"
                  end)
      true ["two burgers"; "and now"; "go"; "exit"]
      (Session initial_order 0 0 [] [])
    = (Ok r,
       Session order' (uses (Session initial_order 0 0 [] []))
         (calls (Session initial_order 0 0 [] []) + n) history
         (log (Session initial_order 0 0 [] []) ++ evs)%list)
    /\ (n <= length ["two burgers"; "and now"; "go"; "exit"])%nat
    /\ is_table order' /\ in_range order' /\
    Forall quiet evs /\ (r = None <-> true = false).
Proof.
  apply (main_ai_mode_safe (fun _ => SerOk)
           (fun k _ => match k with
                       | O => Ok "add burger 2"
                       | S O => Raise OtherException
                       | _ => Ok "dispense"
                       end)
           true ["two burgers"; "and now"; "go"; "exit"]
           (Session initial_order 0 0 [] [])).
  - apply mk_order_is_table.
  - apply mk_order_in_range; lia.
Defined.

(** X16.  The chat history after one request of [main_ai_mode] (a line
    that is not [exit]), on a cart with the five keys.  When the request to
    the model raises, the line of the user is taken out of the history
    again.  When the model replies and no line of the reply dispenses, the
    history gains the line of the user and the reply.  When a line of the
    reply dispenses, processing the reply raises [TypeError], which is
    caught, and it is the reply that is taken out: the history gains the
    line of the user, without a reply.  In each case the loop goes on with
    the next line, one request later. *)
Theorem main_ai_mode_history (serial : nat -> serial_outcome)
    (llm : nat -> list (string * string) -> outcome string) (raw : string)
    (inputs : list string) (s : session) :
  is_table (cart s) ->
  Py.lower (Py.strip raw) <> "exit" ->
  exists s' : session,
    ai_loop serial llm (raw :: inputs) s = ai_loop serial llm inputs s' /\
    calls s' = S (calls s) /\
    (forall e,
       llm (calls s) (messages s ++ [("user", Py.strip raw)])%list = Raise e ->
       messages s' = messages s) /\
    (forall llm_output,
       llm (calls s) (messages s ++ [("user", Py.strip raw)])%list
       = Ok llm_output ->
       ~ Exists dispense_line (lines_of llm_output) ->
       messages s'
       = (messages s ++ [("user", Py.strip raw); ("assistant", llm_output)])%list)
    /\
    (forall llm_output,
       llm (calls s) (messages s ++ [("user", Py.strip raw)])%list
       = Ok llm_output ->
       Exists dispense_line (lines_of llm_output) ->
       messages s' = (messages s ++ [("user", Py.strip raw)])%list).
Proof.
  intros Ht Hne.
  destruct (ai_loop_step serial llm raw inputs s Ht Hne)
    as (order' & evs & Hstep & _).
  eexists. split; [exact Hstep|]. cbn [calls messages].
  split; [reflexivity|]. unfold history_after. split; [|split].
  - intros e ->. reflexivity.
  - intros llm_output -> Hno. now rewrite decide_False.
  - intros llm_output -> Hyes. now rewrite decide_True.
Qed.

Lemma main_ai_mode_history_witness :
  exists s' : session,
    ai_loop (fun _ => SerOk) (fun _ _ => Ok "dispense") ("go" :: [])
      (Session initial_order 0 0 [("system", system_prompt)] [])
    = ai_loop (fun _ => SerOk) (fun _ _ => Ok "dispense") [] s' /\
    calls s' = 1%nat /\
    (forall e,
       (fun (_ : nat) (_ : list (string * string)) => Ok "dispense") 0%nat
         ([("system", system_prompt)] ++ [("user", Py.strip "go")])%list
       = Raise e ->
       messages s' = [("system", system_prompt)]) /\
    (forall llm_output,
       (fun (_ : nat) (_ : list (string * string)) => Ok "dispense") 0%nat
         ([("system", system_prompt)] ++ [("user", Py.strip "go")])%list
       = Ok llm_output ->
       ~ Exists dispense_line (lines_of llm_output) ->
       messages s'
       = ([("system", system_prompt)]
          ++ [("user", Py.strip "go"); ("assistant", llm_output)])%list) /\
    (forall llm_output,
       (fun (_ : nat) (_ : list (string * string)) => Ok "dispense") 0%nat
         ([("system", system_prompt)] ++ [("user", Py.strip "go")])%list
       = Ok llm_output ->
       Exists dispense_line (lines_of llm_output) ->
       messages s'
       = ([("system", system_prompt)] ++ [("user", Py.strip "go")])%list).
Proof.
  apply (main_ai_mode_history (fun _ => SerOk) (fun _ _ => Ok "dispense")
           "go" [] (Session initial_order 0 0 [("system", system_prompt)] [])).
  - apply mk_order_is_table.
  - discriminate.
Defined.

(** ** Where the two files agree *)

(** X17.  On a cart with the five keys, the controller and [app.py] leave
    the same cart after any line that does not dispense, provided the line
    is not an [add] or [remove] with a quantity above 7 and does not name
    the item [icecream]: both return, and apart from those two cases and
    from [dispense] the two files differ only in where they print. *)
Theorem files_agree (serial : nat -> serial_outcome) (line : string)
    (order : gmap string Z) (a : nat) (t : list event) :
  is_table order ->
  ~ dispense_line line ->
  (forall command item qtok qty,
     tokens line = [command; item; qtok] ->
     command = "add" \/ command = "remove" ->
     Py.int qtok = Some qty ->
     qty <= MAX_QTY /\ item <> "icecream") ->
  (Controller.process_line serial line (World order a t)).1 = Ok tt /\
  (App.process_line serial line (World order a t)).1 = Ok tt /\
  current_order (Controller.process_line serial line (World order a t)).2
  = current_order (App.process_line serial line (World order a t)).2 /\
  attempts (Controller.process_line serial line (World order a t)).2 = a /\
  attempts (App.process_line serial line (World order a t)).2 = a.
Proof.
  intros Ht Hnd Hupd. unfold dispense_line in Hnd.
  destruct (tokens_cases (tokens line))
    as [Hb|[[rest Hd]|[(command & item & qtok & Hu & Hcmd)
                      |(command & rest & Hk & Hne & Hnu)]]].
  - rewrite (controller_process_line_blank serial line _ Hb).
    rewrite (app_process_line_blank serial line _ Hb). auto.
  - rewrite Hd in Hnd. now contradiction Hnd.
  - destruct (Py.int qtok) as [qty|] eqn:Hint.
    + destruct (Hupd command item qtok qty Hu Hcmd Hint) as [Hle Hna].
      assert (Py.lower item = item) as Hlow.
      { apply (tokens_lower line). rewrite Hu. repeat constructor. }
      rewrite (controller_process_line_update serial line command item qtok
                 qty order a t Ht Hu Hcmd Hint).
      rewrite (app_process_line_update serial line command item qtok qty
                 order a t Hu Hcmd Hint).
      rewrite Hlow. unfold canonical, app_requested.
      apply String.eqb_neq in Hna. rewrite Hna.
      assert ((qty >? MAX_QTY) = false) as ->.
      { destruct (Z.gtb_spec qty MAX_QTY); [lia|reflexivity]. }
      destruct (order !! item); cbn [fst snd current_order attempts]; auto.
    + rewrite (controller_process_line_malformed serial line command item
                 qtok order a t Hu Hcmd Hint).
      rewrite (app_process_line_malformed serial line command item qtok
                 order a t Hu Hcmd Hint). auto.
  - rewrite (controller_process_line_unknown serial line command rest order
               a t Hk Hne Hnu).
    rewrite (app_process_line_unknown serial line command rest order a t
               Hk Hne Hnu). auto.
Qed.

Lemma files_agree_witness :
  (Controller.process_line (fun _ => SerOk) "remove fries 2"
     (World (mk_order 1 2 3 4 5) 0 [])).1 = Ok tt /\
  (App.process_line (fun _ => SerOk) "remove fries 2"
     (World (mk_order 1 2 3 4 5) 0 [])).1 = Ok tt /\
  current_order
    (Controller.process_line (fun _ => SerOk) "remove fries 2"
       (World (mk_order 1 2 3 4 5) 0 [])).2
  = current_order
      (App.process_line (fun _ => SerOk) "remove fries 2"
         (World (mk_order 1 2 3 4 5) 0 [])).2 /\
  attempts
    (Controller.process_line (fun _ => SerOk) "remove fries 2"
       (World (mk_order 1 2 3 4 5) 0 [])).2 = 0%nat /\
  attempts
    (App.process_line (fun _ => SerOk) "remove fries 2"
       (World (mk_order 1 2 3 4 5) 0 [])).2 = 0%nat.
Proof.
  apply (files_agree (fun _ => SerOk) "remove fries 2" (mk_order 1 2 3 4 5)
           0 []).
  - apply mk_order_is_table.
  - discriminate.
  - intros command item qtok qty [= <- <- <-] _ [= <-].
    split; [vm_compute; discriminate|vm_compute; discriminate].
Defined.

(** ** The characters of the binary rendering *)

Lemma get_zeros (n i : nat) :
  (i < n)%nat -> String.get i (Py.zeros n) = Some "0"%char.
Proof.
  revert i. induction n as [|n IH]; intros i Hi; [lia|].
  destruct i as [|i]; [reflexivity|]. simpl. apply IH. lia.
Qed.

Lemma bin_pos_upper (p : positive) :
  Z.pos p < 2 ^ Z.of_nat (String.length (Py.bin_pos p)).
Proof.
  induction p as [p IH|p IH|]; simpl Py.bin_pos;
    rewrite ?length_append; simpl String.length; [| |reflexivity];
    rewrite Nat.add_1_r, Nat2Z.inj_succ, Z.pow_succ_r by lia; lia.
Qed.

(** The digit of weight 2^k in the digits of a positive number. *)
Lemma bin_pos_get (p : positive) (k : nat) :
  (k < String.length (Py.bin_pos p))%nat ->
  String.get (String.length (Py.bin_pos p) - 1 - k) (Py.bin_pos p)
  = Some (if Z.testbit (Z.pos p) (Z.of_nat k) then "1"%char else "0"%char).
Proof.
  revert k. induction p as [p IH|p IH|]; intros k Hk; simpl Py.bin_pos in *.
  - rewrite length_append in *. simpl String.length in *.
    destruct k as [|k].
    + replace (String.length (Py.bin_pos p) + 1 - 1 - 0)%nat
        with (0 + String.length (Py.bin_pos p))%nat by lia.
      rewrite <- append_correct2. reflexivity.
    + replace (String.length (Py.bin_pos p) + 1 - 1 - S k)%nat
        with (String.length (Py.bin_pos p) - 1 - k)%nat by lia.
      rewrite <- append_correct1 by lia. rewrite IH by lia.
      rewrite Nat2Z.inj_succ, Pos2Z.inj_xI, Z.testbit_odd_succ by lia.
      reflexivity.
  - rewrite length_append in *. simpl String.length in *.
    destruct k as [|k].
    + replace (String.length (Py.bin_pos p) + 1 - 1 - 0)%nat
        with (0 + String.length (Py.bin_pos p))%nat by lia.
      rewrite <- append_correct2. reflexivity.
    + replace (String.length (Py.bin_pos p) + 1 - 1 - S k)%nat
        with (String.length (Py.bin_pos p) - 1 - k)%nat by lia.
      rewrite <- append_correct1 by lia. rewrite IH by lia.
      rewrite Nat2Z.inj_succ, Pos2Z.inj_xO, Z.testbit_even_succ by lia.
      reflexivity.
  - simpl in Hk. assert (k = 0%nat) as -> by lia. reflexivity.
Qed.

(** The character at position [i] of the rendering of a 16-bit word shows
    bit 15 - i. *)
Lemma format_016b_get (n : Z) (i : nat) :
  0 <= n < 2 ^ 16 -> (i < 16)%nat ->
  String.get i (Py.format_016b n)
  = Some (if Z.testbit n (15 - Z.of_nat i) then "1"%char else "0"%char).
Proof.
  intros [Hlo Hhi] Hi. destruct n as [|p|p]; [| |lia].
  - rewrite Z.bits_0. now apply get_zeros.
  - unfold Py.format_016b.
    pose proof (bin_pos_length p) as [Hl1 Hl2].
    pose proof (bin_pos_upper p) as Hup.
    set (L := String.length (Py.bin_pos p)) in *.
    assert (L <= 16)%nat as HL.
    { assert (Z.of_nat L - 1 < 16) by (apply (Z.pow_lt_mono_r_iff 2); lia).
      lia. }
    destruct (Nat.lt_ge_cases i (16 - L)) as [Hpad|Hdig].
    + rewrite <- append_correct1 by (rewrite length_zeros; lia).
      rewrite get_zeros by lia.
      rewrite (Z.bits_above_log2 (Z.pos p)); [reflexivity|lia|].
      apply Z.log2_lt_pow2; [lia|].
      eapply Z.lt_le_trans; [exact Hup|].
      apply Z.pow_le_mono_r; lia.
    + replace i with ((L - 1 - (15 - i)) + String.length (Py.zeros (16 - L)))%nat
        at 1 by (rewrite length_zeros; lia).
      rewrite <- append_correct2. unfold L. rewrite bin_pos_get by (fold L; lia).
      replace (Z.of_nat (15 - i)) with (15 - Z.of_nat i) by lia.
      reflexivity.
Qed.

(** X18.  The binary string that the encoder returns beside the word is
    the word, most significant bit first: for a cart with the five keys,
    any quantities and either value of the flag, both files return the
    same word and string, and the character at position [i] of the string
    (0 <= i < 16, from the left) is 1 when bit 15 - i of the word is set
    and 0 when it is not. *)
Theorem binary_string_bits (order : gmap string Z) (dispense_now : bool)
    (i : nat) :
  is_table order -> (i < 16)%nat ->
  exists (command : Z) (binary : string),
    controller_encode order dispense_now = Ok (command, binary) /\
    app_encode order dispense_now = Ok (command, binary) /\
    String.get i binary
    = Some (if Z.testbit command (15 - Z.of_nat i)
            then "1"%char else "0"%char).
Proof.
  intros Ht Hi. eexists _, _.
  rewrite controller_encode_run, app_encode_run by assumption.
  do 2 (split; [reflexivity|]).
  apply format_016b_get; [apply command_word_bound|assumption].
Qed.

Lemma binary_string_bits_witness :
  exists (command : Z) (binary : string),
    controller_encode (mk_order 0 0 1 0 2) true = Ok (command, binary) /\
    app_encode (mk_order 0 0 1 0 2) true = Ok (command, binary) /\
    String.get 2 binary
    = Some (if Z.testbit command (15 - Z.of_nat 2)
            then "1"%char else "0"%char).
Proof.
  apply (binary_string_bits (mk_order 0 0 1 0 2) true 2).
  - apply mk_order_is_table.
  - lia.
Defined.

(** ** The limit of [int] on the number of digits *)

Lemma int_space_not_digit (c : ascii) :
  Py.int_space c = true -> Py.digit_val c = None.
Proof. destruct c as [[] [] [] [] [] [] [] []]; (reflexivity || discriminate). Qed.

Lemma count_digits_lstrip (p : ascii -> bool) (s : string) :
  (forall c, p c = true -> Py.digit_val c = None) ->
  Py.count_digits (Py.lstrip_by p s) = Py.count_digits s.
Proof.
  intros Hp. induction s as [|c s IH]; simpl; [reflexivity|].
  destruct (p c) eqn:Hc; [|reflexivity].
  now rewrite IH, (Hp c Hc).
Qed.

Lemma count_digits_rstrip (p : ascii -> bool) (s : string) :
  (forall c, p c = true -> Py.digit_val c = None) ->
  Py.count_digits (Py.rstrip_by p s) = Py.count_digits s.
Proof.
  intros Hp. induction s as [|c s IH]; simpl; [reflexivity|].
  destruct (Py.rstrip_by p s) as [|c' r] eqn:Hr.
  - simpl in IH. rewrite <- IH.
    destruct (p c) eqn:Hc; simpl; [now rewrite (Hp c Hc)|reflexivity].
  - change (Py.count_digits (String c (String c' r)))
      with ((match Py.digit_val c with Some _ => 1 | None => 0 end)
            + Py.count_digits (String c' r)).
    now rewrite IH.
Qed.

Lemma int_literal_long (s : string) :
  Py.INT_MAX_STR_DIGITS < Py.count_digits s -> Py.int_literal s = None.
Proof.
  intros Hlong. unfold Py.int_literal.
  destruct (Z.leb_spec (Py.count_digits s) Py.INT_MAX_STR_DIGITS);
    [lia|reflexivity].
Qed.

(** A string with more than 4300 digits is no integer for [int], whatever
    its sign, its underscores and the white space around it. *)
Lemma int_too_long (s : string) :
  Py.INT_MAX_STR_DIGITS < Py.count_digits s -> Py.int s = None.
Proof.
  intros Hlong. unfold Py.int, Py.strip_by.
  rewrite <- (count_digits_lstrip Py.int_space s int_space_not_digit)
    in Hlong.
  rewrite <- (count_digits_rstrip Py.int_space _ int_space_not_digit)
    in Hlong.
  destruct (Py.rstrip_by Py.int_space (Py.lstrip_by Py.int_space s))
    as [|c body]; [now apply int_literal_long|].
  assert (Py.int_literal (String c body) = None) as Hwhole
    by now apply int_literal_long.
  assert (Py.digit_val c = None -> Py.int_literal body = None) as Hbody.
  { intros Hc. apply int_literal_long.
    simpl in Hlong. now rewrite Hc in Hlong. }
  destruct c as [[] [] [] [] [] [] [] []];
    try exact Hwhole; now rewrite Hbody.
Qed.

(** A line whose quantity has more than 4300 digits is reported as
    malformed by both files, and as an invalid quantity by [main_cli]; the
    cart is left as it is. *)
Lemma over_long_quantity_refused (serial : nat -> serial_outcome)
    (line command item qtok : string) (order : gmap string Z) (a : nat)
    (t : list event) :
  tokens line = [command; item; qtok] ->
  command = "add" \/ command = "remove" ->
  Py.INT_MAX_STR_DIGITS < Py.count_digits qtok ->
  Controller.process_line serial line (World order a t)
  = (Ok tt, World order a (t ++ [Print Terminal (MsgMalformed line)])) /\
  App.process_line serial line (World order a t)
  = (Ok tt, World order a (t ++ [Print Ui (MsgMalformed line)])).
Proof.
  intros Htok Hcmd Hlong. pose proof (int_too_long qtok Hlong) as Hint.
  now rewrite (controller_process_line_malformed serial line command item
                 qtok order a t Htok Hcmd Hint),
    (app_process_line_malformed serial line command item qtok order a t
       Htok Hcmd Hint).
Qed.

Lemma cli_over_long_quantity_refused (serial : nat -> serial_outcome)
    (raw command item qtok : string) (inputs : list string) (s : session) :
  cli_tokens raw = [command; item; qtok] ->
  command = "add" \/ command = "remove" ->
  Py.INT_MAX_STR_DIGITS < Py.count_digits qtok ->
  cli_loop serial (raw :: inputs) s =
  cli_loop serial inputs
    (shown s (cart s) (uses s)
       [Console MsgEnterCommand; Console MsgInvalidQuantity]).
Proof.
  intros Htok Hcmd Hlong.
  apply (cli_loop_invalid_quantity serial raw command item qtok inputs s
           Htok Hcmd).
  now apply int_too_long.
Qed.

(** The line [add soda] followed by 4301 zeros is such a line. *)
Lemma over_long_quantity_example :
  Py.int (Py.zeros 4300) = Some 0 /\
  Py.int (Py.zeros 4301) = None /\
  current_order
    (App.process_line (fun _ => SerOk) ("add soda 1" +:+ Py.zeros 4300)
       (World (mk_order 0 0 5 0 0) 0 [])).2 = mk_order 0 0 5 0 0 /\
  current_order
    (Controller.process_line (fun _ => SerOk)
       ("remove soda -1" +:+ Py.zeros 4300)
       (World (mk_order 0 0 5 0 0) 0 [])).2 = mk_order 0 0 5 0 0.
Proof. repeat split; vm_compute; reflexivity. Qed.
